(** * Asset temperature sync to devices: the reconciliation engine

    A shallow embedding of [sync_asset_temperature_to_devices.py]: the DevEUI
    normaliser, the payload codec, the downlink dispatcher and the
    per-device decision logic and device loop of [main].

    Conventions of the embedding.
    - Attribute values arrive as parsed JSON scalars and are kept as
      [pyval]; Python's [==], truthiness and [str()] are written out on it.
    - A finite Python [float] is a rational and doubling a finite binary64
      value is exact, so a float is carried as a [Q]; NaN and the
      infinities are not JSON numbers and are left out.
    - Strings are sequences of ASCII characters.
    - [float()] on a string and [repr()] of a float are Python builtins
      that the script only calls; they are parameters of the development.
    - HTTP collaborators that only read the registry are represented by the
      data they return; the downlink transport is an oracle that may answer
      differently on every call.
    - Log lines are printed for the operator only and carry no state; they
      are left out, apart from the events of the dispatcher.
    - An exception that nothing catches ends the run where it is raised,
      without the summary: the extraction of a DevEUI raises on a name or
      a label that is no string, a JSON [null] label for one.

    The functions of the script that read the registry, the Melita.io
    client of [heatmanager_common/melita.py] and the valve position check
    of [check_valvePosition.py] are embedded in the modules [ThingsBoard],
    [Melita] and [CheckValvePosition]; each states its own conventions. *)

From stdpp Require Import gmap strings.
From Stdlib Require Import ZArith QArith List String Ascii Bool Lia.
From Stdlib Require Import Numbers.DecimalString.
Import ListNotations.

Open Scope string_scope.
Open Scope Z_scope.

(** ** Python values and builtins *)

Inductive pyval : Type :=
| PyNone
| PyBool (b : bool)
| PyInt (z : Z)
| PyFloat (q : Q)
| PyStr (s : string).

(** The numeric value of a number-like object ([bool] is a subclass of
    [int] in Python). *)
Definition py_number (v : pyval) : option Q :=
  match v with
  | PyBool b => Some (if b then 1%Q else 0%Q)
  | PyInt z => Some (inject_Z z)
  | PyFloat q => Some q
  | PyNone | PyStr _ => None
  end.

(** [a == b] *)
Definition py_eq (a b : pyval) : bool :=
  match a, b with
  | PyNone, PyNone => true
  | PyStr s, PyStr t => String.eqb s t
  | _, _ =>
      match py_number a, py_number b with
      | Some x, Some y => Qeq_bool x y
      | _, _ => false
      end
  end.

(** [a is None] *)
Definition is_None (v : pyval) : bool :=
  match v with PyNone => true | _ => false end.

(** [bool(v)] *)
Definition py_truthy (v : pyval) : bool :=
  match v with
  | PyNone => false
  | PyBool b => b
  | PyInt z => negb (z =? 0)
  | PyFloat q => negb (Qeq_bool q 0)
  | PyStr s => negb (String.eqb s "")
  end.

(** Truthiness of a value that is a string or [None]. *)
Definition str_truthy (o : option string) : bool :=
  match o with
  | Some s => negb (String.eqb s "")
  | None => false
  end.

Definition code (c : ascii) : nat := nat_of_ascii c.

(** [c.isspace()] on ASCII. *)
Definition is_space (c : ascii) : bool :=
  let n := code c in
  ((9 <=? n) && (n <=? 13) || (28 <=? n) && (n <=? 32))%nat.

Definition upper_char (c : ascii) : ascii :=
  let n := code c in
  if ((97 <=? n) && (n <=? 122))%nat then ascii_of_nat (n - 32) else c.

Definition lower_char (c : ascii) : ascii :=
  let n := code c in
  if ((65 <=? n) && (n <=? 90))%nat then ascii_of_nat (n + 32) else c.

Fixpoint map_string (f : ascii -> ascii) (s : string) : string :=
  match s with
  | EmptyString => EmptyString
  | String c r => String (f c) (map_string f r)
  end.

(** [s.upper()], [s.lower()] *)
Definition py_upper (s : string) : string := map_string upper_char s.
Definition py_lower (s : string) : string := map_string lower_char s.

Fixpoint py_lstrip (s : string) : string :=
  match s with
  | EmptyString => EmptyString
  | String c r => if is_space c then py_lstrip r else s
  end.

Fixpoint py_rstrip (s : string) : string :=
  match s with
  | EmptyString => EmptyString
  | String c r =>
      match py_rstrip r with
      | EmptyString => if is_space c then EmptyString else String c EmptyString
      | r' => String c r'
      end
  end.

(** [s.strip()] *)
Definition py_strip (s : string) : string := py_rstrip (py_lstrip s).

(** [s.replace(old, new)]: occurrences are found from the left and do not
    overlap. [skip] counts the characters of a match still to be dropped. *)
Fixpoint replace_from (skip : nat) (old new s : string) : string :=
  match s with
  | EmptyString => EmptyString
  | String c r =>
      match skip with
      | S k => replace_from k old new r
      | O =>
          if String.prefix old s
          then new ++ replace_from (String.length old - 1) old new r
          else String c (replace_from 0 old new r)
      end
  end.

Fixpoint intersperse (new s : string) : string :=
  match s with
  | EmptyString => new
  | String c r => new ++ String c (intersperse new r)
  end.

Definition py_replace (old new s : string) : string :=
  match old with
  | EmptyString => intersperse new s
  | _ => replace_from 0 old new s
  end.

Fixpoint all_chars (p : ascii -> bool) (s : string) : bool :=
  match s with
  | EmptyString => true
  | String c r => p c && all_chars p r
  end.

(** [c in '0123456789ABCDEF'] *)
Definition in_hex_digits (c : ascii) : bool :=
  let n := code c in
  ((48 <=? n) && (n <=? 57) || (65 <=? n) && (n <=? 70))%nat.

(** The outcome of a call that may end in an exception that nothing
    catches. *)
Inductive outcome (A : Type) : Type :=
| Return (a : A)
| Raise.
Arguments Return {A} a.
Arguments Raise {A}.

(** [v.strip()]: only a string has the method, [None] stands for the
    [AttributeError] of any other value. *)
Definition strip_method (v : pyval) : option string :=
  match v with
  | PyStr s => Some (py_strip s)
  | _ => None
  end.

(** ** JSON documents *)

(** What [response.json()] returns. An object is given by its items, every
    key once; JSON [null] is Python's [None]. *)
#[warnings="-register-all"]
Inductive json : Type :=
| JNull
| JBool (b : bool)
| JInt (z : Z)
| JFloat (q : Q)
| JStr (s : string)
| JList (items : list json)
| JDict (fields : list (string * json)).

(** [k in d] and [d[k]] on the items of a dict: the newest item of a key
    comes first. *)
Fixpoint dict_get (k : string) (d : list (string * json)) : option json :=
  match d with
  | [] => None
  | (k', v) :: rest => if String.eqb k' k then Some v else dict_get k rest
  end.

(** [d.get(k, default)] *)
Definition get_or (k : string) (default : json) (d : list (string * json))
  : json :=
  match dict_get k d with
  | Some v => v
  | None => default
  end.

(** [bool(j)] *)
Definition json_truthy (j : json) : bool :=
  match j with
  | JNull => false
  | JBool b => b
  | JInt z => negb (z =? 0)
  | JFloat q => negb (Qeq_bool q 0)
  | JStr s => negb (String.eqb s "")
  | JList [] => false
  | JList _ => true
  | JDict [] => false
  | JDict _ => true
  end.

(** [j == s] for a string [s] *)
Definition json_eq_str (j : json) (s : string) : bool :=
  match j with
  | JStr t => String.eqb t s
  | _ => false
  end.

(** The value of a JSON number ([bool] counts as a number in Python). *)
Definition json_number (j : json) : option Q :=
  match j with
  | JBool b => Some (if b then 1%Q else 0%Q)
  | JInt z => Some (inject_Z z)
  | JFloat q => Some q
  | _ => None
  end.

(** The elements that iterating over [j] yields: the items of a list, the
    characters of a string, the keys of a dict; [None] stands for the
    [TypeError] of the other values. *)
Definition py_iter (j : json) : option (list json) :=
  match j with
  | JList items => Some items
  | JStr s =>
      Some (map (fun c => JStr (String c EmptyString)) (list_ascii_of_string s))
  | JDict fields => Some (map (fun kv => JStr (fst kv)) fields)
  | _ => None
  end.

(** * The ThingsBoard client of the sync script

    The functions of [sync_asset_temperature_to_devices.py] that read the
    registry. A function that makes one request takes the answer to that
    request; a function that makes several takes the server. [None] as a
    result stands for an exception that the function does not catch (a
    [TypeError] or [AttributeError] on a document of unexpected shape). *)
Module ThingsBoard.

(** What [requests.get] does: a response with a status code and a JSON
    body, or a [RequestException]. *)
Inductive response : Type :=
| Response (status_code : Z) (body : json)
| RequestException.

Record asset_attributes : Type := mkAssetAttributes {
  minTemp : json;
  maxTemp : json
}.

Record device_attributes : Type := mkDeviceAttributes {
  manu_temp_min : json;
  manu_temp_max : json
}.

(** [for attr in attributes_data: ...] of [get_asset_attributes] and
    [get_device_attributes]. A key that is a list or a dict cannot be
    hashed; a key that is not a string is never looked up and is not
    kept. *)
Fixpoint collect_attributes (attributes_data : list json)
    (attributes_dict : list (string * json))
  : option (list (string * json)) :=
  match attributes_data with
  | [] => Some attributes_dict
  | attr :: rest =>
      match attr with
      | JDict fields =>
          match dict_get "key" fields, dict_get "value" fields with
          | Some key, Some value =>
              match key with
              | JStr k => collect_attributes rest ((k, value) :: attributes_dict)
              | JList _ | JDict _ => None
              | _ => collect_attributes rest attributes_dict
              end
          | _, _ => collect_attributes rest attributes_dict
          end
      | _ => collect_attributes rest attributes_dict
      end
  end.

(** The [attributes_dict] of both functions. *)
Definition attributes_dict_of (attributes_data : json)
  : option (list (string * json)) :=
  match attributes_data with
  | JList items => collect_attributes items []
  | JDict fields => Some fields
  | _ => Some []
  end.

Definition get_asset_attributes (response : response)
  : option asset_attributes :=
  match response with
  | Response status_code attributes_data =>
      if status_code =? 200 then
        match attributes_dict_of attributes_data with
        | Some attributes_dict =>
            Some (mkAssetAttributes
                    (get_or "minTemp" JNull attributes_dict)
                    (get_or "maxTemp" JNull attributes_dict))
        | None => None
        end
      else Some (mkAssetAttributes JNull JNull)
  | RequestException => Some (mkAssetAttributes JNull JNull)
  end.

Definition get_device_attributes (response : response)
  : option device_attributes :=
  match response with
  | Response status_code attributes_data =>
      if status_code =? 200 then
        match attributes_dict_of attributes_data with
        | Some attributes_dict =>
            Some (mkDeviceAttributes
                    (get_or "manu_temp_min" JNull attributes_dict)
                    (get_or "manu_temp_max" JNull attributes_dict))
        | None => None
        end
      else Some (mkDeviceAttributes JNull JNull)
  | RequestException => Some (mkDeviceAttributes JNull JNull)
  end.

(** [JNull] is the [None] the function returns. *)
Definition get_device_by_id (response : response) : json :=
  match response with
  | Response status_code body => if status_code =? 200 then body else JNull
  | RequestException => JNull
  end.

Definition SUPPORTED_DEVICE_TYPES : list string :=
  ["dnt-LW-eTRV-C"; "dnt-LW-eTRV"].

(** The body of [for rel in relations:]: the identifier the relation
    contributes, if any. *)
Definition relation_device_id (rel : json) : option json :=
  match rel with
  | JDict fields =>
      match get_or "to" (JDict []) fields with
      | JDict to_entity =>
          let device_id := get_or "id" JNull to_entity in
          if json_truthy device_id then Some device_id else None
      | _ => None
      end
  | _ => None
  end.

Fixpoint relation_device_ids (relations : list json) : list json :=
  match relations with
  | [] => []
  | rel :: rest =>
      match relation_device_id rel with
      | Some device_id => device_id :: relation_device_ids rest
      | None => relation_device_ids rest
      end
  end.

(** [for device_id in device_ids:] with the answer of the registry to the
    request for each device. *)
Fixpoint supported_devices (requests_get : json -> response)
    (device_ids : list json) : option (list json) :=
  match device_ids with
  | [] => Some []
  | device_id :: rest =>
      let device := get_device_by_id (requests_get device_id) in
      if json_truthy device then
        match device with
        | JDict fields =>
            let device_type := get_or "type" (JStr "") fields in
            match supported_devices requests_get rest with
            | Some devices =>
                if existsb (json_eq_str device_type) SUPPORTED_DEVICE_TYPES
                then Some (device :: devices)
                else Some devices
            | None => None
            end
        | _ => None
        end
      else supported_devices requests_get rest
  end.

Definition get_asset_devices (requests_get : json -> response)
    (response : response) : option (list json) :=
  match response with
  | Response status_code relations =>
      if status_code =? 200 then
        let device_ids :=
          match relations with
          | JList items => relation_device_ids items
          | _ => []
          end in
        supported_devices requests_get device_ids
      else Some []
  | RequestException => Some []
  end.

(** How the loop of [get_customer_assets] ends. *)
Inductive loop_result : Type :=
| Returned (all_assets : list json)
| Raised
| Unfinished.

(** [while True:] of [get_customer_assets], from page [page] on; the
    server answers the request for a page. The loop ends when the server
    says so, which the fuel stands for. *)
Fixpoint get_customer_assets_from (fuel : nat)
    (requests_get : Z -> response) (page : Z) (all_assets : list json)
  : loop_result :=
  match fuel with
  | O => Unfinished
  | S fuel =>
      match requests_get page with
      | Response status_code assets_data =>
          if status_code =? 200 then
            match assets_data with
            | JDict fields =>
                let assets := get_or "data" (JList []) fields in
                let total_pages := get_or "totalPages" (JInt 0) fields in
                match py_iter assets with
                | Some items =>
                    let all_assets := (all_assets ++ items)%list in
                    match json_number total_pages with
                    | Some n =>
                        if Qle_bool (n - 1) (inject_Z page)
                        then Returned all_assets
                        else
                          get_customer_assets_from fuel requests_get
                            (page + 1) all_assets
                    | None => Raised
                    end
                | None => Raised
                end
            | _ => Raised
            end
          else Returned all_assets
      | RequestException => Returned []
      end
  end.

Definition get_customer_assets (fuel : nat) (requests_get : Z -> response)
  : loop_result :=
  get_customer_assets_from fuel requests_get 0 [].

(** *** Vocabulary *)

(** An entry of an attribute listing that sets the attribute [k]. *)
Definition sets_attribute (k : string) (attr : json) : bool :=
  match attr with
  | JDict fields =>
      match dict_get "key" fields, dict_get "value" fields with
      | Some key, Some _ => json_eq_str key k
      | _, _ => false
      end
  | _ => false
  end.

(** An entry whose key can be hashed. *)
Definition hashable_key (attr : json) : bool :=
  match attr with
  | JDict fields =>
      match dict_get "key" fields, dict_get "value" fields with
      | Some (JList _), Some _ | Some (JDict _), Some _ => false
      | _, _ => true
      end
  | _ => true
  end.

(** The value an entry carries. *)
Definition entry_value (attr : json) : json :=
  match attr with
  | JDict fields => get_or "value" JNull fields
  | _ => JNull
  end.

(** The value of the last entry of a listing that sets [k]; [None] when
    there is none. *)
Definition last_value (k : string) (attributes_data : list json) : json :=
  match filter (sets_attribute k) attributes_data with
  | [] => JNull
  | first :: more => entry_value (last more first)
  end.

(** An attribute entry as the registry lists it. *)
Definition attribute_entry (k : string) (v : json) : json :=
  JDict [("lastUpdateTs", JInt 0); ("key", JStr k); ("value", v)].

(** A device document has a supported type. *)
Definition supported (device : json) : bool :=
  match device with
  | JDict fields =>
      existsb (json_eq_str (get_or "type" (JStr "") fields))
        SUPPORTED_DEVICE_TYPES
  | _ => false
  end.

(** A page of the asset listing. *)
Definition page_of (items : list json) (total_pages : Z) : json :=
  JDict [("data", JList items); ("totalPages", JInt total_pages)].

(** The items of the pages [first, first + count). *)
Fixpoint pages (chunk : Z -> list json) (first : Z) (count : nat)
  : list json :=
  match count with
  | O => []
  | S n => (chunk first ++ pages chunk (first + 1) n)%list
  end.

(** *** Sample inputs *)

Definition sample_attributes : list json :=
  [attribute_entry "minTemp" (JInt 19);
   attribute_entry "maxTemp" (JInt 25);
   attribute_entry "minTemp" (JInt 20)].

Definition relation_to (device_id : string) : json :=
  JDict [("to", JDict [("entityType", JStr "DEVICE"); ("id", JStr device_id)])].

Definition device_of_type (device_type : string) : json :=
  JDict [("name", JStr "valve"); ("type", JStr device_type)].

(** A registry with a thermostat [d1] and a sensor [d2]. *)
Definition sample_devices (device_id : json) : response :=
  if json_eq_str device_id "d1" then Response 200 (device_of_type "dnt-LW-eTRV")
  else if json_eq_str device_id "d2" then Response 200 (device_of_type "sensor")
  else Response 404 JNull.

Definition one_asset (p : Z) : list json := [JInt p].

(** A listing of two pages. *)
Definition two_pages (p : Z) : response :=
  Response 200 (page_of (one_asset p) 2).

(** A listing of three pages that fails from the second page on. *)
Definition second_page_fails (p : Z) : response :=
  if p <? 1 then Response 200 (page_of (one_asset p) 3)
  else Response 500 JNull.

End ThingsBoard.

(** * The Melita.io client

    A shallow embedding of [heatmanager_common/melita.py]: the bearer
    token, the device queue and the temperature payload of the vicki
    thermostats.

    - The module's global [melita_bearer_token] and the requests made so
      far are the state that every function passes on.
    - The server is an oracle that may answer differently on every call.
    - The answer of the auth endpoint, when it is JSON, is an object whose
      [authToken], if present, is a string.
    - [int()] on a string, [bytes.fromhex] and [base64.b64encode] are
      library functions that the module only calls; they are parameters.
    - Printed lines and the pauses of [time.sleep] are left out. The loop
      of [send_temperature_to_all_vicki_devices] counts an unexpected
      exception as an error; the functions it calls raise none here. *)
Module Melita.

Record queue_data : Type := mkQueueData {
  confirmed : bool;
  data : string;
  devEUI : string;
  fPort : Z
}.

(** The requests of the module; [headers] is the bearer token of the
    [Authorization] header, [None] when [get_melita_headers] returns
    [None]. *)
Inductive request : Type :=
| AuthGenerate (ApiKey : string)
| QueueDelete (device_eui : string) (headers : option string)
| QueuePost (device_eui : string) (headers : option string)
    (json : queue_data).

(** The body of an answer as far as the module reads it. *)
Inductive body : Type :=
| NotJson
| Json (authToken : option string).

Inductive response : Type :=
| Response (status_code : Z) (content : body)
| RequestException.

Record state : Type := mkState {
  melita_bearer_token : option string;
  requests_made : list (request * response)
}.

(** One item of [devices_data]; an absent key reads as [None]. *)
Record device_data : Type := mkDeviceData {
  device_eui : option string;
  min_temp : pyval;
  max_temp : pyval;
  operational_mode : pyval
}.

Record counts : Type := mkCounts {
  success_count : Z;
  error_count : Z
}.

(** One digit of [format(n, 'x')]. *)
Definition hex_digit (d : Z) : ascii :=
  if d <? 10 then ascii_of_nat (48 + Z.to_nat d)
  else ascii_of_nat (87 + Z.to_nat d).

(** The digits of a non-negative [n], most significant first. *)
Fixpoint hex_lower_aux (fuel : nat) (n : Z) (acc : string) : string :=
  let acc' := String (hex_digit (n mod 16)) acc in
  match fuel with
  | O => acc'
  | S f => if n <? 16 then acc' else hex_lower_aux f (n / 16) acc'
  end.

Definition hex_lower (n : Z) : string :=
  hex_lower_aux (Z.to_nat (Z.log2 n)) n "".

(** [f"{n:02x}"]: the sign counts towards the width of two. *)
Definition format_02x (n : Z) : string :=
  if n <? 0 then "-" ++ hex_lower (- n)
  else
    let h := hex_lower n in
    if (String.length h <? 2)%nat then "0" ++ h else h.

Section Client.

(** [int(s)] for a string: [None] stands for [ValueError]. *)
Variable py_int_of_str : string -> option Z.
(** [bytes.fromhex(s)]: [None] stands for [ValueError]. *)
Variable bytes_fromhex : string -> option (list Z).
(** [base64.b64encode(b).decode('utf-8')] *)
Variable b64encode : list Z -> string.
(** The environment variable [MELITA_API_KEY]. *)
Variable MELITA_API_KEY : option string.
(** The server: its answer may depend on everything that happened before
    the request. *)
Variable server : list (request * response) -> request -> response.

(** [int(v)]: [None] stands for [ValueError] or [TypeError]. *)
Definition py_int (v : pyval) : option Z :=
  match v with
  | PyNone => None
  | PyBool b => Some (if b then 1 else 0)
  | PyInt z => Some z
  | PyFloat q => Some (Z.quot (Qnum q) (Zpos (Qden q)))
  | PyStr s => py_int_of_str s
  end.

(** One call of [requests]. *)
Definition requests_call (rq : request) (st : state) : response * state :=
  let rs := server (requests_made st) rq in
  (rs, mkState (melita_bearer_token st) (requests_made st ++ [(rq, rs)])%list).

Definition generate_melita_bearer_token (st : state)
  : option string * state :=
  if negb (str_truthy MELITA_API_KEY) then (None, st)
  else
    match MELITA_API_KEY with
    | Some key =>
        let '(response, st) := requests_call (AuthGenerate key) st in
        match response with
        | Response status_code content =>
            if status_code =? 200 then
              match content with
              | Json (Some authToken) =>
                  (Some authToken,
                   mkState (Some authToken) (requests_made st))
              | Json None => (None, st)
              | NotJson => (None, st)
              end
            else (None, st)
        | RequestException => (None, st)
        end
    | None => (None, st)
    end.

Definition get_melita_headers (st : state) : option string :=
  if negb (str_truthy (melita_bearer_token st)) then None
  else melita_bearer_token st.

Definition flush_melita_device_queue (device_eui : string) (st : state)
  : bool * state :=
  if negb (str_truthy (melita_bearer_token st)) then (false, st)
  else
    let headers := get_melita_headers st in
    let '(response, st) := requests_call (QueueDelete device_eui headers) st in
    match response with
    | Response status_code _ =>
        if status_code =? 200 then (true, st)
        else if status_code =? 204 then (true, st)
        else if status_code =? 403 then
          let '(token, st) := generate_melita_bearer_token st in
          if str_truthy token then
            let headers := get_melita_headers st in
            let '(response, st) :=
              requests_call (QueueDelete device_eui headers) st in
            match response with
            | Response status_code _ =>
                ((status_code =? 200) || (status_code =? 204), st)
            | RequestException => (false, st)
            end
          else (false, st)
        else (false, st)
    | RequestException => (false, st)
    end.

Definition send_melita_queue_message (device_eui data : string) (fport : Z)
    (confirmed : bool) (st : state) : bool * state :=
  if negb (str_truthy (melita_bearer_token st)) then (false, st)
  else
    let '(flushed, st) := flush_melita_device_queue device_eui st in
    if negb flushed then (false, st)
    else
      let headers := get_melita_headers st in
      let queue_data := mkQueueData confirmed data device_eui fport in
      let '(response, st) :=
        requests_call (QueuePost device_eui headers queue_data) st in
      match response with
      | Response status_code _ =>
          if status_code =? 200 then (true, st)
          else if status_code =? 403 then
            let '(token, st) := generate_melita_bearer_token st in
            if str_truthy token then
              let headers := get_melita_headers st in
              let '(response, st) :=
                requests_call (QueuePost device_eui headers queue_data) st in
              match response with
              | Response status_code _ => (status_code =? 200, st)
              | RequestException => (false, st)
              end
            else (false, st)
          else (false, st)
      | RequestException => (false, st)
      end.

Definition create_temperature_hex_payload
    (min_temp max_temp operational_mode : pyval) : option string :=
  match py_int min_temp with
  | Some min_temp_int =>
      match py_int max_temp with
      | Some max_temp_int =>
          if (min_temp_int <? 0) || (255 <? min_temp_int) then None
          else if (max_temp_int <? 0) || (255 <? max_temp_int) then None
          else
            let op_mode_hex :=
              if py_eq operational_mode (PyInt 2)
                 || py_eq operational_mode (PyInt 10)
              then "02" else "00" in
            Some ("08" ++ format_02x min_temp_int ++ format_02x max_temp_int
                  ++ "0d" ++ op_mode_hex ++ "1518")
      | None => None
      end
  | None => None
  end.

Definition hex_to_base64 (hex_string : string) : option string :=
  match bytes_fromhex hex_string with
  | Some hex_bytes => Some (b64encode hex_bytes)
  | None => None
  end.

Definition send_temperature_to_vicki_device (device_eui : string)
    (min_temp max_temp operational_mode : pyval) (fport : Z) (st : state)
  : bool * state :=
  let hex_payload :=
    create_temperature_hex_payload min_temp max_temp operational_mode in
  if negb (str_truthy hex_payload) then (false, st)
  else
    match hex_payload with
    | Some hex_payload =>
        let base64_payload := hex_to_base64 hex_payload in
        if negb (str_truthy base64_payload) then (false, st)
        else
          match base64_payload with
          | Some base64_payload =>
              send_melita_queue_message device_eui base64_payload fport
                false st
          | None => (false, st)
          end
    | None => (false, st)
    end.

(** The body of [for i, device in enumerate(devices_data, 1):]. *)
Definition send_temperature_to_one (device : device_data) (fport : Z)
    (acc : counts * state) : counts * state :=
  let '(c, st) := acc in
  if negb (str_truthy (device_eui device)
           && negb (is_None (min_temp device))
           && negb (is_None (max_temp device)))
  then (mkCounts (success_count c) (error_count c + 1), st)
  else
    match device_eui device with
    | Some eui =>
        let '(sent, st) :=
          send_temperature_to_vicki_device eui (min_temp device)
            (max_temp device) (operational_mode device) fport st in
        if sent then (mkCounts (success_count c + 1) (error_count c), st)
        else (mkCounts (success_count c) (error_count c + 1), st)
    | None => (mkCounts (success_count c) (error_count c + 1), st)
    end.

Fixpoint send_temperature_loop (devices_data : list device_data) (fport : Z)
    (acc : counts * state) : counts * state :=
  match devices_data with
  | [] => acc
  | device :: rest =>
      send_temperature_loop rest fport
        (send_temperature_to_one device fport acc)
  end.

Definition send_temperature_to_all_vicki_devices
    (devices_data : list device_data) (fport : Z) (st : state)
  : bool * state :=
  match devices_data with
  | [] => (false, st)
  | _ =>
      let '(token, st) := generate_melita_bearer_token st in
      if negb (str_truthy token) then (false, st)
      else
        let '(c, st) :=
          send_temperature_loop devices_data fport (mkCounts 0 0, st) in
        (0 <? success_count c, st)
  end.

End Client.

(** *** Vocabulary *)

(** The value of one lowercase hexadecimal digit. *)
Definition hex_value (c : ascii) : Z :=
  let n := Z.of_nat (nat_of_ascii c) in
  if n <=? 57 then n - 48 else n - 87.

(** The bytes that a string of hexadecimal digits spells. *)
Fixpoint hex_bytes (s : string) : list Z :=
  match s with
  | String a (String b rest) =>
      (16 * hex_value a + hex_value b) :: hex_bytes rest
  | _ => []
  end.

Definition is_delete (e : request * response) : bool :=
  match fst e with QueueDelete _ _ => true | _ => false end.

Definition is_post (e : request * response) : bool :=
  match fst e with QueuePost _ _ _ => true | _ => false end.

(** A request that cleared the queue of the device. *)
Definition flushed (device_eui : string) (e : request * response) : bool :=
  match e with
  | (QueueDelete d _, Response c _) =>
      String.eqb d device_eui && ((c =? 200) || (c =? 204))
  | _ => false
  end.

(** A message that the server accepted. *)
Definition accepted (e : request * response) : bool :=
  match e with
  | (QueuePost _ _ _, Response c _) => c =? 200
  | _ => false
  end.

(** What a request is about: the device it names, if any. *)
Definition request_device (rq : request) : option string :=
  match rq with
  | AuthGenerate _ => None
  | QueueDelete d _ | QueuePost d _ _ => Some d
  end.

(** A request for a token, or a request about the device. *)
Definition concerns (device_eui : string) (e : request * response) : Prop :=
  request_device (fst e) = None \/ request_device (fst e) = Some device_eui.

(** A request for a token, or a request about one of the devices. *)
Definition concerns_one_of (devices_data : list device_data)
    (e : request * response) : Prop :=
  request_device (fst e) = None
  \/ exists device,
       In device devices_data
       /\ device_eui device = request_device (fst e).

(** The last of a list of requests is one that [p] accepts. *)
Definition last_is (p : request * response -> bool)
    (new : list (request * response)) : bool :=
  match new with
  | [] => false
  | first :: more => p (last more first)
  end.

(** *** Sample inputs *)

(** The setpoints below are numbers: [int()] is never asked to read a
    string. *)
Definition int_of_str_unused (s : string) : option Z := None.

End Melita.

(** * The valve position check

    A shallow embedding of [check_valvePosition.py]: the downlink that asks
    a thermostat for its valve position, and the loop of [main] over the
    rows that the database query returns.

    - The database is represented by what [get_database_connection] and
      [execute_query] return; a row is a dict of scalar column values.
    - The LNS API is an oracle that may answer differently on every call.
    - Printed lines are left out. *)
Module CheckValvePosition.

(** The body of one downlink request. *)
Record payload : Type := mkPayload {
  deviceId : pyval;
  frm_payload : string;
  confirmed : bool;
  priority : string
}.

(** One call of [requests.post]; [X_API_Key] is the header of that name. *)
Record request : Type := mkRequest {
  api_url : string;
  X_API_Key : string;
  json : payload
}.

Inductive response : Type :=
| Response (status_code : Z)
| RequestException.

Record arguments : Type := mkArgs {
  dry_run : bool;
  pg_user : option string;
  pg_password : option string;
  lns_api_url : string;
  lns_api_key : option string
}.

(** The counters of the loop of [main]. *)
Record counts : Type := mkCounts {
  success_count : Z;
  error_count : Z
}.

(** How [main] ends: [sys.exit(1)], the early [return] when the query
    finds nothing, or the summary. *)
Inductive outcome : Type :=
| Exit
| NothingFound
| Summary (found : nat) (c : counts).

(** [a or b] *)
Definition py_or (a b : pyval) : pyval := if py_truthy a then a else b.

(** [row.get(k)] *)
Definition row_get (k : string) (row : gmap string pyval) : pyval :=
  match row !! k with
  | Some v => v
  | None => PyNone
  end.

Section Script.

(** The LNS API: its answer may depend on everything that was posted
    before. *)
Variable requests_post : list (request * response) -> request -> response.

Definition send_downlink (device_id : pyval) (api_url : string)
    (api_key : option string) (dry_run : bool)
    (posted : list (request * response))
  : bool * list (request * response) :=
  if negb (str_truthy api_key) then (false, posted)
  else
    match api_key with
    | Some key =>
        let payload := mkPayload device_id "03F4" false "NORMAL" in
        if dry_run then (true, posted)
        else
          let rq := mkRequest api_url key payload in
          let response := requests_post posted rq in
          match response with
          | Response status_code =>
              ((status_code =? 200) || (status_code =? 201)
               || (status_code =? 202),
               (posted ++ [(rq, response)])%list)
          | RequestException => (false, (posted ++ [(rq, response)])%list)
          end
    | None => (false, posted)
    end.

(** [device.get('device_id') or device.get('deviceId') or
    device.get('id')] *)
Definition device_id_of (device : gmap string pyval) : pyval :=
  py_or (py_or (row_get "device_id" device) (row_get "deviceId" device))
    (row_get "id" device).

(** The body of the second [for device in devices:] of [main]. *)
Definition main_device (args : arguments) (device : gmap string pyval)
    (acc : counts * list (request * response))
  : counts * list (request * response) :=
  let '(c, posted) := acc in
  let device_id := device_id_of device in
  if negb (py_truthy device_id) then
    (mkCounts (success_count c) (error_count c + 1), posted)
  else
    let '(sent, posted) :=
      send_downlink device_id (lns_api_url args) (lns_api_key args)
        (dry_run args) posted in
    if sent then (mkCounts (success_count c + 1) (error_count c), posted)
    else (mkCounts (success_count c) (error_count c + 1), posted).

Fixpoint main_devices (args : arguments)
    (devices : list (gmap string pyval))
    (acc : counts * list (request * response))
  : counts * list (request * response) :=
  match devices with
  | [] => acc
  | device :: rest => main_devices args rest (main_device args device acc)
  end.

(** [database] is [None] when [get_database_connection] returns [None],
    and the rows that [execute_query] returns otherwise. *)
Definition main (args : arguments)
    (database : option (list (gmap string pyval)))
  : outcome * list (request * response) :=
  if negb (str_truthy (lns_api_key args)) then (Exit, [])
  else if negb (str_truthy (pg_user args))
          || negb (str_truthy (pg_password args)) then (Exit, [])
  else
    match database with
    | None => (Exit, [])
    | Some [] => (NothingFound, [])
    | Some devices =>
        let '(c, posted) := main_devices args devices (mkCounts 0 0, []) in
        (Summary (List.length devices) c, posted)
    end.

End Script.

(** *** Vocabulary *)

(** A request that the LNS API accepted. *)
Definition accepted (e : request * response) : bool :=
  match snd e with
  | Response c => (c =? 200) || (c =? 201) || (c =? 202)
  | RequestException => false
  end.

(** A row that names its device. *)
Definition has_device_id (device : gmap string pyval) : bool :=
  py_truthy (device_id_of device).

(** The downlink the script sends for a device. *)
Definition valve_request (args : arguments) (key : string)
    (device : gmap string pyval) : request :=
  mkRequest (lns_api_url args) key
    (mkPayload (device_id_of device) "03F4" false "NORMAL").

(** *** Sample inputs *)

Definition sample_args : arguments :=
  mkArgs false (Some "reporting") (Some "secret")
    "http://localhost:3000/api/lns/downlink" (Some "key").

(** Three rows: one names its device under [device_id], one under [id],
    one not at all. *)
Definition sample_rows : list (gmap string pyval) :=
  [<["device_id" := PyStr "valve-1"]> (∅ : gmap string pyval);
   <["device_id" := PyStr ""]>
     (<["id" := PyInt 7]> (∅ : gmap string pyval));
   (∅ : gmap string pyval)].

(** An API that accepts every request. *)
Definition accepts_all (posted : list (request * response)) (rq : request)
  : response := Response 200.

End CheckValvePosition.

Section Sync.

(** [float(s)] for a string: [None] stands for [ValueError]. *)
Variable py_float_of_str : string -> option Q.
(** [repr(x)] for a float. *)
Variable py_repr_float : Q -> string.

(** [str(v)] *)
Definition py_str (v : pyval) : string :=
  match v with
  | PyNone => "None"
  | PyBool true => "True"
  | PyBool false => "False"
  | PyInt z => NilZero.string_of_int (Z.to_int z)
  | PyFloat q => py_repr_float q
  | PyStr s => s
  end.

(** [float(v)]: [None] stands for [ValueError] or [TypeError]. *)
Definition py_float (v : pyval) : option Q :=
  match v with
  | PyNone => None
  | PyStr s => py_float_of_str s
  | _ => py_number v
  end.

(** [int(x)] for a float: truncation towards zero. *)
Definition py_int (x : Q) : Z := Z.quot (Qnum x) (Zpos (Qden x)).

(** ** DevEUI normaliser *)

Definition normalize_deveui (deveui : pyval) : option string :=
  if negb (py_truthy deveui) then None
  else
    let deveui := py_upper (py_strip (py_str deveui)) in
    let deveui :=
      py_replace "eui_" ""
        (py_replace "EUI_" ""
           (py_replace "eui-" "" (py_replace "EUI-" "" deveui))) in
    let deveui :=
      py_replace ":" "" (py_replace "-" "" (py_replace " " "" deveui)) in
    if (String.length deveui =? 16)%nat && all_chars in_hex_digits deveui
    then Some deveui
    else None.

(** A device as the registry returns it, with the answers of the
    attribute calls made for it. [device_name] and [device_label] are the
    values under [name] and [label], the empty string when the key is
    absent and [PyNone] when it is JSON [null], as the label of a device
    without a label is. The names of the registry are strings, the field
    being mandatory there; a name that is no string is followed as far as
    the extraction, which strips it, and not into the log lines of [main],
    which slice it.
    [all_attrs] is the list of declared attributes, [None] when the lookup
    fails, answers another status than 200 or answers something that is not
    a list; entries that are no dictionaries or have no key are skipped by
    the code and do not appear, and an entry without a value has the value
    [PyNone]. [additionalInfo] is [None] when it is not a dictionary.
    [manu_temp_min] and [manu_temp_max] are the client attributes as
    [get_device_attributes] returns them, [PyNone] when the call fails. *)
Record attribute : Type := mkAttribute {
  attr_key : string;
  attr_value : pyval
}.

Record device : Type := mkDevice {
  device_name : pyval;
  device_label : pyval;
  additionalInfo : option (gmap string pyval);
  all_attrs : option (list attribute);
  manu_temp_min : pyval;
  manu_temp_max : pyval
}.

(** The loop over the declared attributes. *)
Fixpoint attrs_deveui (attrs : list attribute) : option string :=
  match attrs with
  | [] => None
  | attr :: rest =>
      let key := py_lower (attr_key attr) in
      if String.eqb key "deveui" || String.eqb key "eui" then
        let deveui := normalize_deveui (attr_value attr) in
        if str_truthy deveui then deveui else attrs_deveui rest
      else attrs_deveui rest
  end.

Definition additional_info_keys : list string :=
  ["devEUI"; "devEui"; "DevEUI"; "DevEui"; "deveui"; "eui"].

(** The loop over the keys of [additionalInfo]. *)
Fixpoint info_deveui (additional_info : gmap string pyval)
    (keys : list string) : option string :=
  match keys with
  | [] => None
  | key :: rest =>
      match additional_info !! key with
      | Some v =>
          let deveui := normalize_deveui v in
          if str_truthy deveui then deveui else info_deveui additional_info rest
      | None => info_deveui additional_info rest
      end
  end.

(** [if s: d = normalize_deveui(s); if d: return d] for a stripped name or
    label. *)
Definition text_deveui (s : string) : option string :=
  if negb (String.eqb s "") then
    let deveui := normalize_deveui (PyStr s) in
    if str_truthy deveui then deveui else None
  else None.

(** The lookup of the declared attributes is inside a [try] that catches
    everything; the name and the label are stripped outside of it. *)
Definition extract_deveui (device : device) : outcome (option string) :=
  match
    match all_attrs device with
    | Some attrs => attrs_deveui attrs
    | None => None
    end
  with
  | Some deveui => Return (Some deveui)
  | None =>
      match strip_method (device_name device) with
      | Some device_name =>
          match text_deveui device_name with
          | Some deveui => Return (Some deveui)
          | None =>
              match strip_method (device_label device) with
              | Some device_label =>
                  match text_deveui device_label with
                  | Some deveui => Return (Some deveui)
                  | None =>
                      match additionalInfo device with
                      | Some additional_info =>
                          Return
                            (info_deveui additional_info additional_info_keys)
                      | None => Return None
                      end
                  end
              | None => Raise
              end
          end
      | None => Raise
      end
  end.

(** ** Payload codec *)

(** One digit of [format(n, 'X')]. *)
Definition hex_digit (d : Z) : ascii :=
  if d <? 10 then ascii_of_nat (48 + Z.to_nat d)
  else ascii_of_nat (55 + Z.to_nat d).

(** The digits of a non-negative [n], most significant first. *)
Fixpoint hex_upper_aux (fuel : nat) (n : Z) (acc : string) : string :=
  let acc' := String (hex_digit (n mod 16)) acc in
  match fuel with
  | O => acc'
  | S f => if n <? 16 then acc' else hex_upper_aux f (n / 16) acc'
  end.

Definition hex_upper (n : Z) : string :=
  hex_upper_aux (Z.to_nat (Z.log2 n)) n "".

(** [format(n, '02X')]: the sign counts towards the width of two. *)
Definition format_02X (n : Z) : string :=
  if n <? 0 then "-" ++ hex_upper (- n)
  else
    let h := hex_upper n in
    if (String.length h <? 2)%nat then "0" ++ h else h.

Definition temperature_to_hex_payload (temperature : pyval) (is_min : bool)
  : option string :=
  if is_None temperature then None
  else
    match py_float temperature with
    | None => None
    | Some temp_value =>
        let temp_hex := py_int (temp_value * 2) in
        let temp_hex_str := format_02X temp_hex in
        let prefix := if is_min then "3E" else "40" in
        Some (prefix ++ temp_hex_str)
    end.

Definition get_query_payload (is_min : bool) : string :=
  if is_min then "BD" else "BF".

Definition combine_query_payloads : string := "BDBF".

Definition combine_temperature_payloads (min_temp max_temp : pyval)
  : option string :=
  let min_payload := temperature_to_hex_payload min_temp true in
  let max_payload := temperature_to_hex_payload max_temp false in
  if str_truthy min_payload && str_truthy max_payload
  then
    match min_payload, max_payload with
    | Some a, Some b => Some (a ++ b)
    | _, _ => None
    end
  else None.

(** ** Run statistics *)

Record stats : Type := mkStats {
  assets_processed : Z;
  devices_processed : Z;
  min_temp_sent : Z;
  max_temp_sent : Z;
  combined_sent : Z;
  min_query_sent : Z;
  max_query_sent : Z;
  skipped_no_deveui : Z;
  skipped_no_asset_temp : Z;
  skipped_empty_min_temp : Z;
  skipped_empty_max_temp : Z;
  errors : Z
}.

Definition stats0 : stats := mkStats 0 0 0 0 0 0 0 0 0 0 0 0.

(** [stats[k] += 1], one definition per key. *)
Definition incr_assets_processed (s : stats) : stats :=
  let (a, b, c, d, e, f, g, h, i, j, k, l) := s in
  mkStats (a + 1) b c d e f g h i j k l.
Definition incr_devices_processed (s : stats) : stats :=
  let (a, b, c, d, e, f, g, h, i, j, k, l) := s in
  mkStats a (b + 1) c d e f g h i j k l.
Definition incr_min_temp_sent (s : stats) : stats :=
  let (a, b, c, d, e, f, g, h, i, j, k, l) := s in
  mkStats a b (c + 1) d e f g h i j k l.
Definition incr_max_temp_sent (s : stats) : stats :=
  let (a, b, c, d, e, f, g, h, i, j, k, l) := s in
  mkStats a b c (d + 1) e f g h i j k l.
Definition incr_combined_sent (s : stats) : stats :=
  let (a, b, c, d, e, f, g, h, i, j, k, l) := s in
  mkStats a b c d (e + 1) f g h i j k l.
Definition incr_min_query_sent (s : stats) : stats :=
  let (a, b, c, d, e, f, g, h, i, j, k, l) := s in
  mkStats a b c d e (f + 1) g h i j k l.
Definition incr_max_query_sent (s : stats) : stats :=
  let (a, b, c, d, e, f, g, h, i, j, k, l) := s in
  mkStats a b c d e f (g + 1) h i j k l.
Definition incr_skipped_no_deveui (s : stats) : stats :=
  let (a, b, c, d, e, f, g, h, i, j, k, l) := s in
  mkStats a b c d e f g (h + 1) i j k l.
Definition incr_skipped_no_asset_temp (s : stats) : stats :=
  let (a, b, c, d, e, f, g, h, i, j, k, l) := s in
  mkStats a b c d e f g h (i + 1) j k l.
Definition incr_skipped_empty_min_temp (s : stats) : stats :=
  let (a, b, c, d, e, f, g, h, i, j, k, l) := s in
  mkStats a b c d e f g h i (j + 1) k l.
Definition incr_skipped_empty_max_temp (s : stats) : stats :=
  let (a, b, c, d, e, f, g, h, i, j, k, l) := s in
  mkStats a b c d e f g h i j (k + 1) l.
Definition incr_errors (s : stats) : stats :=
  let (a, b, c, d, e, f, g, h, i, j, k, l) := s in
  mkStats a b c d e f g h i j k (l + 1).

(** ** Transmission dispatcher *)

(** The body of one downlink request. *)
Record downlink : Type := mkDownlink {
  dl_DevEUI : string;
  dl_FPort : Z;
  dl_payload_hex : string
}.

(** What [requests.post] does: a response with a status code, or a
    [RequestException]. *)
Inductive http_result : Type :=
| Response (status_code : Z)
| RequestException.

(** What one call of the dispatcher does to the outside world. *)
Inductive event : Type :=
| NotConfigured (d : downlink)
| DryRun (d : downlink)
| Posted (d : downlink) (r : http_result).

Definition event_downlink (e : event) : downlink :=
  match e with
  | NotConfigured d | DryRun d | Posted d _ => d
  end.

(** The frames handed to the dispatcher, in order. *)
Definition dispatched (tr : list event) : list string :=
  map (fun e => dl_payload_hex (event_downlink e)) tr.

(** The requests that reached the transport. *)
Fixpoint posted (tr : list event) : list downlink :=
  match tr with
  | [] => []
  | Posted d _ :: r => d :: posted r
  | _ :: r => posted r
  end.

(** The environment variable [AGILITY_URL]. *)
Variable AGILITY_URL : option string.
(** The transport: its answer may depend on everything that happened
    before the request. *)
Variable transport : list event -> downlink -> http_result.

Definition status_ok (r : http_result) : bool :=
  match r with
  | Response c => (c =? 200) || (c =? 201) || (c =? 202)
  | RequestException => false
  end.

Definition send_downlink_to_agility (deveui : string) (fport : Z)
    (payload_hex : string) (dry_run : bool) (tr : list event)
  : bool * list event :=
  let payload := mkDownlink deveui fport payload_hex in
  if negb (str_truthy AGILITY_URL) then (false, (tr ++ [NotConfigured payload])%list)
  else if dry_run then (true, (tr ++ [DryRun payload])%list)
  else
    let response := transport tr payload in
    (status_ok response, (tr ++ [Posted payload response])%list).

(** ** Decision engine: the body of the device loop of [main] *)

Record arguments : Type := mkArgs {
  dry_run : bool;
  fport : Z;
  limit : option Z
}.

(** The statistics and the dispatcher's events of a run so far. *)
Record run : Type := mkRun {
  run_stats : stats;
  run_trace : list event
}.

Definition with_stats (f : stats -> stats) (r : run) : run :=
  mkRun (f (run_stats r)) (run_trace r).

(** Send one payload if there is one and count a failure. *)
Definition send_if_payload (args : arguments) (deveui : string)
    (payload : option string) (r : run) : run :=
  if str_truthy payload then
    match payload with
    | Some p =>
        let (success, tr) :=
          send_downlink_to_agility deveui (fport args) p (dry_run args)
            (run_trace r) in
        if success then mkRun (run_stats r) tr
        else mkRun (incr_errors (run_stats r)) tr
    | None => r
    end
  else r.

(** The block under [if needs_min:]. It occurs twice in [main] with the
    same text, in the mixed case and in the one-field case. *)
Definition send_min_temp (args : arguments) (deveui : string)
    (asset_min_temp : pyval) (min_is_query : bool) (r : run) : run :=
  if min_is_query then
    send_if_payload args deveui (Some (get_query_payload true))
      (with_stats incr_min_query_sent r)
  else
    send_if_payload args deveui (temperature_to_hex_payload asset_min_temp true)
      (with_stats incr_min_temp_sent r).

(** The block under [if needs_max:], likewise. *)
Definition send_max_temp (args : arguments) (deveui : string)
    (asset_max_temp : pyval) (max_is_query : bool) (r : run) : run :=
  if max_is_query then
    send_if_payload args deveui (Some (get_query_payload false))
      (with_stats incr_max_query_sent r)
  else
    send_if_payload args deveui (temperature_to_hex_payload asset_max_temp false)
      (with_stats incr_max_temp_sent r).

(** [if v == "" or v == 0: v = None] *)
Definition normalize_device_temp (v : pyval) : pyval :=
  if py_eq v (PyStr "") || py_eq v (PyInt 0) then PyNone else v.

(** [needs = asset is not None and (device is None or device != asset)] *)
Definition needs_temp (asset_temp device_temp : pyval) : bool :=
  negb (is_None asset_temp)
  && (is_None device_temp || negb (py_eq device_temp asset_temp)).

(** The device loop body from the read of the device attributes on: the
    device has a DevEUI, and [device_min_temp], [device_max_temp] are the
    client attributes [manu_temp_min], [manu_temp_max] as fetched. *)
Definition sync_device (args : arguments) (deveui : string)
    (asset_min_temp asset_max_temp device_min_temp device_max_temp : pyval)
    (r : run) : run :=
  let device_min_temp := normalize_device_temp device_min_temp in
  let device_max_temp := normalize_device_temp device_max_temp in
  let r :=
    if is_None asset_min_temp then with_stats incr_skipped_empty_min_temp r
    else r in
  let r :=
    if is_None asset_max_temp then with_stats incr_skipped_empty_max_temp r
    else r in
  if is_None asset_min_temp && is_None asset_max_temp then r
  else
    let needs_min := needs_temp asset_min_temp device_min_temp in
    let needs_max := needs_temp asset_max_temp device_max_temp in
    let min_is_query := needs_min && is_None device_min_temp in
    let max_is_query := needs_max && is_None device_max_temp in
    if needs_min && needs_max then
      let device_min_is_none := is_None device_min_temp in
      let device_max_is_none := is_None device_max_temp in
      if device_min_is_none && device_max_is_none then
        let payload := combine_query_payloads in
        let (success, tr) :=
          send_downlink_to_agility deveui (fport args) payload (dry_run args)
            (run_trace r) in
        if success then
          mkRun
            (incr_combined_sent
               (incr_max_query_sent (incr_min_query_sent (run_stats r))))
            tr
        else mkRun (incr_errors (run_stats r)) tr
      else if negb device_min_is_none && negb device_max_is_none then
        let payload :=
          combine_temperature_payloads asset_min_temp asset_max_temp in
        if str_truthy payload then
          match payload with
          | Some p =>
              let query_payload := combine_query_payloads in
              let payload := p ++ query_payload in
              let (success, tr) :=
                send_downlink_to_agility deveui (fport args) payload
                  (dry_run args) (run_trace r) in
              if success then
                mkRun
                  (incr_combined_sent
                     (incr_max_temp_sent (incr_min_temp_sent (run_stats r))))
                  tr
              else mkRun (incr_errors (run_stats r)) tr
          | None => r
          end
        else r
      else
        let r :=
          if needs_min then
            send_min_temp args deveui asset_min_temp min_is_query r
          else r in
        if needs_max then
          send_max_temp args deveui asset_max_temp max_is_query r
        else r
    else
      let r :=
        if needs_min then
          send_min_temp args deveui asset_min_temp min_is_query r
        else r in
      if needs_max then
        send_max_temp args deveui asset_max_temp max_is_query r
      else r.

(** ** Run aggregator: the loops of [main] *)

(** An asset with its server attributes and its related devices of a
    supported type, as [get_asset_attributes] and [get_asset_devices]
    return them. *)
Record asset : Type := mkAsset {
  asset_name : string;
  minTemp : pyval;
  maxTemp : pyval;
  asset_devices : list device
}.

(** The variables of [main] that live across loop iterations, and
    whether an exception has ended the run: [loop_run] is then the run up
    to the exception. *)
Record loop_state : Type := mkLoop {
  loop_run : run;
  devices_processed_count : Z;
  limit_reached : bool;
  raised : bool
}.

(** [args.limit and devices_processed_count >= args.limit] *)
Definition limit_hit (args : arguments) (count : Z) : bool :=
  match limit args with
  | Some n => negb (n =? 0) && (n <=? count)
  | None => false
  end.

(** One device, after the check of the limit. The device is counted
    before its identifier is extracted, and an exception of the extraction
    ends the run there. *)
Definition main_device (args : arguments) (a : asset) (d : device)
    (ls : loop_state) : loop_state :=
  let count := devices_processed_count ls + 1 in
  let r := with_stats incr_devices_processed (loop_run ls) in
  match extract_deveui d with
  | Return deveui =>
      if negb (str_truthy deveui) then
        mkLoop (with_stats incr_skipped_no_deveui r) count (limit_reached ls)
          (raised ls)
      else
        match deveui with
        | Some deveui =>
            mkLoop
              (sync_device args deveui (minTemp a) (maxTemp a)
                 (manu_temp_min d) (manu_temp_max d) r)
              count (limit_reached ls) (raised ls)
        | None => mkLoop r count (limit_reached ls) (raised ls)
        end
  | Raise => mkLoop r count (limit_reached ls) true
  end.

(** [for device in devices:] with its [break]; an exception leaves the
    loop. *)
Fixpoint main_devices (args : arguments) (a : asset) (devices : list device)
    (ls : loop_state) : loop_state :=
  match devices with
  | [] => ls
  | d :: rest =>
      if raised ls then ls
      else if limit_hit args (devices_processed_count ls) then
        mkLoop (loop_run ls) (devices_processed_count ls) true (raised ls)
      else main_devices args a rest (main_device args a d ls)
  end.

(** One asset, after the check of [limit_reached]. *)
Definition main_asset (args : arguments) (a : asset) (ls : loop_state)
  : loop_state :=
  if is_None (minTemp a) && is_None (maxTemp a) then
    mkLoop (with_stats incr_skipped_no_asset_temp (loop_run ls))
      (devices_processed_count ls) (limit_reached ls) (raised ls)
  else
    let ls :=
      mkLoop (with_stats incr_assets_processed (loop_run ls))
        (devices_processed_count ls) (limit_reached ls) (raised ls) in
    main_devices args a (asset_devices a) ls.

(** [for asset in assets:] with its [break]; an exception leaves the
    loop. *)
Fixpoint main_assets (args : arguments) (assets : list asset)
    (ls : loop_state) : loop_state :=
  match assets with
  | [] => ls
  | a :: rest =>
      if raised ls then ls
      else if limit_reached ls then ls
      else main_assets args rest (main_asset args a ls)
  end.

(** What [main] finds when it starts. *)
Record registry : Type := mkRegistry {
  THINGSBOARD_USERNAME : option string;
  THINGSBOARD_PASSWORD : option string;
  login_to_thingsboard : bool;
  get_customer_assets : list asset
}.

Definition loop0 : loop_state := mkLoop (mkRun stats0 []) 0 false false.

(** The run whose summary [main] prints. [None] stands for a run that
    ends without a summary: by [sys.exit(1)], or by an exception that
    nothing catches. *)
Definition main (args : arguments) (tb : registry) : option run :=
  if negb (str_truthy AGILITY_URL) then None
  else if negb (str_truthy (THINGSBOARD_USERNAME tb))
          || negb (str_truthy (THINGSBOARD_PASSWORD tb)) then None
  else if negb (login_to_thingsboard tb) then None
  else
    match get_customer_assets tb with
    | [] => None
    | assets =>
        let ls := main_assets args assets loop0 in
        if raised ls then None else Some (loop_run ls)
    end.

(** * Vocabulary of the properties *)

(** A known setpoint counts as unknown when it is absent, the empty string
    or zero. *)
Definition is_unknown (v : pyval) : bool := is_None (normalize_device_temp v).

(** The number of frames a step handed to the dispatcher. *)
Definition frames_between (r r' : run) : Z :=
  Z.of_nat (List.length (run_trace r')) - Z.of_nat (List.length (run_trace r)).

(** A call of the dispatcher that reported failure. *)
Definition failed (e : event) : bool :=
  match e with
  | NotConfigured _ => true
  | DryRun _ => false
  | Posted _ response => negb (status_ok response)
  end.

Definition failures (tr : list event) : Z :=
  Z.of_nat (List.length (filter failed tr)).

(** The transmissions of a step that failed, and those that succeeded. *)
Definition failed_between (r r' : run) : Z :=
  failures (run_trace r') - failures (run_trace r).

Definition succeeded_between (r r' : run) : Z :=
  frames_between r r' - failed_between r r'.

Definition one (b : bool) : Z := if b then 1 else 0.

(** The value of one uppercase hexadecimal digit. *)
Definition hex_value (c : ascii) : Z :=
  let n := Z.of_nat (code c) in
  if n <=? 57 then n - 48 else n - 55.

Definition two_digits (n : Z) : string :=
  String (hex_digit (n / 16)) (String (hex_digit (n mod 16)) "").

Definition byte_ok (n : Z) : bool :=
  String.eqb (format_02X n) (two_digits n)
  && in_hex_digits (hex_digit (n / 16))
  && in_hex_digits (hex_digit (n mod 16))
  && (16 * hex_value (hex_digit (n / 16)) + hex_value (hex_digit (n mod 16))
      =? n).

Definition processed (ls : loop_state) : Z :=
  devices_processed (run_stats (loop_run ls)).

Fixpoint remove_chars (p : ascii -> bool) (s : string) : string :=
  match s with
  | EmptyString => EmptyString
  | String c r =>
      if p c then remove_chars p r else String c (remove_chars p r)
  end.

(** Space, hyphen and colon. *)
Definition is_separator (c : ascii) : bool :=
  Ascii.eqb " " c || Ascii.eqb "-" c || Ascii.eqb ":" c.

Definition is_lower (c : ascii) : bool :=
  ((97 <=? code c) && (code c <=? 122))%nat.

(** What the normaliser does to a string, with the replacements that can
    never match left out: trim, uppercase, delete every [EUI-] and then
    every [EUI_], delete the separators, and accept sixteen hexadecimal
    characters. *)
Definition normalize_by_deletion (raw : string) : option string :=
  if String.eqb raw "" then None
  else
    let s :=
      remove_chars is_separator
        (py_replace "EUI_" "" (py_replace "EUI-" "" (py_upper (py_strip raw))))
    in
    if (String.length s =? 16)%nat && all_chars in_hex_digits s then Some s
    else None.

(** A character of an identifier as it is written: a hexadecimal digit or
    a separator. *)
Definition id_char (c : ascii) : bool := in_hex_digits c || is_separator c.

(** A declared attribute that may hold the identifier. *)
Definition key_matches (attr : attribute) : bool :=
  let key := py_lower (attr_key attr) in
  String.eqb key "deveui" || String.eqb key "eui".

Fixpoint info_values (additional_info : gmap string pyval)
    (keys : list string) : list pyval :=
  match keys with
  | [] => []
  | key :: rest =>
      match additional_info !! key with
      | Some v => v :: info_values additional_info rest
      | None => info_values additional_info rest
      end
  end.

(** The values of the declared attributes that may hold the identifier. *)
Definition declared_values (d : device) : list pyval :=
  match all_attrs d with
  | Some attrs => map attr_value (filter key_matches attrs)
  | None => []
  end.



(** The first candidate the normaliser accepts. *)
Fixpoint first_normalized (vs : list pyval) : option string :=
  match vs with
  | [] => None
  | v :: rest =>
      match normalize_deveui v with
      | Some d => Some d
      | None => first_normalized rest
      end
  end.

Definition is_str (v : pyval) : bool :=
  match v with PyStr _ => true | _ => false end.

(** The extraction ends in an exception: no declared attribute holds an
    identifier and the name is no string, or the name holds none either
    and the label is no string. *)
Definition extraction_raises (d : device) : bool :=
  match first_normalized (declared_values d) with
  | Some _ => false
  | None =>
      negb (is_str (device_name d))
      || match normalize_deveui (device_name d) with
         | Some _ => false
         | None => negb (is_str (device_label d))
         end
  end.

(** The devices of a list that a run gets to, and whether it ends there:
    all of them, or those up to and including the first one whose
    extraction raises. *)
Fixpoint reachable (devices : list device) : Z * bool :=
  match devices with
  | [] => (0, false)
  | d :: rest =>
      if extraction_raises d then (1, true)
      else let '(n, ended) := reachable rest in (1 + n, ended)
  end.

(** The devices a run can reach: those of the assets that have at least one
    desired setpoint, up to the device at which an exception ends the
    run. When no extraction raises these are all the devices of such
    assets. *)
Fixpoint available (assets : list asset) : Z :=
  match assets with
  | [] => 0
  | a :: rest =>
      if is_None (minTemp a) && is_None (maxTemp a) then available rest
      else
        let '(n, ended) := reachable (asset_devices a) in
        if ended then n else n + available rest
  end.

(** A canonical identifier: sixteen characters out of [0-9A-F]. *)
Definition canonical (d : string) : Prop :=
  String.length d = 16%nat /\ all_chars in_hex_digits d = true.

Definition is_dry_run (e : event) : bool :=
  match e with DryRun _ => true | _ => false end.

(** An event of a call of the dispatcher made for [deveui] in a run with
    the arguments [args]; in a dry run with the endpoint configured the
    event is a simulated one. *)
Definition made_for (args : arguments) (deveui : string) (e : event) : Prop :=
  dl_DevEUI (event_downlink e) = deveui
  /\ dl_FPort (event_downlink e) = fport args
  /\ (str_truthy AGILITY_URL = true -> dry_run args = true ->
      is_dry_run e = true).

(** [r'] comes from [r] by at most [n] calls of the dispatcher for
    [deveui]: the trace grows by their events, the error counter by the
    failed ones, and the counters of assets and devices stay. *)
Definition extends (args : arguments) (deveui : string) (n : nat)
    (r r' : run) : Prop :=
  exists new,
    run_trace r' = (run_trace r ++ new)%list
    /\ (List.length new <= n)%nat
    /\ Forall (made_for args deveui) new
    /\ errors (run_stats r') = errors (run_stats r) + failures new
    /\ assets_processed (run_stats r') = assets_processed (run_stats r)
    /\ skipped_no_asset_temp (run_stats r')
       = skipped_no_asset_temp (run_stats r)
    /\ devices_processed (run_stats r') = devices_processed (run_stats r)
    /\ skipped_no_deveui (run_stats r') = skipped_no_deveui (run_stats r).

(** An event of a run: made for some canonical identifier. *)
Definition run_event (args : arguments) (e : event) : Prop :=
  canonical (dl_DevEUI (event_downlink e))
  /\ dl_FPort (event_downlink e) = fport args
  /\ (str_truthy AGILITY_URL = true -> dry_run args = true ->
      is_dry_run e = true).

(** What holds of the state of the loops of [main] at every moment. *)
Definition run_invariant (args : arguments) (ls : loop_state) : Prop :=
  let r := loop_run ls in
  errors (run_stats r) = failures (run_trace r)
  /\ Forall (run_event args) (run_trace r)
  /\ Z.of_nat (List.length (run_trace r))
     <= 2 * (devices_processed (run_stats r) - skipped_no_deveui (run_stats r)).

(** An asset that has neither a desired minimum nor a desired maximum. *)
Definition without_setpoints (a : asset) : bool :=
  is_None (minTemp a) && is_None (maxTemp a).

(** ** Sample inputs *)

(** The inputs below are numbers and plain strings: [float()] is never
    asked to read a string and [repr()] never to print a float, so any
    function can stand for them. *)
Definition float_of_str_unused (s : string) : option Q := None.
Definition repr_float_unused (q : Q) : string := "".

Definition endpoint : option string := Some "https://agility.example/downlink".

(** Transports that answer every request alike. *)
Definition answers (status : Z) (tr : list event) (d : downlink)
  : http_result := Response status.

Definition live : arguments := mkArgs false 10 None.
Definition run0 : run := mkRun stats0 [].
Definition sample_deveui : string := "AABBCCDD11223344".

(** The normaliser as the specification words it: uppercase, strip a
    leading [EUI-] or [EUI_], delete spaces, hyphens and colons, accept
    sixteen hexadecimal characters. *)
Definition strip_eui_prefix (s : string) : string :=
  if String.prefix "EUI-" s || String.prefix "EUI_" s
  then String.substring 4 (String.length s - 4) s
  else s.

Definition normalize_as_specified (raw : string) : option string :=
  if String.eqb raw "" then None
  else
    let s := remove_chars is_separator (strip_eui_prefix (py_upper raw)) in
    if (String.length s =? 16)%nat && all_chars in_hex_digits s then Some s
    else None.

Definition named_device (name : string)
    (info : option (gmap string pyval)) : device :=
  mkDevice (PyStr name) (PyStr "") info None PyNone PyNone.


Definition one_device_asset : asset :=
  mkAsset "room" (PyInt 20) (PyInt 25) [named_device sample_deveui None].

Definition unset_asset : asset := mkAsset "hall" PyNone PyNone [].

Definition registry_of (assets : list asset) : registry :=
  mkRegistry (Some "user") (Some "secret") true assets.

Definition newline : string := String (ascii_of_nat 10) "".

(** A [float()] for desired setpoints that are no numbers. *)
Definition float_of_str_rejects (s : string) : option Q := None.

Definition dry : arguments := mkArgs true 10 None.


(** * Properties *)

(** ** The dispatcher *)

Lemma dispatched_app (tr1 tr2 : list event) :
  dispatched (tr1 ++ tr2) = (dispatched tr1 ++ dispatched tr2)%list.
Proof. unfold dispatched. apply map_app. Qed.

Lemma posted_app (tr1 tr2 : list event) :
  posted (tr1 ++ tr2) = (posted tr1 ++ posted tr2)%list.
Proof.
  induction tr1 as [|e tr1 IH]; simpl; [reflexivity|].
  destruct e; simpl; rewrite IH; reflexivity.
Qed.

(** Every call of the dispatcher leaves exactly one event, for the frame it
    was given. *)
Lemma send_trace (deveui : string) (fp : Z) (p : string) (dry : bool)
    (tr : list event) :
  exists e,
    snd (send_downlink_to_agility deveui fp p dry tr) = (tr ++ [e])%list
    /\ event_downlink e = mkDownlink deveui fp p.
Proof.
  unfold send_downlink_to_agility.
  destruct (negb (str_truthy AGILITY_URL)); [|destruct dry];
    eexists; split; reflexivity.
Qed.

Lemma send_dispatched (deveui : string) (fp : Z) (p : string) (dry : bool)
    (tr : list event) :
  dispatched (snd (send_downlink_to_agility deveui fp p dry tr))
  = (dispatched tr ++ [p])%list.
Proof.
  destruct (send_trace deveui fp p dry tr) as (e & -> & He).
  rewrite dispatched_app. simpl. rewrite He. reflexivity.
Qed.

Lemma is_unknown_None (v : pyval) :
  is_unknown v = true -> normalize_device_temp v = PyNone.
Proof.
  unfold is_unknown. destruct (normalize_device_temp v); simpl; congruence.
Qed.

Lemma is_known_normal (v : pyval) :
  is_unknown v = false -> normalize_device_temp v = v.
Proof.
  unfold is_unknown, normalize_device_temp.
  destruct (py_eq v (PyStr "") || py_eq v (PyInt 0)); simpl; congruence.
Qed.

(** A temperature that [float()] accepts always has a payload, and the
    payload is not empty. *)
Lemma temperature_payload_float (t : pyval) (x : Q) (is_min : bool) :
  py_float t = Some x ->
  temperature_to_hex_payload t is_min
  = Some ((if is_min then "3E" else "40") ++ format_02X (py_int (x * 2))).
Proof.
  intros Hx. unfold temperature_to_hex_payload.
  destruct t; simpl in *; try discriminate; rewrite ?Hx; try reflexivity;
    injection Hx as <-; reflexivity.
Qed.

Lemma payload_truthy (t : pyval) (is_min : bool) (p : string) :
  temperature_to_hex_payload t is_min = Some p -> str_truthy (Some p) = true.
Proof.
  unfold temperature_to_hex_payload.
  destruct (is_None t); [discriminate|].
  destruct (py_float t); [|discriminate].
  intros [= <-]. destruct is_min; reflexivity.
Qed.

Lemma float_not_None (t : pyval) (x : Q) :
  py_float t = Some x -> is_None t = false.
Proof. destruct t; simpl; congruence. Qed.

(** ** The decision engine *)

(** Name the outcome of the next call of the dispatcher and record what it
    adds to the dispatched frames. *)
Ltac case_send :=
  match goal with
  | |- context [send_downlink_to_agility ?d ?f ?p ?y ?t] =>
      let Hd := fresh "Hd" in
      let ok := fresh "ok" in
      let tr := fresh "tr" in
      let Es := fresh "Es" in
      pose proof (send_dispatched d f p y t) as Hd;
      destruct (send_downlink_to_agility d f p y t) as [ok tr] eqn:Es;
      simpl in Hd
  end.

Example combine_20_25 :
  combine_temperature_payloads (PyInt 20) (PyInt 25) = Some "3E284032".
Proof. reflexivity. Qed.

(** C1. When both desired setpoints are present and both known setpoints
    are unknown, the device gets exactly one frame, [BDBF]; if the
    dispatcher reports success, the min-query, max-query and combined
    counters go up by one and the two set counters stay as they are. *)
Theorem sync_device_both_unknown (args : arguments) (deveui : string)
    (desired_min desired_max known_min known_max : pyval) (r : run) :
  is_None desired_min = false ->
  is_None desired_max = false ->
  is_unknown known_min = true ->
  is_unknown known_max = true ->
  let r' :=
    sync_device args deveui desired_min desired_max known_min known_max r in
  dispatched (run_trace r') = (dispatched (run_trace r) ++ ["BDBF"])%list
  /\ (fst (send_downlink_to_agility deveui (fport args) "BDBF" (dry_run args)
             (run_trace r)) = true ->
      min_query_sent (run_stats r') = min_query_sent (run_stats r) + 1
      /\ max_query_sent (run_stats r') = max_query_sent (run_stats r) + 1
      /\ combined_sent (run_stats r') = combined_sent (run_stats r) + 1
      /\ min_temp_sent (run_stats r') = min_temp_sent (run_stats r)
      /\ max_temp_sent (run_stats r') = max_temp_sent (run_stats r)).
Proof.
  intros Hmin Hmax Hkmin Hkmax. unfold sync_device.
  rewrite (is_unknown_None _ Hkmin), (is_unknown_None _ Hkmax).
  unfold needs_temp. rewrite Hmin, Hmax. simpl.
  unfold combine_query_payloads. case_send.
  destruct r as [st tr0]. destruct st. simpl in *.
  destruct ok; simpl; (split; [exact Hd|]); intros Hok;
    [repeat split; reflexivity | discriminate].
Qed.

Lemma is_known_not_None (v : pyval) :
  is_unknown v = false -> is_None v = false.
Proof.
  intros H. pose proof (is_known_normal _ H) as E.
  unfold is_unknown in H. rewrite E in H. exact H.
Qed.


(** C3. When both fields need a change and exactly one known setpoint is
    unknown, the device gets exactly two frames, first the one for the
    minimum and then the one for the maximum: the single query opcode for
    the field whose known value is unknown, [BD] for the minimum and [BF]
    for the maximum, and the single encoded setpoint for the other. No
    combined transmission is counted. *)
Theorem sync_device_mixed (args : arguments) (deveui : string)
    (desired_min desired_max known_min known_max : pyval) (x y : Q)
    (r : run) :
  py_float desired_min = Some x ->
  py_float desired_max = Some y ->
  xorb (is_unknown known_min) (is_unknown known_max) = true ->
  needs_temp desired_min (normalize_device_temp known_min) = true ->
  needs_temp desired_max (normalize_device_temp known_max) = true ->
  let r' :=
    sync_device args deveui desired_min desired_max known_min known_max r in
  dispatched (run_trace r')
  = (dispatched (run_trace r)
     ++ [if is_unknown known_min then "BD"
         else ("3E" ++ format_02X (py_int (x * 2)))%string;
         if is_unknown known_max then "BF"
         else ("40" ++ format_02X (py_int (y * 2)))%string])%list
  /\ combined_sent (run_stats r') = combined_sent (run_stats r).
Proof.
  intros Hx Hy Hxor Hnmin Hnmax. unfold sync_device.
  rewrite Hnmin, Hnmax.
  rewrite (float_not_None _ _ Hx), (float_not_None _ _ Hy).
  fold (is_unknown known_min). fold (is_unknown known_max).
  cbn [andb].
  unfold send_min_temp, send_max_temp, send_if_payload.
  rewrite (temperature_payload_float _ _ true Hx).
  rewrite (temperature_payload_float _ _ false Hy).
  destruct r as [st tr0]. destruct st.
  destruct (is_unknown known_min), (is_unknown known_max);
    try discriminate Hxor;
    simpl;
    do 2 (case_send; destruct ok; simpl in *);
    rewrite ?Hd, ?Hd0, <- ?app_assoc; split; reflexivity.
Qed.

Lemma py_eq_refl (v : pyval) : py_eq v v = true.
Proof.
  destruct v as [|b|z|q|s]; simpl;
    try (apply Qeq_bool_iff; reflexivity); try reflexivity.
  apply String.eqb_refl.
Qed.

(** C4, as the code has it. When the known setpoints are the desired ones
    and no desired setpoint is zero or the empty string (values that count
    as unknown once they are reported back), neither field needs a change
    and no frame is dispatched. *)
Theorem sync_device_in_sync (args : arguments) (deveui : string)
    (desired_min desired_max : pyval) (r : run) :
  is_None desired_min = true \/ is_unknown desired_min = false ->
  is_None desired_max = true \/ is_unknown desired_max = false ->
  needs_temp desired_min (normalize_device_temp desired_min) = false
  /\ needs_temp desired_max (normalize_device_temp desired_max) = false
  /\ run_trace
       (sync_device args deveui desired_min desired_max
          desired_min desired_max r)
     = run_trace r.
Proof.
  intros Hmin Hmax.
  assert (Nmin : needs_temp desired_min (normalize_device_temp desired_min)
                 = false).
  { unfold needs_temp. destruct Hmin as [H|H].
    - rewrite H. reflexivity.
    - rewrite (is_known_normal _ H), (is_known_not_None _ H), py_eq_refl.
      reflexivity. }
  assert (Nmax : needs_temp desired_max (normalize_device_temp desired_max)
                 = false).
  { unfold needs_temp. destruct Hmax as [H|H].
    - rewrite H. reflexivity.
    - rewrite (is_known_normal _ H), (is_known_not_None _ H), py_eq_refl.
      reflexivity. }
  split; [exact Nmin|]. split; [exact Nmax|].
  unfold sync_device. rewrite Nmin, Nmax. simpl.
  destruct (is_None desired_min), (is_None desired_max); reflexivity.
Qed.

(** ** Counters and transmission outcomes *)

Lemma send_length (deveui : string) (fp : Z) (p : string) (dry : bool)
    (tr : list event) :
  List.length (snd (send_downlink_to_agility deveui fp p dry tr))
  = S (List.length tr).
Proof.
  destruct (send_trace deveui fp p dry tr) as (e & -> & _).
  rewrite length_app. simpl. lia.
Qed.

(** The dispatcher reports failure exactly when the event it leaves is a
    failed one. *)
Lemma send_failures (deveui : string) (fp : Z) (p : string) (dry : bool)
    (tr : list event) :
  failures (snd (send_downlink_to_agility deveui fp p dry tr))
  = failures tr
    + one (negb (fst (send_downlink_to_agility deveui fp p dry tr))).
Proof.
  unfold send_downlink_to_agility, failures.
  destruct (negb (str_truthy AGILITY_URL)); [|destruct dry];
    cbn [fst snd]; rewrite filter_app, length_app; cbn [filter failed];
    try destruct (status_ok _); simpl; lia.
Qed.

(** The same, recording the length of the trace and its failures. *)
Ltac case_send_len :=
  match goal with
  | |- context [send_downlink_to_agility ?d ?f ?p ?y ?t] =>
      let Hl := fresh "Hl" in
      let Hf := fresh "Hf" in
      let ok := fresh "ok" in
      let tr := fresh "tr" in
      pose proof (send_length d f p y t) as Hl;
      pose proof (send_failures d f p y t) as Hf;
      destruct (send_downlink_to_agility d f p y t) as [ok tr];
      cbn [fst snd] in Hl, Hf
  end.

(** Sending a payload touches no field counter; it counts an error when
    the transmission fails. *)
Lemma send_if_payload_counters (args : arguments) (deveui : string)
    (payload : option string) (r : run) :
  let r' := send_if_payload args deveui payload r in
  let s := run_stats r in
  let s' := run_stats r' in
  min_query_sent s' = min_query_sent s
  /\ min_temp_sent s' = min_temp_sent s
  /\ max_query_sent s' = max_query_sent s
  /\ max_temp_sent s' = max_temp_sent s
  /\ combined_sent s' = combined_sent s
  /\ errors s' = errors s + failed_between r r'.
Proof.
  cbv zeta. unfold send_if_payload, failed_between.
  destruct r as [st tr0]. destruct st. cbn [run_stats run_trace].
  destruct (str_truthy payload); [destruct payload as [p|]|];
    try (simpl; repeat split; lia).
  case_send_len. destruct ok; simpl in *; repeat split; lia.
Qed.

Lemma send_min_temp_counters (args : arguments) (deveui : string)
    (asset_min_temp : pyval) (min_is_query : bool) (r : run) :
  let r' := send_min_temp args deveui asset_min_temp min_is_query r in
  let s := run_stats r in
  let s' := run_stats r' in
  min_query_sent s' = min_query_sent s + one min_is_query
  /\ min_temp_sent s' = min_temp_sent s + one (negb min_is_query)
  /\ max_query_sent s' = max_query_sent s
  /\ max_temp_sent s' = max_temp_sent s
  /\ combined_sent s' = combined_sent s
  /\ errors s' = errors s + failed_between r r'.
Proof.
  cbv zeta. unfold send_min_temp.
  destruct min_is_query;
    match goal with
    | |- context [send_if_payload ?a ?d ?p ?r0] =>
        pose proof (send_if_payload_counters a d p r0) as H
    end;
    cbv zeta in H; unfold failed_between in *;
    destruct r as [st tr0]; destruct st; simpl in *;
    intuition lia.
Qed.

Lemma send_max_temp_counters (args : arguments) (deveui : string)
    (asset_max_temp : pyval) (max_is_query : bool) (r : run) :
  let r' := send_max_temp args deveui asset_max_temp max_is_query r in
  let s := run_stats r in
  let s' := run_stats r' in
  min_query_sent s' = min_query_sent s
  /\ min_temp_sent s' = min_temp_sent s
  /\ max_query_sent s' = max_query_sent s + one max_is_query
  /\ max_temp_sent s' = max_temp_sent s + one (negb max_is_query)
  /\ combined_sent s' = combined_sent s
  /\ errors s' = errors s + failed_between r r'.
Proof.
  cbv zeta. unfold send_max_temp.
  destruct max_is_query;
    match goal with
    | |- context [send_if_payload ?a ?d ?p ?r0] =>
        pose proof (send_if_payload_counters a d p r0) as H
    end;
    cbv zeta in H; unfold failed_between in *;
    destruct r as [st tr0]; destruct st; simpl in *;
    intuition lia.
Qed.

(** C10. The error counter goes up by the number of failed transmissions.
    In the single-field paths the counter of a field goes up whenever the
    field needs a change, whatever the transmission does, so a failed
    transmission is counted both as sent and as an error. In the two
    combined branches the field counters and the combined counter go up
    only by the transmissions that succeeded. *)
Theorem counters_and_outcomes (args : arguments) (deveui : string)
    (desired_min desired_max known_min known_max : pyval) (r : run) :
  let needs_min :=
    needs_temp desired_min (normalize_device_temp known_min) in
  let needs_max :=
    needs_temp desired_max (normalize_device_temp known_max) in
  let combined :=
    needs_min && needs_max
    && Bool.eqb (is_unknown known_min) (is_unknown known_max) in
  let r' :=
    sync_device args deveui desired_min desired_max known_min known_max r in
  let s := run_stats r in
  let s' := run_stats r' in
  errors s' = errors s + failed_between r r'
  /\ (combined = false ->
      min_query_sent s'
      = min_query_sent s + one (needs_min && is_unknown known_min)
      /\ min_temp_sent s'
         = min_temp_sent s + one (needs_min && negb (is_unknown known_min))
      /\ max_query_sent s'
         = max_query_sent s + one (needs_max && is_unknown known_max)
      /\ max_temp_sent s'
         = max_temp_sent s + one (needs_max && negb (is_unknown known_max))
      /\ combined_sent s' = combined_sent s)
  /\ (combined = true ->
      frames_between r r' <= 1
      /\ min_query_sent s'
         = min_query_sent s
           + (if is_unknown known_min then succeeded_between r r' else 0)
      /\ max_query_sent s'
         = max_query_sent s
           + (if is_unknown known_min then succeeded_between r r' else 0)
      /\ min_temp_sent s'
         = min_temp_sent s
           + (if is_unknown known_min then 0 else succeeded_between r r')
      /\ max_temp_sent s'
         = max_temp_sent s
           + (if is_unknown known_min then 0 else succeeded_between r r')
      /\ combined_sent s' = combined_sent s + succeeded_between r r').
Proof.
  cbv zeta. unfold sync_device.
  fold (is_unknown known_min). fold (is_unknown known_max).
  destruct (needs_temp desired_min (normalize_device_temp known_min)) eqn:Nmin,
    (needs_temp desired_max (normalize_device_temp known_max)) eqn:Nmax,
    (is_unknown known_min) eqn:Umin, (is_unknown known_max) eqn:Umax;
    unfold needs_temp in Nmin, Nmax;
    destruct (is_None desired_min), (is_None desired_max);
    try discriminate Nmin; try discriminate Nmax;
    cbn [andb negb orb Bool.eqb one];
    repeat match goal with
    | |- context [send_min_temp ?a ?d ?t ?q ?r0] =>
        let H := fresh "Hmin" in
        pose proof (send_min_temp_counters a d t q r0) as H;
        cbv zeta in H; generalize dependent (send_min_temp a d t q r0);
        intros
    | |- context [send_max_temp ?a ?d ?t ?q ?r0] =>
        let H := fresh "Hmax" in
        pose proof (send_max_temp_counters a d t q r0) as H;
        cbv zeta in H; generalize dependent (send_max_temp a d t q r0);
        intros
    end;
    unfold succeeded_between, frames_between, failed_between, one in *;
    try (destruct r as [st tr0]; destruct st; simpl in *;
         intuition (try discriminate; lia)).
  all: unfold combine_temperature_payloads, combine_query_payloads.
  all: try destruct (temperature_to_hex_payload desired_min true) as [[|? ?]|].
  all: try destruct (temperature_to_hex_payload desired_max false) as [[|? ?]|].
  all: simpl; try case_send_len.
  all: destruct r as [st tr0]; destruct st; simpl in *.
  all: try destruct ok; simpl in *;
    repeat split; intros; try discriminate; lia.
Qed.

(** ** The dispatcher's contract *)

(** C8, as the code has it. With the endpoint configured, a dry run
    reports success and posts nothing; a live call posts the frame once and
    reports success exactly when the answer has status 200, 201 or 202. *)
Theorem send_downlink_outcomes (deveui : string) (fp : Z)
    (payload_hex : string) (tr : list event) :
  str_truthy AGILITY_URL = true ->
  let d := mkDownlink deveui fp payload_hex in
  let response := transport tr d in
  (send_downlink_to_agility deveui fp payload_hex true tr
   = (true, (tr ++ [DryRun d])%list)
   /\ posted (snd (send_downlink_to_agility deveui fp payload_hex true tr))
      = posted tr)
  /\ (send_downlink_to_agility deveui fp payload_hex false tr
      = (status_ok response, (tr ++ [Posted d response])%list)
      /\ posted (snd (send_downlink_to_agility deveui fp payload_hex false tr))
         = (posted tr ++ [d])%list
      /\ (fst (send_downlink_to_agility deveui fp payload_hex false tr) = true
          <-> response = Response 200 \/ response = Response 201
              \/ response = Response 202)).
Proof.
  intros Hurl d response. unfold send_downlink_to_agility.
  rewrite Hurl. simpl. fold d. fold response.
  rewrite !posted_app. simpl. rewrite app_nil_r.
  repeat split; try reflexivity.
  - destruct response as [c|]; simpl; [|discriminate].
    intros H. apply orb_true_iff in H as [H|H];
      [apply orb_true_iff in H as [H|H]|];
      apply Z.eqb_eq in H; subst c; auto.
  - intros [H|[H|H]]; rewrite H; reflexivity.
Qed.

(** ** The setpoint encoding *)

Lemma all_bytes_ok : forallb byte_ok (map Z.of_nat (seq 0 256)) = true.
Proof. vm_compute. reflexivity. Qed.

(** A value that fits one byte is formatted as its two hexadecimal
    digits. *)
Lemma format_02X_byte (n : Z) :
  0 <= n <= 255 ->
  format_02X n = two_digits n
  /\ in_hex_digits (hex_digit (n / 16)) = true
  /\ in_hex_digits (hex_digit (n mod 16)) = true
  /\ 16 * hex_value (hex_digit (n / 16)) + hex_value (hex_digit (n mod 16))
     = n.
Proof.
  intros Hn.
  assert (Hin : In n (map Z.of_nat (seq 0 256))).
  { apply in_map_iff. exists (Z.to_nat n). split; [lia|].
    apply in_seq. lia. }
  pose proof (proj1 (forallb_forall _ _) all_bytes_ok n Hin) as H.
  unfold byte_ok in H.
  apply andb_true_iff in H as [H H4].
  apply andb_true_iff in H as [H H3].
  apply andb_true_iff in H as [H1 H2].
  apply String.eqb_eq in H1. apply Z.eqb_eq in H4. auto.
Qed.

(** [int()] cuts the fraction off, towards zero. *)
Lemma py_int_truncates (x : Q) :
  ((0 <= x -> inject_Z (py_int x) <= x < inject_Z (py_int x + 1))
   /\ (x <= 0 -> inject_Z (py_int x - 1) < x <= inject_Z (py_int x)))%Q.
Proof.
  destruct x as [a b]. unfold py_int, Qle, Qlt, inject_Z. simpl.
  pose proof (Z.quot_rem' a (Z.pos b)) as E.
  split; intros H; rewrite Z.mul_1_r in H.
  - pose proof (Z.rem_bound_pos a (Z.pos b) H ltac:(lia)). nia.
  - pose proof (Z.rem_bound_pos_neg a (Z.pos b) ltac:(lia) ltac:(lia)). nia.
Qed.

(** C5, as the code has it. For a number whose doubled and truncated value
    fits one byte, the payload is the prefix ([3E] for the minimum, [40]
    for the maximum) followed by the two uppercase hexadecimal digits of
    that value, four characters in all; 20 as a minimum gives [3E28] and 25
    as a maximum gives [4032]. *)
Theorem temperature_to_hex_payload_byte (temperature : pyval) (x : Q)
    (is_min : bool) :
  py_number temperature = Some x ->
  0 <= py_int (x * 2) <= 255 ->
  let n := py_int (x * 2) in
  let hi := hex_digit (n / 16) in
  let lo := hex_digit (n mod 16) in
  temperature_to_hex_payload temperature is_min
  = Some ((if is_min then "3E" else "40") ++ String hi (String lo ""))
  /\ in_hex_digits hi = true
  /\ in_hex_digits lo = true
  /\ 16 * hex_value hi + hex_value lo = n
  /\ option_map String.length (temperature_to_hex_payload temperature is_min)
     = Some 4%nat
  /\ temperature_to_hex_payload (PyInt 20) true = Some "3E28"
  /\ temperature_to_hex_payload (PyInt 25) false = Some "4032".
Proof.
  intros Hx Hn n hi lo.
  assert (Hf : py_float temperature = Some x)
    by (destruct temperature; simpl in *; congruence).
  destruct (format_02X_byte _ Hn) as (E & Hhi & Hlo & Hv).
  rewrite (temperature_payload_float _ _ is_min Hf), E.
  unfold two_digits. fold n. fold hi. fold lo.
  repeat split; try assumption; try reflexivity.
  destruct is_min; reflexivity.
Qed.

(** ** The DevEUI normaliser *)

Lemma prefix_nil (s : string) : String.prefix "" s = true.
Proof. destruct s; reflexivity. Qed.

Lemma prefix_cons (c0 : ascii) (old' : string) (a : ascii) (r : string) :
  String.prefix (String c0 old') (String a r)
  = if Ascii.eqb c0 a then String.prefix old' r else false.
Proof.
  simpl. destruct (ascii_dec c0 a) as [->|Hne].
  - rewrite Ascii.eqb_refl. reflexivity.
  - rewrite (proj2 (Ascii.eqb_neq c0 a) Hne). reflexivity.
Qed.

(** Replacing a single character by nothing removes that character. *)
Lemma replace_one_char (c : ascii) (s : string) :
  py_replace (String c "") "" s = remove_chars (Ascii.eqb c) s.
Proof.
  unfold py_replace. induction s as [|a r IH]; [reflexivity|].
  cbn [replace_from remove_chars]. rewrite prefix_cons, prefix_nil.
  destruct (Ascii.eqb c a); simpl; [exact IH|f_equal; exact IH].
Qed.

Lemma remove_separators (s : string) :
  py_replace ":" "" (py_replace "-" "" (py_replace " " "" s))
  = remove_chars is_separator s.
Proof.
  rewrite !replace_one_char. unfold is_separator.
  induction s as [|a r IH]; [reflexivity|].
  cbn [remove_chars].
  destruct (Ascii.eqb " " a); cbn [remove_chars orb]; [exact IH|].
  destruct (Ascii.eqb "-" a); cbn [remove_chars orb]; [exact IH|].
  destruct (Ascii.eqb ":" a); cbn [remove_chars orb]; [exact IH|].
  f_equal. exact IH.
Qed.

Lemma all_chars_impl (p q : ascii -> bool) (s : string) :
  (forall c, p c = true -> q c = true) ->
  all_chars p s = true -> all_chars q s = true.
Proof.
  intros Hpq. induction s as [|a r IH]; simpl; [reflexivity|].
  intros H. apply andb_true_iff in H as [Ha Hr].
  rewrite (Hpq _ Ha), (IH Hr). reflexivity.
Qed.

(** A pattern whose first character does not occur is never found. *)
Lemma replace_absent (c0 : ascii) (old' new s : string) :
  all_chars (fun c => negb (Ascii.eqb c0 c)) s = true ->
  py_replace (String c0 old') new s = s.
Proof.
  unfold py_replace. induction s as [|a r IH]; [reflexivity|].
  cbn [replace_from all_chars]. rewrite prefix_cons.
  intros H. apply andb_true_iff in H as [Ha Hr].
  destruct (Ascii.eqb c0 a); [discriminate|].
  f_equal. exact (IH Hr).
Qed.

(** Deleting occurrences only ever drops characters. *)
Lemma all_chars_replace_from (p : ascii -> bool) (k : nat) (old s : string) :
  all_chars p s = true -> all_chars p (replace_from k old "" s) = true.
Proof.
  revert k. induction s as [|a r IH]; intros k; [reflexivity|].
  cbn [replace_from all_chars].
  intros H. apply andb_true_iff in H as [Ha Hr].
  destruct k as [|k]; [|apply IH; exact Hr].
  destruct (String.prefix old (String a r)); cbn [String.append all_chars].
  - apply IH. exact Hr.
  - rewrite Ha. apply IH. exact Hr.
Qed.

Lemma upper_char_not_lower (c : ascii) : is_lower (upper_char c) = false.
Proof.
  destruct c as [b0 b1 b2 b3 b4 b5 b6 b7].
  destruct b0, b1, b2, b3, b4, b5, b6, b7; reflexivity.
Qed.

Lemma py_upper_not_lower (s : string) :
  all_chars (fun c => negb (is_lower c)) (py_upper s) = true.
Proof.
  induction s as [|a r IH]; simpl; [reflexivity|].
  rewrite upper_char_not_lower. exact IH.
Qed.

Lemma not_lower_not (c0 : ascii) (s : string) :
  is_lower c0 = true ->
  all_chars (fun c => negb (is_lower c)) s = true ->
  all_chars (fun c => negb (Ascii.eqb c0 c)) s = true.
Proof.
  intros H0. apply all_chars_impl. intros c Hc.
  destruct (Ascii.eqb_spec c0 c) as [<-|]; [|reflexivity].
  rewrite H0 in Hc. discriminate.
Qed.

Lemma normalize_str_deletion (raw : string) :
  normalize_deveui (PyStr raw) = normalize_by_deletion raw.
Proof.
  unfold normalize_deveui, normalize_by_deletion. simpl py_truthy.
  rewrite negb_involutive. destruct (String.eqb raw ""); [reflexivity|].
  cbv zeta. simpl py_str. rewrite remove_separators.
  set (t0 := py_upper (py_strip raw)).
  assert (H0 : all_chars (fun c => negb (is_lower c)) t0 = true)
    by apply py_upper_not_lower.
  set (t1 := py_replace "EUI-" "" t0).
  assert (H1 : all_chars (fun c => negb (is_lower c)) t1 = true)
    by (apply all_chars_replace_from; exact H0).
  rewrite (replace_absent "e" "ui-" "" t1)
    by (apply not_lower_not; [reflexivity|exact H1]).
  set (t2 := py_replace "EUI_" "" t1).
  assert (H2 : all_chars (fun c => negb (is_lower c)) t2 = true)
    by (apply all_chars_replace_from; exact H1).
  rewrite (replace_absent "e" "ui_" "" t2)
    by (apply not_lower_not; [reflexivity|exact H2]).
  reflexivity.
Qed.

(** Whatever the normaliser returns is a canonical identifier. *)
Lemma normalize_canonical (v : pyval) (d : string) :
  normalize_deveui v = Some d ->
  String.length d = 16%nat /\ all_chars in_hex_digits d = true.
Proof.
  unfold normalize_deveui.
  destruct (negb (py_truthy v)); [discriminate|]. cbv zeta.
  match goal with
  | |- context [if ?b then _ else _] => destruct b eqn:C
  end; [|discriminate].
  intros [= <-]. apply andb_true_iff in C as [C1 C2].
  apply Nat.eqb_eq in C1. split; assumption.
Qed.

(** *** What the specified normaliser accepts, the code accepts *)

Lemma is_space_upper (c : ascii) : is_space (upper_char c) = is_space c.
Proof.
  destruct c as [b0 b1 b2 b3 b4 b5 b6 b7].
  destruct b0, b1, b2, b3, b4, b5, b6, b7; reflexivity.
Qed.

Lemma space_is_separator (c : ascii) :
  is_space c = true -> id_char c = true -> is_separator c = true.
Proof.
  destruct c as [b0 b1 b2 b3 b4 b5 b6 b7].
  destruct b0, b1, b2, b3, b4, b5, b6, b7; vm_compute; congruence.
Qed.

Lemma lstrip_upper (s : string) :
  py_lstrip (py_upper s) = py_upper (py_lstrip s).
Proof.
  induction s as [|a r IH]; [reflexivity|].
  cbn [py_upper map_string py_lstrip]. rewrite is_space_upper.
  destruct (is_space a); [exact IH|reflexivity].
Qed.

Lemma rstrip_upper (s : string) :
  py_rstrip (py_upper s) = py_upper (py_rstrip s).
Proof.
  induction s as [|a r IH]; [reflexivity|].
  cbn [py_upper map_string py_rstrip]. fold (py_upper r). rewrite IH.
  rewrite is_space_upper.
  destruct (py_rstrip r); [destruct (is_space a)|]; reflexivity.
Qed.

Lemma strip_upper (s : string) :
  py_upper (py_strip s) = py_strip (py_upper s).
Proof. unfold py_strip. rewrite lstrip_upper, rstrip_upper. reflexivity. Qed.

Lemma rstrip_nonspace (c : ascii) (r : string) :
  is_space c = false -> py_rstrip (String c r) = String c (py_rstrip r).
Proof.
  intros Hc. cbn [py_rstrip]. rewrite Hc.
  destruct (py_rstrip r); reflexivity.
Qed.

Lemma all_chars_removed (p q : ascii -> bool) (s : string) :
  all_chars p (remove_chars q s) = true ->
  all_chars (fun c => p c || q c) s = true.
Proof.
  induction s as [|a r IH]; [reflexivity|].
  cbn [remove_chars all_chars]. destruct (q a) eqn:E.
  - intros H. rewrite orb_true_r. exact (IH H).
  - cbn [all_chars]. intros H. apply andb_true_iff in H as [Ha Hr].
    rewrite Ha. exact (IH Hr).
Qed.

Lemma all_chars_lstrip (p : ascii -> bool) (s : string) :
  all_chars p s = true -> all_chars p (py_lstrip s) = true.
Proof.
  induction s as [|a r IH]; [reflexivity|].
  cbn [py_lstrip]. destruct (is_space a); [|trivial].
  cbn [all_chars]. intros H. apply andb_true_iff in H as [_ Hr].
  exact (IH Hr).
Qed.

Lemma all_chars_rstrip (p : ascii -> bool) (s : string) :
  all_chars p s = true -> all_chars p (py_rstrip s) = true.
Proof.
  induction s as [|a r IH]; [reflexivity|].
  cbn [py_rstrip all_chars]. intros H. apply andb_true_iff in H as [Ha Hr].
  specialize (IH Hr). destruct (py_rstrip r).
  - destruct (is_space a); [reflexivity|]. cbn [all_chars].
    rewrite Ha. reflexivity.
  - cbn [all_chars] in *. rewrite Ha. exact IH.
Qed.

(** A pattern whose second character does not occur is never found. *)
Lemma replace_absent_second (c0 c1 : ascii) (old' new s : string) :
  all_chars (fun c => negb (Ascii.eqb c1 c)) s = true ->
  py_replace (String c0 (String c1 old')) new s = s.
Proof.
  unfold py_replace. induction s as [|a r IH]; [reflexivity|].
  cbn [replace_from all_chars]. rewrite prefix_cons.
  intros H. apply andb_true_iff in H as [_ Hr].
  assert (E : String.prefix (String c1 old') r = false).
  { destruct r as [|b r']; [reflexivity|].
    rewrite prefix_cons. cbn [all_chars] in Hr.
    apply andb_true_iff in Hr as [Hb _].
    destruct (Ascii.eqb c1 b); [discriminate|reflexivity]. }
  rewrite E. destruct (Ascii.eqb c0 a); f_equal; exact (IH Hr).
Qed.

Lemma id_chars_no_U (s : string) :
  all_chars id_char s = true ->
  all_chars (fun c => negb (Ascii.eqb "U" c)) s = true.
Proof.
  apply all_chars_impl. intros c Hc.
  destruct (Ascii.eqb_spec "U" c) as [<-|]; [discriminate Hc|reflexivity].
Qed.

Lemma remove_separators_lstrip (s : string) :
  all_chars id_char s = true ->
  remove_chars is_separator (py_lstrip s) = remove_chars is_separator s.
Proof.
  induction s as [|a r IH]; [reflexivity|].
  cbn [all_chars py_lstrip]. intros H. apply andb_true_iff in H as [Ha Hr].
  destruct (is_space a) eqn:E; [|reflexivity].
  cbn [remove_chars]. rewrite (space_is_separator _ E Ha). exact (IH Hr).
Qed.

Lemma remove_separators_rstrip (s : string) :
  all_chars id_char s = true ->
  remove_chars is_separator (py_rstrip s) = remove_chars is_separator s.
Proof.
  induction s as [|a r IH]; [reflexivity|].
  cbn [all_chars]. intros H. apply andb_true_iff in H as [Ha Hr].
  specialize (IH Hr). cbn [py_rstrip].
  destruct (py_rstrip r) as [|b r'].
  - cbn [remove_chars] in *. rewrite <- IH.
    destruct (is_space a) eqn:E; [|reflexivity].
    rewrite (space_is_separator _ E Ha). reflexivity.
  - cbn [remove_chars] in *. rewrite <- IH. reflexivity.
Qed.

Lemma substring_full (s : string) : String.substring 0 (String.length s) s = s.
Proof.
  induction s as [|a r IH]; [reflexivity|].
  cbn [String.length String.substring]. rewrite IH. reflexivity.
Qed.

Lemma prefix_split (p u : string) :
  String.prefix p u = true ->
  u = p ++ String.substring (String.length p)
             (String.length u - String.length p) u.
Proof.
  revert u. induction p as [|c0 p' IH]; intros u H.
  - cbn [String.append String.length]. rewrite Nat.sub_0_r, substring_full.
    reflexivity.
  - destruct u as [|a r]; [discriminate H|].
    rewrite prefix_cons in H.
    destruct (Ascii.eqb_spec c0 a) as [<-|]; [|discriminate H].
    change (String c0 p' ++ ?x) with (String c0 (p' ++ x)).
    simpl. f_equal. apply IH. exact H.
Qed.

Lemma replace_leading_hyphen (x : string) :
  py_replace "EUI-" "" (String "E" (String "U" (String "I" (String "-" x))))
  = py_replace "EUI-" "" x.
Proof.
  unfold py_replace. cbn [replace_from].
  rewrite !prefix_cons, ?prefix_nil. reflexivity.
Qed.

Lemma replace_leading_underscore (x : string) :
  py_replace "EUI_" "" (String "E" (String "U" (String "I" (String "_" x))))
  = py_replace "EUI_" "" x.
Proof.
  unfold py_replace. cbn [replace_from].
  rewrite !prefix_cons, ?prefix_nil. reflexivity.
Qed.

Lemma replace_hyphen_keeps_underscore (x : string) :
  py_replace "EUI-" "" (String "E" (String "U" (String "I" (String "_" x))))
  = String "E" (String "U" (String "I" (String "_" (py_replace "EUI-" "" x)))).
Proof.
  unfold py_replace. cbn [replace_from].
  rewrite !prefix_cons, ?prefix_nil. reflexivity.
Qed.

Lemma strip_nonspace (c : ascii) (r : string) :
  is_space c = false -> py_strip (String c r) = String c (py_rstrip r).
Proof.
  intros Hc. unfold py_strip. cbn [py_lstrip]. rewrite Hc.
  apply rstrip_nonspace. exact Hc.
Qed.

(** The identifier stays the same whether a leading [EUI-] or [EUI_] is
    cut off first or every occurrence is deleted after trimming. *)
Lemma deletion_of_prefixed (u : string) :
  all_chars in_hex_digits (remove_chars is_separator (strip_eui_prefix u))
  = true ->
  remove_chars is_separator
    (py_replace "EUI_" "" (py_replace "EUI-" "" (py_strip u)))
  = remove_chars is_separator (strip_eui_prefix u).
Proof.
  unfold strip_eui_prefix. intros H. apply all_chars_removed in H.
  fold id_char in H.
  destruct (String.prefix "EUI-" u) eqn:P1;
    [|destruct (String.prefix "EUI_" u) eqn:P2]; cbn [orb] in *.
  - apply prefix_split in P1. cbn [String.length] in P1.
    remember (String.substring 4 (String.length u - 4) u) as s1 eqn:E.
    clear E. subst u.
    change ("EUI-" ++ s1)
      with (String "E" (String "U" (String "I" (String "-" s1)))).
    rewrite strip_nonspace by reflexivity.
    rewrite !rstrip_nonspace by reflexivity.
    assert (Hx : all_chars id_char (py_rstrip s1) = true)
      by (apply all_chars_rstrip; exact H).
    rewrite replace_leading_hyphen.
    rewrite (replace_absent_second "E" "U" "I-" "" (py_rstrip s1))
      by (apply id_chars_no_U; exact Hx).
    rewrite (replace_absent_second "E" "U" "I_" "" (py_rstrip s1))
      by (apply id_chars_no_U; exact Hx).
    apply remove_separators_rstrip. exact H.
  - apply prefix_split in P2. cbn [String.length] in P2.
    remember (String.substring 4 (String.length u - 4) u) as s1 eqn:E.
    clear E. subst u. clear P1.
    change ("EUI_" ++ s1)
      with (String "E" (String "U" (String "I" (String "_" s1)))).
    rewrite strip_nonspace by reflexivity.
    rewrite !rstrip_nonspace by reflexivity.
    assert (Hx : all_chars id_char (py_rstrip s1) = true)
      by (apply all_chars_rstrip; exact H).
    rewrite replace_hyphen_keeps_underscore.
    rewrite (replace_absent_second "E" "U" "I-" "" (py_rstrip s1))
      by (apply id_chars_no_U; exact Hx).
    rewrite replace_leading_underscore.
    rewrite (replace_absent_second "E" "U" "I_" "" (py_rstrip s1))
      by (apply id_chars_no_U; exact Hx).
    apply remove_separators_rstrip. exact H.
  - unfold py_strip.
    assert (Hx : all_chars id_char (py_rstrip (py_lstrip u)) = true)
      by (apply all_chars_rstrip, all_chars_lstrip; exact H).
    rewrite (replace_absent_second "E" "U" "I-" "" (py_rstrip (py_lstrip u)))
      by (apply id_chars_no_U; exact Hx).
    rewrite (replace_absent_second "E" "U" "I_" "" (py_rstrip (py_lstrip u)))
      by (apply id_chars_no_U; exact Hx).
    rewrite remove_separators_rstrip by (apply all_chars_lstrip; exact H).
    apply remove_separators_lstrip. exact H.
Qed.

(** Every identifier the normaliser of the specification accepts, the code
    accepts with the same result. *)
Lemma normalize_as_specified_accepted (raw d : string) :
  normalize_as_specified raw = Some d ->
  normalize_deveui (PyStr raw) = Some d.
Proof.
  rewrite normalize_str_deletion.
  unfold normalize_as_specified, normalize_by_deletion.
  destruct (String.eqb raw ""); [discriminate|]. cbv zeta.
  rewrite strip_upper. intros H.
  assert (Hhex : all_chars in_hex_digits
                   (remove_chars is_separator
                      (strip_eui_prefix (py_upper raw))) = true).
  { destruct (all_chars in_hex_digits
                (remove_chars is_separator (strip_eui_prefix (py_upper raw))));
      [reflexivity|].
    rewrite andb_false_r in H. discriminate H. }
  rewrite (deletion_of_prefixed _ Hhex). exact H.
Qed.

(** C6, as the code has it. An empty string is invalid; otherwise the
    input is trimmed, uppercased, every occurrence of [EUI-] and of [EUI_]
    (wherever it stands) and every space, hyphen and colon is deleted, and
    the result is returned exactly when it is sixteen hexadecimal
    characters. The two examples of the specification hold. *)
Theorem normalize_deveui_deletes (raw : string) :
  normalize_deveui (PyStr raw) = normalize_by_deletion raw
  /\ (forall d,
        normalize_deveui (PyStr raw) = Some d ->
        String.length d = 16%nat /\ all_chars in_hex_digits d = true)
  /\ normalize_deveui (PyStr "EUI-aabbccdd11223344") = Some "AABBCCDD11223344"
  /\ normalize_deveui (PyStr "short123") = None.
Proof.
  split; [apply normalize_str_deletion|].
  split; [intros d; apply normalize_canonical|].
  split; reflexivity.
Qed.

(** ** The order of the identifier candidates *)

Lemma normalize_truthy (v : pyval) :
  str_truthy (normalize_deveui v) = true
  \/ normalize_deveui v = None.
Proof.
  destruct (normalize_deveui v) as [d|] eqn:E; [left|right; reflexivity].
  destruct (normalize_canonical _ _ E) as [L _].
  destruct d; [discriminate L|reflexivity].
Qed.

(** [if d: return d] after a call of the normaliser keeps its result. *)
Lemma if_normalized (v : pyval) (o : option string) :
  (if str_truthy (normalize_deveui v) then normalize_deveui v else o)
  = match normalize_deveui v with Some d => Some d | None => o end.
Proof.
  destruct (normalize_truthy v) as [H|H]; rewrite H; [|reflexivity].
  destruct (normalize_deveui v); [reflexivity|discriminate H].
Qed.

Lemma rstrip_head (c : ascii) (r : string) :
  is_space c = false -> exists r', py_rstrip (String c r) = String c r'.
Proof.
  intros Hc. cbn [py_rstrip]. rewrite Hc.
  destruct (py_rstrip r); eexists; reflexivity.
Qed.

Lemma lstrip_head (s : string) :
  py_lstrip s = ""
  \/ exists c r, py_lstrip s = String c r /\ is_space c = false.
Proof.
  induction s as [|a r IH]; [left; reflexivity|].
  cbn [py_lstrip]. destruct (is_space a) eqn:E; [exact IH|].
  right. exists a, r. split; [reflexivity|exact E].
Qed.

Lemma rstrip_idempotent (s : string) : py_rstrip (py_rstrip s) = py_rstrip s.
Proof.
  induction s as [|a r IH]; [reflexivity|].
  cbn [py_rstrip]. destruct (py_rstrip r) as [|b r'] eqn:E.
  - destruct (is_space a) eqn:Ea; [reflexivity|].
    cbn [py_rstrip]. rewrite Ea. reflexivity.
  - cbn [py_rstrip]. cbn [py_rstrip] in IH. rewrite IH. reflexivity.
Qed.

Lemma strip_idempotent (s : string) : py_strip (py_strip s) = py_strip s.
Proof.
  unfold py_strip.
  destruct (lstrip_head s) as [E|(c & r & E & Hc)]; rewrite E.
  - reflexivity.
  - destruct (rstrip_head c r Hc) as (r' & E'). rewrite E'.
    cbn [py_lstrip]. rewrite Hc, <- E'. apply rstrip_idempotent.
Qed.

(** Stripping a name first and skipping it when nothing is left changes
    nothing: the normaliser strips anyway and rejects the empty string. *)
Lemma text_deveui_strip (s : string) :
  text_deveui (py_strip s) = normalize_deveui (PyStr s).
Proof.
  unfold text_deveui. rewrite if_normalized.
  rewrite !normalize_str_deletion. unfold normalize_by_deletion.
  rewrite strip_idempotent.
  destruct (py_strip s) as [|c r] eqn:E.
  - cbn [String.eqb negb]. destruct (String.eqb s ""); reflexivity.
  - destruct s as [|a s']; [discriminate E|]. cbn [String.eqb negb].
    match goal with |- context [if ?b then _ else _] => destruct b end;
      reflexivity.
Qed.


Lemma attrs_deveui_first (attrs : list attribute) :
  attrs_deveui attrs
  = first_normalized (map attr_value (filter key_matches attrs)).
Proof.
  induction attrs as [|a rest IH]; [reflexivity|].
  cbn [attrs_deveui filter]. fold (key_matches a).
  destruct (key_matches a); [|exact IH].
  cbn [map first_normalized]. rewrite if_normalized, IH. reflexivity.
Qed.

Lemma info_deveui_first (additional_info : gmap string pyval)
    (keys : list string) :
  info_deveui additional_info keys
  = first_normalized (info_values additional_info keys).
Proof.
  induction keys as [|k rest IH]; [reflexivity|].
  cbn [info_deveui info_values].
  destruct (additional_info !! k); [|exact IH].
  cbn [first_normalized]. rewrite if_normalized, IH. reflexivity.
Qed.

(** The extraction, case by case. *)
Lemma extract_deveui_cases (d : device) :
  extract_deveui d
  = match first_normalized (declared_values d) with
    | Some deveui => Return (Some deveui)
    | None =>
        if negb (is_str (device_name d)) then Raise
        else
          match normalize_deveui (device_name d) with
          | Some deveui => Return (Some deveui)
          | None =>
              if negb (is_str (device_label d)) then Raise
              else
                match normalize_deveui (device_label d) with
                | Some deveui => Return (Some deveui)
                | None =>
                    Return
                      (match additionalInfo d with
                       | Some additional_info =>
                           first_normalized
                             (info_values additional_info
                                ["devEUI"; "devEui"; "DevEUI"; "DevEui";
                                 "deveui"; "eui"])
                       | None => None
                       end)
                end
          end
    end.
Proof.
  unfold extract_deveui, declared_values, strip_method.
  assert (A : match all_attrs d with
              | Some attrs => attrs_deveui attrs
              | None => None
              end
              = first_normalized
                  match all_attrs d with
                  | Some attrs => map attr_value (filter key_matches attrs)
                  | None => []
                  end)
    by (destruct (all_attrs d); [apply attrs_deveui_first|reflexivity]).
  rewrite A. destruct (first_normalized _); [reflexivity|].
  destruct (device_name d) as [| | | |name]; try reflexivity.
  cbn [is_str negb]. rewrite text_deveui_strip.
  destruct (normalize_deveui (PyStr name)); [reflexivity|].
  destruct (device_label d) as [| | | |label]; try reflexivity.
  cbn [is_str negb]. rewrite text_deveui_strip.
  destruct (normalize_deveui (PyStr label)); [reflexivity|].
  destruct (additionalInfo d); [|reflexivity].
  rewrite info_deveui_first. reflexivity.
Qed.


Lemma first_normalized_canonical (vs : list pyval) (deveui : string) :
  first_normalized vs = Some deveui ->
  String.length deveui = 16%nat /\ all_chars in_hex_digits deveui = true.
Proof.
  induction vs as [|v rest IH]; [discriminate|].
  cbn [first_normalized].
  destruct (normalize_deveui v) as [x|] eqn:E; [|exact IH].
  intros [= <-]. exact (normalize_canonical _ _ E).
Qed.

(** Whatever the extraction returns is a canonical identifier. *)
Lemma extract_canonical (d : device) (deveui : string) :
  extract_deveui d = Return (Some deveui) ->
  String.length deveui = 16%nat /\ all_chars in_hex_digits deveui = true.
Proof.
  rewrite extract_deveui_cases.
  destruct (first_normalized (declared_values d)) eqn:E1;
    [intros [= <-]; exact (first_normalized_canonical _ _ E1)|].
  destruct (negb (is_str (device_name d))); [discriminate|].
  destruct (normalize_deveui (device_name d)) eqn:E2;
    [intros [= <-]; exact (normalize_canonical _ _ E2)|].
  destruct (negb (is_str (device_label d))); [discriminate|].
  destruct (normalize_deveui (device_label d)) eqn:E3;
    [intros [= <-]; exact (normalize_canonical _ _ E3)|].
  destruct (additionalInfo d); [|discriminate].
  intros [= H]. exact (first_normalized_canonical _ _ H).
Qed.

(** The extraction ends in an exception exactly in the cases that
    [extraction_raises] names. *)
Lemma extract_raises (d : device) :
  extraction_raises d
  = match extract_deveui d with Raise => true | Return _ => false end.
Proof.
  rewrite extract_deveui_cases. unfold extraction_raises.
  destruct (first_normalized (declared_values d)); [reflexivity|].
  destruct (negb (is_str (device_name d))); [reflexivity|]. cbn [orb].
  destruct (normalize_deveui (device_name d)); [reflexivity|].
  destruct (negb (is_str (device_label d))); [reflexivity|].
  destruct (normalize_deveui (device_label d)); reflexivity.
Qed.

(** A device with an identifier is counted and handed to the decision
    engine with the setpoints of its asset and its own reported ones. *)
Lemma main_device_syncs (args : arguments) (a : asset) (d : device)
    (deveui : string) (ls : loop_state) :
  extract_deveui d = Return (Some deveui) ->
  loop_run (main_device args a d ls)
  = sync_device args deveui (minTemp a) (maxTemp a)
      (manu_temp_min d) (manu_temp_max d)
      (with_stats incr_devices_processed (loop_run ls)).
Proof.
  intros E. unfold main_device. rewrite E.
  destruct (extract_canonical _ _ E) as [L _].
  destruct deveui; [discriminate L|reflexivity].
Qed.


(** ** The device limit *)

Lemma reachable_cons (d : device) (rest : list device) :
  reachable (d :: rest)
  = if extraction_raises d then (1, true)
    else (1 + fst (reachable rest), snd (reachable rest)).
Proof.
  cbn [reachable]. destruct (extraction_raises d); [reflexivity|].
  destruct (reachable rest). reflexivity.
Qed.


Lemma available_cons (a : asset) (rest : list asset) :
  available (a :: rest)
  = if is_None (minTemp a) && is_None (maxTemp a) then available rest
    else if snd (reachable (asset_devices a))
         then fst (reachable (asset_devices a))
         else fst (reachable (asset_devices a)) + available rest.
Proof.
  cbn [available]. destruct (is_None (minTemp a) && is_None (maxTemp a));
    [reflexivity|].
  destruct (reachable (asset_devices a)). reflexivity.
Qed.


Lemma send_if_payload_processed (args : arguments) (deveui : string)
    (payload : option string) (r : run) :
  devices_processed (run_stats (send_if_payload args deveui payload r))
  = devices_processed (run_stats r).
Proof.
  unfold send_if_payload. destruct r as [st tr0]. destruct st. simpl.
  destruct (str_truthy payload); [destruct payload|]; try reflexivity.
  case_send_len. destruct ok; reflexivity.
Qed.

Lemma with_stats_processed (f : stats -> stats) (r : run) :
  (forall s, devices_processed (f s) = devices_processed s) ->
  devices_processed (run_stats (with_stats f r))
  = devices_processed (run_stats r).
Proof. intros H. unfold with_stats. simpl. apply H. Qed.

(** The decision engine does not count devices. *)
Lemma sync_device_processed (args : arguments) (deveui : string)
    (asset_min asset_max device_min device_max : pyval) (r : run) :
  devices_processed
    (run_stats (sync_device args deveui asset_min asset_max
                  device_min device_max r))
  = devices_processed (run_stats r).
Proof.
  unfold sync_device, send_min_temp, send_max_temp.
  repeat match goal with
  | |- context [if ?b then _ else _] =>
      lazymatch b with
      | context [if _ then _ else _] => fail
      | _ => destruct b
      end
  | |- context [match ?o with Some _ => _ | None => _ end] =>
      destruct o
  | |- context [let (_, _) := ?c in _] => destruct c
  end;
  repeat first
    [ rewrite send_if_payload_processed
    | rewrite with_stats_processed by (intros []; reflexivity) ];
  destruct r as [st tr0]; destruct st; reflexivity.
Qed.

(** Every device the loop gets to is counted, also the one whose
    extraction raises. *)
Lemma main_device_count (args : arguments) (a : asset) (d : device)
    (ls : loop_state) :
  let ls' := main_device args a d ls in
  devices_processed_count ls' = devices_processed_count ls + 1
  /\ processed ls' = processed ls + 1
  /\ limit_reached ls' = limit_reached ls
  /\ raised ls' = raised ls || extraction_raises d.
Proof.
  unfold main_device, processed. rewrite extract_raises.
  destruct ls as [[st tr0] c lr rz]. destruct st.
  destruct (extract_deveui d) as [[deveui|]|];
    [destruct (str_truthy (Some deveui))| |];
    cbn [negb str_truthy devices_processed_count limit_reached raised
         loop_run];
    rewrite ?sync_device_processed; simpl;
    rewrite ?orb_false_r, ?orb_true_r; auto.
Qed.

(** An exception leaves the loops. *)
Lemma main_devices_raised (args : arguments) (a : asset)
    (devices : list device) (ls : loop_state) :
  raised ls = true -> main_devices args a devices ls = ls.
Proof. intros H. destruct devices; simpl; [|rewrite H]; reflexivity. Qed.

Lemma main_assets_raised (args : arguments) (assets : list asset)
    (ls : loop_state) :
  raised ls = true -> main_assets args assets ls = ls.
Proof. intros H. destruct assets; simpl; [|rewrite H]; reflexivity. Qed.


Lemma main_devices_unlimited (args : arguments) (a : asset)
    (devices : list device) (ls : loop_state) :
  limit args = None \/ limit args = Some 0 ->
  raised ls = false ->
  let ls' := main_devices args a devices ls in
  let k := fst (reachable devices) in
  devices_processed_count ls' = devices_processed_count ls + k
  /\ processed ls' = processed ls + k
  /\ limit_reached ls' = limit_reached ls
  /\ raised ls' = snd (reachable devices).
Proof.
  intros Hl. revert ls.
  induction devices as [|d rest IH]; intros ls Hz; cbn [main_devices].
  - cbv zeta. simpl. repeat split; lia || exact Hz.
  - rewrite Hz.
    assert (limit_hit args (devices_processed_count ls) = false) as ->
      by (unfold limit_hit; destruct Hl as [-> | ->]; reflexivity).
    destruct (main_device_count args a d ls) as (C1 & P1 & L1 & R1).
    rewrite Hz in R1. cbn [orb] in R1. rewrite reachable_cons.
    destruct (extraction_raises d) eqn:Ed.
    + rewrite (main_devices_raised _ _ _ _ R1). cbv zeta. cbn [fst snd].
      repeat split; assumption.
    + specialize (IH (main_device args a d ls) R1).
      cbv zeta in IH. destruct IH as (C2 & P2 & L2 & R2).
      cbv zeta. cbn [fst snd]. rewrite C2, P2, L2, R2, C1, P1, L1.
      repeat split; lia.
Qed.





Lemma main_assets_unlimited (args : arguments) (assets : list asset)
    (ls : loop_state) :
  limit args = None \/ limit args = Some 0 ->
  limit_reached ls = false ->
  raised ls = false ->
  let ls' := main_assets args assets ls in
  processed ls' = processed ls + available assets
  /\ limit_reached ls' = false.
Proof.
  intros Hl. revert ls.
  induction assets as [|a rest IH]; intros ls Hr Hz; cbn [main_assets].
  - cbv zeta. simpl. split; [lia|exact Hr].
  - rewrite Hr, Hz. cbv zeta. rewrite available_cons.
    unfold main_asset.
    destruct (is_None (minTemp a) && is_None (maxTemp a)).
    + match goal with
      | |- context [main_assets args rest ?l0] =>
          destruct (IH l0 Hr Hz) as [P L]
      end.
      rewrite P, L. destruct ls as [[st tr0] c lr rz]. destruct st.
      unfold processed. simpl. split; [lia|reflexivity].
    + match goal with
      | |- context [main_devices args a ?ds ?l0] =>
          destruct (main_devices_unlimited args a ds l0 Hl Hz)
            as (_ & P & L & R)
      end.
      cbn [limit_reached] in L.
      assert (P0 : processed
                     (mkLoop (with_stats incr_assets_processed (loop_run ls))
                        (devices_processed_count ls) (limit_reached ls)
                        (raised ls))
                   = processed ls)
        by (destruct ls as [[st tr0] c lr rz]; destruct st; reflexivity).
      destruct (snd (reachable (asset_devices a))).
      * rewrite (main_assets_raised _ _ _ R), P, L, P0.
        split; [reflexivity|exact Hr].
      * match goal with
        | |- context [main_assets args rest ?l0] =>
            destruct (IH l0 ltac:(rewrite L; exact Hr) R) as [P2 L2]
        end.
        rewrite P2, L2, P, P0. split; [lia|reflexivity].
Qed.

(** A run that prints its summary went through the loops without an
    exception. *)
Lemma main_some (args : arguments) (tb : registry) (r : run) :
  main args tb = Some r ->
  r = loop_run (main_assets args (get_customer_assets tb) loop0)
  /\ raised (main_assets args (get_customer_assets tb) loop0) = false.
Proof.
  unfold main.
  destruct (negb (str_truthy AGILITY_URL)); [discriminate|].
  destruct (negb (str_truthy (THINGSBOARD_USERNAME tb))
            || negb (str_truthy (THINGSBOARD_PASSWORD tb)));
    [discriminate|].
  destruct (negb (login_to_thingsboard tb)); [discriminate|].
  destruct (get_customer_assets tb) as [|a rest]; [discriminate|].
  cbv zeta. destruct (raised (main_assets args (a :: rest) loop0));
    [discriminate|].
  intros [= <-]. split; reflexivity.
Qed.

(** With everything configured, a successful login, at least one asset and
    no exception the run goes through the loops and ends. *)
Lemma main_runs (args : arguments) (tb : registry) :
  str_truthy AGILITY_URL = true ->
  str_truthy (THINGSBOARD_USERNAME tb) = true ->
  str_truthy (THINGSBOARD_PASSWORD tb) = true ->
  login_to_thingsboard tb = true ->
  get_customer_assets tb <> [] ->
  raised (main_assets args (get_customer_assets tb) loop0) = false ->
  main args tb
  = Some (loop_run (main_assets args (get_customer_assets tb) loop0)).
Proof.
  intros H1 H2 H3 H4 H5 H6. unfold main. rewrite H1, H2, H3, H4.
  cbn [negb orb].
  destruct (get_customer_assets tb) as [|a rest]; [congruence|].
  cbv zeta. rewrite H6. reflexivity.
Qed.

(** Without a limit, or with a limit of zero, every reachable device is
    processed. *)
Lemma no_limit_processes_all (args : arguments) (assets : list asset) :
  limit args = None \/ limit args = Some 0 ->
  processed (main_assets args assets loop0) = available assets.
Proof.
  intros Hl.
  destruct (main_assets_unlimited args assets loop0 Hl eq_refl eq_refl)
    as [P _].
  rewrite P. reflexivity.
Qed.


(** * Further properties *)

(** ** Canonical identifiers are fixed points of the normaliser *)

Lemma hex_digit_char (c : ascii) :
  in_hex_digits c = true ->
  is_space c = false /\ upper_char c = c /\ is_separator c = false
  /\ Ascii.eqb "U" c = false.
Proof.
  destruct c as [b0 b1 b2 b3 b4 b5 b6 b7].
  destruct b0, b1, b2, b3, b4, b5, b6, b7; vm_compute;
    intros H; try discriminate H; repeat split.
Qed.

Lemma hex_chars_id (s : string) :
  all_chars in_hex_digits s = true -> all_chars id_char s = true.
Proof.
  apply all_chars_impl. intros c H. unfold id_char. rewrite H. reflexivity.
Qed.

Lemma hex_chars_strip (s : string) :
  all_chars in_hex_digits s = true -> py_strip s = s.
Proof.
  intros H. unfold py_strip.
  assert (L : py_lstrip s = s).
  { destruct s as [|c r]; [reflexivity|]. cbn [py_lstrip all_chars] in *.
    apply andb_true_iff in H as [Hc _].
    destruct (hex_digit_char _ Hc) as (-> & _). reflexivity. }
  rewrite L. induction s as [|c r IH]; [reflexivity|].
  cbn [all_chars] in H. apply andb_true_iff in H as [Hc Hr].
  destruct (hex_digit_char _ Hc) as (Hs & _).
  rewrite (rstrip_nonspace _ _ Hs). f_equal. apply IH; [exact Hr|].
  destruct r as [|c' r']; [reflexivity|]. cbn [py_lstrip all_chars] in *.
  apply andb_true_iff in Hr as [Hc' _].
  destruct (hex_digit_char _ Hc') as (-> & _). reflexivity.
Qed.

Lemma hex_chars_upper (s : string) :
  all_chars in_hex_digits s = true -> py_upper s = s.
Proof.
  induction s as [|c r IH]; [reflexivity|].
  cbn [all_chars py_upper map_string]. intros H.
  apply andb_true_iff in H as [Hc Hr].
  destruct (hex_digit_char _ Hc) as (_ & -> & _).
  f_equal. exact (IH Hr).
Qed.

Lemma hex_chars_keep (s : string) :
  all_chars in_hex_digits s = true -> remove_chars is_separator s = s.
Proof.
  induction s as [|c r IH]; [reflexivity|].
  cbn [all_chars remove_chars]. intros H.
  apply andb_true_iff in H as [Hc Hr].
  destruct (hex_digit_char _ Hc) as (_ & _ & -> & _).
  f_equal. exact (IH Hr).
Qed.

(** X1. Whatever the normaliser returns, it returns again when it is given
    that result: a canonical identifier is normalised to itself. *)
Theorem normalize_deveui_fixed_point (v : pyval) (d : string) :
  normalize_deveui v = Some d -> normalize_deveui (PyStr d) = Some d.
Proof.
  intros H. destruct (normalize_canonical _ _ H) as [L Hhex].
  rewrite normalize_str_deletion. unfold normalize_by_deletion.
  destruct d as [|c r] eqn:E; [discriminate L|]. rewrite <- E in *.
  assert (Hne : String.eqb d "" = false) by (rewrite E; reflexivity).
  rewrite Hne. cbv zeta.
  rewrite (hex_chars_strip _ Hhex), (hex_chars_upper _ Hhex).
  rewrite (replace_absent_second "E" "U" "I-" "" d)
    by (apply id_chars_no_U, hex_chars_id; exact Hhex).
  rewrite (replace_absent_second "E" "U" "I_" "" d)
    by (apply id_chars_no_U, hex_chars_id; exact Hhex).
  rewrite (hex_chars_keep _ Hhex), L, Hhex. reflexivity.
Qed.

(** ** Setpoint payloads do not collide *)

Lemma two_digits_injective (m n : Z) :
  0 <= m <= 255 -> 0 <= n <= 255 -> two_digits m = two_digits n -> m = n.
Proof.
  intros Hm Hn E.
  destruct (format_02X_byte m Hm) as (_ & _ & _ & Vm).
  destruct (format_02X_byte n Hn) as (_ & _ & _ & Vn).
  unfold two_digits in E. injection E as E1 E2.
  rewrite <- Vm, <- Vn, E1, E2. reflexivity.
Qed.

(** X2. Within the range of one byte, two setpoint payloads are equal
    exactly when they are for the same field and the doubled temperatures
    truncate to the same value: different half-degree steps never share a
    payload, and a minimum payload is never a maximum payload. *)
Theorem temperature_payload_injective (t1 t2 : pyval) (x1 x2 : Q)
    (is_min1 is_min2 : bool) :
  py_float t1 = Some x1 ->
  py_float t2 = Some x2 ->
  0 <= py_int (x1 * 2) <= 255 ->
  0 <= py_int (x2 * 2) <= 255 ->
  (temperature_to_hex_payload t1 is_min1 = temperature_to_hex_payload t2 is_min2
   <-> is_min1 = is_min2 /\ py_int (x1 * 2) = py_int (x2 * 2)).
Proof.
  intros H1 H2 R1 R2.
  rewrite (temperature_payload_float _ _ is_min1 H1).
  rewrite (temperature_payload_float _ _ is_min2 H2).
  destruct (format_02X_byte _ R1) as (-> & _).
  destruct (format_02X_byte _ R2) as (-> & _).
  split.
  - intros E. unfold two_digits in E. cbv [String.append] in E.
    destruct is_min1, is_min2; try discriminate E;
      (split; [reflexivity|]); injection E as E1 E2;
      (apply two_digits_injective; [assumption|assumption|]);
      unfold two_digits; rewrite E1, E2; reflexivity.
  - intros [-> ->]. reflexivity.
Qed.

(** ** What a whole run keeps *)

Lemma failures_app (tr1 tr2 : list event) :
  failures (tr1 ++ tr2) = failures tr1 + failures tr2.
Proof. unfold failures. rewrite filter_app, length_app. lia. Qed.

Lemma extends_refl (args : arguments) (deveui : string) (r : run) :
  extends args deveui 0 r r.
Proof.
  exists []. rewrite app_nil_r. repeat split; try reflexivity.
  - constructor.
  - unfold failures. simpl. lia.
Qed.

Lemma extends_stats (args : arguments) (deveui : string)
    (f : stats -> stats) (r : run) :
  (forall s, errors (f s) = errors s
             /\ assets_processed (f s) = assets_processed s
             /\ skipped_no_asset_temp (f s) = skipped_no_asset_temp s
             /\ devices_processed (f s) = devices_processed s
             /\ skipped_no_deveui (f s) = skipped_no_deveui s) ->
  extends args deveui 0 r (with_stats f r).
Proof.
  intros H. destruct (H (run_stats r)) as (H1 & H2 & H3 & H4 & H5).
  exists []. unfold with_stats. cbn [run_trace run_stats].
  rewrite app_nil_r, H1, H2, H3, H4, H5.
  repeat split; try reflexivity; [constructor|unfold failures; simpl; lia].
Qed.

Lemma extends_trans (args : arguments) (deveui : string) (n m : nat)
    (r r1 r2 : run) :
  extends args deveui n r r1 -> extends args deveui m r1 r2 ->
  extends args deveui (n + m) r r2.
Proof.
  intros (a & Ta & La & Fa & Ea & A1 & A2 & A3 & A4)
         (b & Tb & Lb & Fb & Eb & B1 & B2 & B3 & B4).
  exists (a ++ b)%list. rewrite Tb, Ta, <- app_assoc, length_app, failures_app.
  repeat split; try congruence; try lia.
  apply Forall_app. split; assumption.
Qed.

Lemma extends_more (args : arguments) (deveui : string) (n m : nat)
    (r r' : run) :
  (n <= m)%nat -> extends args deveui n r r' -> extends args deveui m r r'.
Proof.
  intros H (a & Ta & La & Rest). exists a.
  split; [exact Ta|]. split; [lia|exact Rest].
Qed.

(** One call of the dispatcher leaves one event, made for its device. *)
Lemma send_event (args : arguments) (deveui p : string) (tr : list event) :
  exists e,
    snd (send_downlink_to_agility deveui (fport args) p (dry_run args) tr)
    = (tr ++ [e])%list
    /\ made_for args deveui e
    /\ failed e
       = negb (fst (send_downlink_to_agility deveui (fport args) p
                      (dry_run args) tr)).
Proof.
  unfold send_downlink_to_agility, made_for.
  destruct (str_truthy AGILITY_URL) eqn:U; cbn [negb];
    [destruct (dry_run args) eqn:D|]; eexists;
    (split; [reflexivity|]); cbn [fst snd event_downlink dl_DevEUI dl_FPort
      failed is_dry_run negb]; repeat split; congruence.
Qed.

Lemma send_extends (args : arguments) (deveui p : string)
    (f : stats -> stats) (s : stats) (tr : list event) (ok : bool)
    (tr' : list event) :
  send_downlink_to_agility deveui (fport args) p (dry_run args) tr
  = (ok, tr') ->
  (forall s, errors (f s) = errors s
             /\ assets_processed (f s) = assets_processed s
             /\ skipped_no_asset_temp (f s) = skipped_no_asset_temp s
             /\ devices_processed (f s) = devices_processed s
             /\ skipped_no_deveui (f s) = skipped_no_deveui s) ->
  extends args deveui 1 (mkRun s tr)
    (if ok then mkRun (f s) tr' else mkRun (incr_errors s) tr').
Proof.
  intros E Hf. destruct (send_event args deveui p tr) as (e & T & M & F).
  rewrite E in T, F. cbn [fst snd] in *. subst tr'.
  destruct (Hf s) as (H1 & H2 & H3 & H4 & H5).
  exists [e]. unfold failures.
  destruct ok; cbn [negb] in F; cbn [run_trace run_stats filter List.length];
    rewrite F; [rewrite H1, H2, H3, H4, H5|destruct s]; simpl; repeat split;
    first [lia | constructor; [exact M|constructor]].
Qed.

Lemma send_if_payload_extends (args : arguments) (deveui : string)
    (payload : option string) (r : run) :
  extends args deveui 1 r (send_if_payload args deveui payload r).
Proof.
  unfold send_if_payload.
  destruct (str_truthy payload); [destruct payload as [p|]|];
    try (apply extends_more with (n := 0%nat); [lia|apply extends_refl]).
  destruct r as [s tr]. cbn [run_stats run_trace].
  destruct (send_downlink_to_agility deveui (fport args) p (dry_run args) tr)
    as [ok tr'] eqn:E.
  apply (send_extends args deveui p (fun s => s) s tr ok tr' E).
  intros s0. repeat split.
Qed.

Ltac keeps_counters := intros []; repeat split; reflexivity.

Lemma send_min_temp_extends (args : arguments) (deveui : string)
    (t : pyval) (q : bool) (r : run) :
  extends args deveui 1 r (send_min_temp args deveui t q r).
Proof.
  unfold send_min_temp.
  destruct q;
    match goal with
    | |- extends _ _ _ ?r0 (send_if_payload _ _ _ (with_stats ?f ?r0)) =>
        apply (extends_trans args deveui 0 1 r0 (with_stats f r0));
        [apply extends_stats; keeps_counters|apply send_if_payload_extends]
    end.
Qed.

Lemma send_max_temp_extends (args : arguments) (deveui : string)
    (t : pyval) (q : bool) (r : run) :
  extends args deveui 1 r (send_max_temp args deveui t q r).
Proof.
  unfold send_max_temp.
  destruct q;
    match goal with
    | |- extends _ _ _ ?r0 (send_if_payload _ _ _ (with_stats ?f ?r0)) =>
        apply (extends_trans args deveui 0 1 r0 (with_stats f r0));
        [apply extends_stats; keeps_counters|apply send_if_payload_extends]
    end.
Qed.

(** The decision engine calls the dispatcher at most twice for a device,
    and only for that device. *)
Lemma sync_device_extends (args : arguments) (deveui : string)
    (asset_min asset_max device_min device_max : pyval) (r : run) :
  extends args deveui 2 r
    (sync_device args deveui asset_min asset_max device_min device_max r).
Proof.
  unfold sync_device.
  set (r1 := if is_None asset_min
             then with_stats incr_skipped_empty_min_temp r else r).
  set (r2 := if is_None asset_max
             then with_stats incr_skipped_empty_max_temp r1 else r1).
  assert (H1 : extends args deveui 0 r r1).
  { unfold r1. destruct (is_None asset_min);
      [apply extends_stats; keeps_counters|apply extends_refl]. }
  assert (H2 : extends args deveui 0 r1 r2).
  { unfold r2. destruct (is_None asset_max);
      [apply extends_stats; keeps_counters|apply extends_refl]. }
  apply (extends_trans args deveui 0 2 r r2 _
           (extends_trans args deveui 0 0 r r1 r2 H1 H2)).
  clearbody r2. clear r1 H1 H2.
  set (km := normalize_device_temp device_min).
  set (kx := normalize_device_temp device_max).
  destruct (is_None asset_min && is_None asset_max);
    [apply extends_more with (n := 0%nat); [lia|apply extends_refl]|].
  destruct (needs_temp asset_min km), (needs_temp asset_max kx);
    cbn [andb];
    try (destruct (is_None km), (is_None kx); cbn [andb negb]).
  all: try (apply extends_more with (n := 0%nat); [lia|apply extends_refl]).
  all: try (apply extends_more with (n := 1%nat);
            [lia|first [apply send_min_temp_extends
                       |apply send_max_temp_extends]]).
  all: try (match goal with
            | |- extends _ _ _ ?r0 (send_max_temp _ _ _ _ ?r1) =>
                apply (extends_trans args deveui 1 1 r0 r1);
                [apply send_min_temp_extends|apply send_max_temp_extends]
            end).
  - destruct r2 as [s tr]. cbn [run_trace run_stats].
    destruct (send_downlink_to_agility deveui (fport args)
                combine_query_payloads (dry_run args) tr) as [ok tr'] eqn:E.
    apply extends_more with (n := 1%nat); [lia|].
    apply (send_extends args deveui combine_query_payloads
             (fun s => incr_combined_sent
                         (incr_max_query_sent (incr_min_query_sent s)))
             s tr ok tr' E).
    keeps_counters.
  - destruct (str_truthy (combine_temperature_payloads asset_min asset_max));
      [destruct (combine_temperature_payloads asset_min asset_max) as [p|]|];
      try (apply extends_more with (n := 0%nat); [lia|apply extends_refl]).
    destruct r2 as [s tr]. cbn [run_trace run_stats].
    destruct (send_downlink_to_agility deveui (fport args)
                (p ++ combine_query_payloads) (dry_run args) tr)
      as [ok tr'] eqn:E.
    apply extends_more with (n := 1%nat); [lia|].
    apply (send_extends args deveui (p ++ combine_query_payloads)
             (fun s => incr_combined_sent
                         (incr_max_temp_sent (incr_min_temp_sent s)))
             s tr ok tr' E).
    keeps_counters.
Qed.

Lemma made_for_run_event (args : arguments) (deveui : string) (e : event) :
  canonical deveui -> made_for args deveui e -> run_event args e.
Proof.
  intros C (D & P & Y). unfold run_event. rewrite D. auto.
Qed.

Lemma main_device_invariant (args : arguments) (a : asset) (d : device)
    (ls : loop_state) :
  run_invariant args ls -> run_invariant args (main_device args a d ls).
Proof.
  unfold run_invariant. cbv zeta. intros (E & F & B).
  unfold main_device.
  destruct (extract_deveui d) as [[deveui|]|] eqn:X.
  - destruct (extract_canonical _ _ X) as [L Hhex].
    assert (T : str_truthy (Some deveui) = true)
      by (destruct deveui; [discriminate L|reflexivity]).
    rewrite T. cbn [negb loop_run].
    destruct (sync_device_extends args deveui (minTemp a) (maxTemp a)
                (manu_temp_min d) (manu_temp_max d)
                (with_stats incr_devices_processed (loop_run ls)))
      as (new & Tn & Ln & Fn & En & _ & _ & Dn & Sn).
    rewrite Tn, En, Dn, Sn. unfold with_stats. cbn [run_trace run_stats].
    rewrite failures_app, length_app.
    destruct (loop_run ls) as [st tr]. destruct st.
    cbn [run_trace run_stats errors devices_processed skipped_no_deveui
         incr_devices_processed] in *.
    split; [lia|]. split; [|lia].
    apply Forall_app. split; [exact F|].
    eapply Forall_impl; [|exact Fn].
    intros e. apply made_for_run_event. split; assumption.
  - cbn [str_truthy negb loop_run]. unfold with_stats.
    destruct (loop_run ls) as [st tr]. destruct st.
    cbn [run_trace run_stats errors devices_processed skipped_no_deveui
         incr_devices_processed incr_skipped_no_deveui] in *.
    split; [exact E|]. split; [exact F|lia].
  - cbn [loop_run]. unfold with_stats.
    destruct (loop_run ls) as [st tr]. destruct st.
    cbn [run_trace run_stats errors devices_processed skipped_no_deveui
         incr_devices_processed] in *.
    split; [exact E|]. split; [exact F|lia].
Qed.

Lemma main_devices_invariant (args : arguments) (a : asset)
    (devices : list device) (ls : loop_state) :
  run_invariant args ls -> run_invariant args (main_devices args a devices ls).
Proof.
  revert ls. induction devices as [|d rest IH]; intros ls H;
    cbn [main_devices]; [exact H|].
  destruct (raised ls); [exact H|].
  destruct (limit_hit args (devices_processed_count ls)); [exact H|].
  apply IH, main_device_invariant. exact H.
Qed.

Lemma main_asset_invariant (args : arguments) (a : asset) (ls : loop_state) :
  run_invariant args ls -> run_invariant args (main_asset args a ls).
Proof.
  intros H. unfold main_asset.
  destruct (is_None (minTemp a) && is_None (maxTemp a));
    [|apply main_devices_invariant];
    unfold run_invariant, with_stats in *; cbv zeta in *;
    destruct (loop_run ls) as [st tr]; destruct st; exact H.
Qed.

Lemma main_assets_invariant (args : arguments) (assets : list asset)
    (ls : loop_state) :
  run_invariant args ls -> run_invariant args (main_assets args assets ls).
Proof.
  revert ls. induction assets as [|a rest IH]; intros ls H;
    cbn [main_assets]; [exact H|].
  destruct (raised ls); [exact H|].
  destruct (limit_reached ls); [exact H|].
  apply IH, main_asset_invariant. exact H.
Qed.

Lemma main_invariant (args : arguments) (tb : registry) (r : run) :
  main args tb = Some r ->
  str_truthy AGILITY_URL = true
  /\ errors (run_stats r) = failures (run_trace r)
  /\ Forall (run_event args) (run_trace r)
  /\ Z.of_nat (List.length (run_trace r))
     <= 2 * (devices_processed (run_stats r) - skipped_no_deveui (run_stats r)).
Proof.
  intros H. split.
  - unfold main in H. destruct (str_truthy AGILITY_URL);
      [reflexivity|discriminate H].
  - apply main_some in H. destruct H as [-> _].
    apply (main_assets_invariant args (get_customer_assets tb) loop0).
    unfold run_invariant, loop0, failures. simpl.
    split; [reflexivity|]. split; [constructor|lia].
Qed.

(** X3. Every frame a run hands to the dispatcher is addressed to a
    canonical identifier, sixteen characters out of [0-9A-F], and to the
    port given on the command line. *)
Theorem main_frames_addressed (args : arguments) (tb : registry) (r : run) :
  main args tb = Some r ->
  Forall
    (fun e =>
       canonical (dl_DevEUI (event_downlink e))
       /\ dl_FPort (event_downlink e) = fport args)
    (run_trace r).
Proof.
  intros H. destruct (main_invariant _ _ _ H) as (_ & _ & F & _).
  eapply Forall_impl; [|exact F]. intros e (C & P & _). auto.
Qed.

Lemma dry_events (tr : list event) :
  Forall (fun e => is_dry_run e = true) tr ->
  posted tr = [] /\ failures tr = 0.
Proof.
  induction 1 as [|e rest He _ [IHp IHf]]; [split; reflexivity|].
  destruct e; try discriminate He. cbn [posted]. split; [exact IHp|].
  unfold failures in *. cbn [filter failed]. exact IHf.
Qed.

(** X4. A dry run never reaches the transport and counts no error. *)
Theorem main_dry_run_posts_nothing (args : arguments) (tb : registry)
    (r : run) :
  dry_run args = true ->
  main args tb = Some r ->
  posted (run_trace r) = [] /\ errors (run_stats r) = 0.
Proof.
  intros D H. destruct (main_invariant _ _ _ H) as (U & E & F & _).
  assert (Hd : Forall (fun e => is_dry_run e = true) (run_trace r)).
  { eapply Forall_impl; [|exact F]. intros e (_ & _ & Y). exact (Y U D). }
  destruct (dry_events _ Hd) as [P Fz]. split; [exact P|]. rewrite E. exact Fz.
Qed.

(** X5. The error count of the summary is the number of transmissions of
    the run that failed. *)
Theorem main_errors_are_failures (args : arguments) (tb : registry)
    (r : run) :
  main args tb = Some r ->
  errors (run_stats r) = failures (run_trace r).
Proof.
  intros H. destruct (main_invariant _ _ _ H) as (_ & E & _). exact E.
Qed.

(** X6. A run hands at most two frames to the dispatcher for each device
    that has an identifier. *)
Theorem main_frames_bounded (args : arguments) (tb : registry) (r : run) :
  main args tb = Some r ->
  Z.of_nat (List.length (run_trace r))
  <= 2 * (devices_processed (run_stats r) - skipped_no_deveui (run_stats r)).
Proof.
  intros H. destruct (main_invariant _ _ _ H) as (_ & _ & _ & B). exact B.
Qed.

(** ** Asset accounting *)

Lemma main_device_assets (args : arguments) (a : asset) (d : device)
    (ls : loop_state) :
  let st := run_stats (loop_run ls) in
  let st' := run_stats (loop_run (main_device args a d ls)) in
  assets_processed st' = assets_processed st
  /\ skipped_no_asset_temp st' = skipped_no_asset_temp st.
Proof.
  cbv zeta. unfold main_device.
  destruct (extract_deveui d) as [[deveui|]|];
    [destruct (str_truthy (Some deveui))| |];
    cbn [negb str_truthy loop_run].
  - destruct (sync_device_extends args deveui (minTemp a) (maxTemp a)
                (manu_temp_min d) (manu_temp_max d)
                (with_stats incr_devices_processed (loop_run ls)))
      as (new & _ & _ & _ & _ & A & S & _).
    rewrite A, S. destruct (loop_run ls) as [st tr]. destruct st.
    split; reflexivity.
  - destruct (loop_run ls) as [st tr]. destruct st. split; reflexivity.
  - destruct (loop_run ls) as [st tr]. destruct st. split; reflexivity.
  - destruct (loop_run ls) as [st tr]. destruct st. split; reflexivity.
Qed.

Lemma main_devices_assets (args : arguments) (a : asset)
    (devices : list device) (ls : loop_state) :
  let st := run_stats (loop_run ls) in
  let st' := run_stats (loop_run (main_devices args a devices ls)) in
  assets_processed st' = assets_processed st
  /\ skipped_no_asset_temp st' = skipped_no_asset_temp st.
Proof.
  cbv zeta. revert ls.
  induction devices as [|d rest IH]; intros ls; cbn [main_devices];
    [split; reflexivity|].
  destruct (raised ls); [split; reflexivity|].
  destruct (limit_hit args (devices_processed_count ls));
    [split; reflexivity|].
  destruct (IH (main_device args a d ls)) as [A S].
  destruct (main_device_assets args a d ls) as [A1 S1].
  rewrite A, S, A1, S1. split; reflexivity.
Qed.

Lemma main_asset_assets (args : arguments) (a : asset) (ls : loop_state) :
  let st := run_stats (loop_run ls) in
  let st' := run_stats (loop_run (main_asset args a ls)) in
  assets_processed st'
  = assets_processed st + one (negb (without_setpoints a))
  /\ skipped_no_asset_temp st'
     = skipped_no_asset_temp st + one (without_setpoints a).
Proof.
  cbv zeta. unfold main_asset, without_setpoints.
  destruct (is_None (minTemp a) && is_None (maxTemp a)).
  - destruct (loop_run ls) as [st tr]. destruct st. simpl. split; lia.
  - match goal with
    | |- context [main_devices args a ?ds ?l0] =>
        destruct (main_devices_assets args a ds l0) as [A S]
    end.
    rewrite A, S. destruct (loop_run ls) as [st tr]. destruct st. simpl.
    split; lia.
Qed.

Lemma main_assets_assets (args : arguments) (assets : list asset)
    (ls : loop_state) :
  let st := run_stats (loop_run ls) in
  let ls' := main_assets args assets ls in
  let st' := run_stats (loop_run ls') in
  let unset := Z.of_nat (List.length (filter without_setpoints assets)) in
  assets_processed st <= assets_processed st'
  /\ skipped_no_asset_temp st <= skipped_no_asset_temp st'
  /\ assets_processed st' + skipped_no_asset_temp st'
     <= assets_processed st + skipped_no_asset_temp st
        + Z.of_nat (List.length assets)
  /\ (limit_reached ls' = false ->
      raised ls' = false ->
      skipped_no_asset_temp st' = skipped_no_asset_temp st + unset
      /\ assets_processed st'
         = assets_processed st + (Z.of_nat (List.length assets) - unset)).
Proof.
  cbv zeta. revert ls.
  induction assets as [|a rest IH]; intros ls; cbn [main_assets].
  - simpl. repeat split; lia.
  - destruct (raised ls) eqn:R;
      [simpl List.length; repeat split; try lia; congruence|].
    destruct (limit_reached ls) eqn:L.
    + simpl List.length. repeat split; try lia; congruence.
    + destruct (main_asset_assets args a ls) as [A S].
      destruct (IH (main_asset args a ls)) as (I1 & I2 & I3 & I4).
      cbn [filter]. simpl List.length.
      assert (O : 0 <= one (without_setpoints a) <= 1
                  /\ one (negb (without_setpoints a))
                     = 1 - one (without_setpoints a))
        by (destruct (without_setpoints a); simpl; lia).
      split; [lia|]. split; [lia|]. split; [lia|].
      intros Hl Hz. destruct (I4 Hl Hz) as [I5 I6].
      destruct (without_setpoints a); simpl List.length; simpl one in *;
        split; lia.
Qed.

(** X7. The summary accounts for the assets: every asset the run looks
    at is counted once, as processed or as skipped for want of a desired
    setpoint; when the run was not halted by the device limit, the two
    counters are the numbers of assets with and without a desired
    setpoint. *)
Theorem main_assets_accounted (args : arguments) (tb : registry) (r : run) :
  main args tb = Some r ->
  let assets := get_customer_assets tb in
  let unset := Z.of_nat (List.length (filter without_setpoints assets)) in
  0 <= assets_processed (run_stats r)
  /\ 0 <= skipped_no_asset_temp (run_stats r)
  /\ assets_processed (run_stats r) + skipped_no_asset_temp (run_stats r)
     <= Z.of_nat (List.length assets)
  /\ (limit_reached (main_assets args assets loop0) = false ->
      skipped_no_asset_temp (run_stats r) = unset
      /\ assets_processed (run_stats r)
         = Z.of_nat (List.length assets) - unset).
Proof.
  intros H. apply main_some in H. destruct H as [-> Hz]. cbv zeta.
  destruct (main_assets_assets args (get_customer_assets tb) loop0)
    as (I1 & I2 & I3 & I4).
  simpl in I1, I2, I3, I4.
  split; [exact I1|]. split; [exact I2|]. split; [exact I3|].
  intros Hl. destruct (I4 Hl Hz). split; lia.
Qed.

(** ** One field in need *)

(** X8. When only the minimum needs an update (there is no desired
    maximum, or the device reports the desired maximum already), one
    frame is dispatched: the query [BD] when the device's known minimum
    is unknown, the encoded minimum alone otherwise. No query for the
    other field is appended, and the combined counter stays. *)
Theorem sync_device_min_only (args : arguments) (deveui : string)
    (asset_min asset_max device_min device_max : pyval) (x : Q) (r : run) :
  py_float asset_min = Some x ->
  needs_temp asset_min (normalize_device_temp device_min) = true ->
  needs_temp asset_max (normalize_device_temp device_max) = false ->
  let r' :=
    sync_device args deveui asset_min asset_max device_min device_max r in
  dispatched (run_trace r')
  = (dispatched (run_trace r)
     ++ [if is_unknown device_min then "BD"
         else ("3E" ++ format_02X (py_int (x * 2)))%string])%list
  /\ combined_sent (run_stats r') = combined_sent (run_stats r)
  /\ min_query_sent (run_stats r') + min_temp_sent (run_stats r')
     = min_query_sent (run_stats r) + min_temp_sent (run_stats r) + 1
  /\ max_query_sent (run_stats r') = max_query_sent (run_stats r)
  /\ max_temp_sent (run_stats r') = max_temp_sent (run_stats r).
Proof.
  intros F Nmin Nmax. cbv zeta. unfold sync_device, is_unknown.
  rewrite Nmin, Nmax, (float_not_None _ _ F). cbn [andb].
  unfold send_min_temp, send_if_payload.
  pose proof (payload_truthy asset_min true _
                (temperature_payload_float _ _ true F)) as T.
  rewrite (temperature_payload_float _ _ true F), T.
  assert (Tq : str_truthy (Some (get_query_payload true)) = true)
    by reflexivity.
  rewrite Tq. cbv iota.
  destruct r as [st tr0]. destruct st.
  destruct (is_None asset_max);
    destruct (is_None (normalize_device_temp device_min));
    cbn [get_query_payload with_stats run_trace run_stats];
    case_send; destruct ok; cbn [run_trace run_stats]; rewrite Hd;
    simpl; repeat split; try reflexivity; lia.
Qed.

(** ** A desired setpoint that cannot be encoded *)

(** X9. When a desired setpoint is not a number ([float()] rejects it),
    both fields need an update and the device reports both known values,
    nothing is dispatched and no counter moves: the device is passed over
    without an error being counted. *)
Theorem sync_device_unencodable_pair (args : arguments) (deveui : string)
    (asset_min asset_max device_min device_max : pyval) (r : run) :
  is_None asset_min = false ->
  is_None asset_max = false ->
  py_float asset_min = None \/ py_float asset_max = None ->
  is_unknown device_min = false ->
  is_unknown device_max = false ->
  py_eq (normalize_device_temp device_min) asset_min = false ->
  py_eq (normalize_device_temp device_max) asset_max = false ->
  sync_device args deveui asset_min asset_max device_min device_max r = r.
Proof.
  intros Nmin Nmax F Umin Umax Emin Emax.
  unfold sync_device, needs_temp, is_unknown in *.
  rewrite Nmin, Nmax, Umin, Umax, Emin, Emax. cbn [negb andb orb].
  unfold combine_temperature_payloads, temperature_to_hex_payload.
  rewrite Nmin, Nmax.
  destruct F as [F|F]; rewrite F;
    [|destruct (py_float asset_min)]; reflexivity.
Qed.

(** X10. In the one-field path the sent counter is raised before the
    setpoint is encoded: when the desired minimum is not a number and the
    device reports a different known minimum, the run counts a minimum as
    sent although no frame is dispatched and no error is counted. *)
Theorem sync_device_unencodable_min (args : arguments) (deveui : string)
    (asset_min asset_max device_min device_max : pyval) (r : run) :
  is_None asset_min = false ->
  py_float asset_min = None ->
  is_unknown device_min = false ->
  py_eq (normalize_device_temp device_min) asset_min = false ->
  needs_temp asset_max (normalize_device_temp device_max) = false ->
  let r' :=
    sync_device args deveui asset_min asset_max device_min device_max r in
  run_trace r' = run_trace r
  /\ min_temp_sent (run_stats r') = min_temp_sent (run_stats r) + 1
  /\ errors (run_stats r') = errors (run_stats r).
Proof.
  intros Nmin F Umin Emin Nmax. cbv zeta.
  unfold sync_device. rewrite Nmax.
  unfold needs_temp, is_unknown in *. rewrite Nmin, Umin, Emin.
  cbn [negb andb orb].
  unfold send_min_temp, send_if_payload, temperature_to_hex_payload.
  rewrite Nmin, F. cbn [str_truthy].
  destruct r as [st tr0]. destruct st.
  destruct (is_None asset_max); simpl; repeat split; reflexivity.
Qed.

End Sync.

(** * The ThingsBoard client *)

(** ** Attribute listings *)

Lemma last_cons {A : Type} (a d : A) (l : list A) :
  last (a :: l) d = last l a.
Proof.
  revert a d. induction l as [|b l IH]; intros a d; [reflexivity|].
  change (last (a :: b :: l) d) with (last (b :: l) d).
  rewrite (IH b d), (IH b a). reflexivity.
Qed.

Lemma collect_attributes_last (k : string) (items : list json)
    (acc : list (string * json)) :
  forallb ThingsBoard.hashable_key items = true ->
  exists d,
    ThingsBoard.collect_attributes items acc = Some d
    /\ get_or k JNull d
       = match filter (ThingsBoard.sets_attribute k) items with
         | [] => get_or k JNull acc
         | first :: more => ThingsBoard.entry_value (last more first)
         end.
Proof.
  revert acc. induction items as [|attr rest IH]; intros acc H.
  - exists acc. split; reflexivity.
  - cbn [forallb] in H. apply andb_prop in H. destruct H as [Ha Hr].
    cbn [ThingsBoard.collect_attributes filter].
    destruct attr as [| | | | |?|fields];
      try (destruct (IH acc Hr) as (d & E & G); exists d; split;
           [exact E|exact G]).
    assert (S : ThingsBoard.sets_attribute k (JDict fields)
                = match dict_get "key" fields, dict_get "value" fields with
                  | Some key, Some _ => json_eq_str key k
                  | _, _ => false
                  end) by reflexivity.
    rewrite S. clear S. unfold ThingsBoard.hashable_key in Ha.
    destruct (dict_get "key" fields) as [key|] eqn:K;
      [|destruct (IH acc Hr) as (d & E & G); exists d; split;
        [exact E|exact G]].
    destruct (dict_get "value" fields) as [value|] eqn:V;
      [|destruct (IH acc Hr) as (d & E & G); exists d; split;
        [exact E|exact G]].
    destruct key as [| | | |k'|?|?]; try discriminate Ha;
      try (destruct (IH acc Hr) as (d & E & G); exists d; split;
           [exact E|exact G]).
    destruct (IH ((k', value) :: acc) Hr) as (d & E & G).
    exists d. split; [exact E|]. rewrite G.
    cbn [json_eq_str]. unfold get_or at 1. cbn [dict_get].
    destruct (String.eqb k' k) eqn:Ek.
    + destruct (filter _ rest) as [|f more] eqn:Fr.
      * cbn [last]. unfold ThingsBoard.entry_value, get_or.
        rewrite V. reflexivity.
      * rewrite last_cons. reflexivity.
    + destruct (filter _ rest); reflexivity.
Qed.

(** X11. In an attribute listing the last entry that sets a key wins, and
    a key that no entry sets is reported as [None]; this holds for the
    desired setpoints of an asset and for the known setpoints of a
    device. *)
Theorem attributes_last_entry_wins (attributes_data : list json) :
  forallb ThingsBoard.hashable_key attributes_data = true ->
  ThingsBoard.get_asset_attributes
    (ThingsBoard.Response 200 (JList attributes_data))
  = Some (ThingsBoard.mkAssetAttributes
            (ThingsBoard.last_value "minTemp" attributes_data)
            (ThingsBoard.last_value "maxTemp" attributes_data))
  /\ ThingsBoard.get_device_attributes
       (ThingsBoard.Response 200 (JList attributes_data))
     = Some (ThingsBoard.mkDeviceAttributes
               (ThingsBoard.last_value "manu_temp_min" attributes_data)
               (ThingsBoard.last_value "manu_temp_max" attributes_data)).
Proof.
  intros H.
  unfold ThingsBoard.get_asset_attributes, ThingsBoard.get_device_attributes,
    ThingsBoard.attributes_dict_of, ThingsBoard.last_value.
  cbn [Z.eqb Pos.eqb].
  destruct (collect_attributes_last "minTemp" attributes_data [] H)
    as (d & E & G1).
  destruct (collect_attributes_last "maxTemp" attributes_data [] H)
    as (d2 & E2 & G2).
  destruct (collect_attributes_last "manu_temp_min" attributes_data [] H)
    as (d3 & E3 & G3).
  destruct (collect_attributes_last "manu_temp_max" attributes_data [] H)
    as (d4 & E4 & G4).
  rewrite E in E2, E3, E4.
  injection E2 as <-. injection E3 as <-. injection E4 as <-.
  rewrite E, G1, G2, G3, G4. split; reflexivity.
Qed.

(** ** The devices of an asset *)

Lemma supported_devices_sound (requests_get : json -> ThingsBoard.response)
    (device_ids devices : list json) :
  ThingsBoard.supported_devices requests_get device_ids = Some devices ->
  Forall
    (fun device =>
       ThingsBoard.supported device = true
       /\ exists device_id,
            In device_id device_ids
            /\ requests_get device_id = ThingsBoard.Response 200 device)
    devices.
Proof.
  revert devices. induction device_ids as [|device_id rest IH];
    intros devices H; cbn [ThingsBoard.supported_devices] in H.
  - injection H as <-. constructor.
  - assert (W : forall l,
              Forall
                (fun device =>
                   ThingsBoard.supported device = true
                   /\ exists i,
                        In i rest
                        /\ requests_get i = ThingsBoard.Response 200 device)
                l ->
              Forall
                (fun device =>
                   ThingsBoard.supported device = true
                   /\ exists i,
                        In i (device_id :: rest)
                        /\ requests_get i = ThingsBoard.Response 200 device)
                l).
    { intros l. apply Forall_impl. intros a (S & i & I & R).
      split; [exact S|]. exists i. split; [right; exact I|exact R]. }
    destruct (json_truthy
                (ThingsBoard.get_device_by_id (requests_get device_id)))
      eqn:T; [|apply W, IH, H].
    destruct (ThingsBoard.get_device_by_id (requests_get device_id))
      as [| | | | |?|fields] eqn:D; try discriminate H.
    destruct (ThingsBoard.supported_devices requests_get rest)
      as [found|]; [|discriminate H].
    specialize (IH found eq_refl).
    destruct (existsb _ ThingsBoard.SUPPORTED_DEVICE_TYPES) eqn:S;
      injection H as <-; [|apply W, IH].
    constructor; [|apply W, IH].
    split; [exact S|]. exists device_id. split; [left; reflexivity|].
    unfold ThingsBoard.get_device_by_id in D.
    destruct (requests_get device_id) as [c body|]; [|discriminate D].
    destruct (Z.eqb_spec c 200) as [->|]; [|discriminate D].
    rewrite D. reflexivity.
Qed.

Lemma supported_devices_complete
    (requests_get : json -> ThingsBoard.response)
    (device_ids devices : list json) (device_id device : json) :
  ThingsBoard.supported_devices requests_get device_ids = Some devices ->
  In device_id device_ids ->
  requests_get device_id = ThingsBoard.Response 200 device ->
  ThingsBoard.supported device = true ->
  In device devices.
Proof.
  revert devices. induction device_ids as [|i rest IH];
    intros devices H I R S; [destruct I|].
  cbn [ThingsBoard.supported_devices] in H.
  destruct I as [->|I].
  - rewrite R in H. cbn [ThingsBoard.get_device_by_id Z.eqb Pos.eqb] in H.
    destruct device as [| | | | |?|fields]; try discriminate S.
    unfold ThingsBoard.supported in S.
    destruct fields as [|f fs];
      [unfold get_or in S; cbn in S; discriminate S|].
    cbn [json_truthy] in H.
    destruct (ThingsBoard.supported_devices requests_get rest);
      [|discriminate H].
    rewrite S in H. injection H as <-. left. reflexivity.
  - destruct (json_truthy
                (ThingsBoard.get_device_by_id (requests_get i)));
      [|exact (IH _ H I R S)].
    destruct (ThingsBoard.get_device_by_id (requests_get i))
      as [| | | | |?|fields]; try discriminate H.
    destruct (ThingsBoard.supported_devices requests_get rest)
      as [found|]; [|discriminate H].
    specialize (IH found eq_refl I R S).
    destruct (existsb _ ThingsBoard.SUPPORTED_DEVICE_TYPES);
      injection H as <-; [right|]; exact IH.
Qed.

(** X12. The devices of an asset are exactly the thermostats of a
    supported type: every device returned has one of the two supported
    types and is the registry's answer, with status 200, for an
    identifier that a relation of the asset names; and every such answer
    is returned. *)
Theorem get_asset_devices_supported
    (requests_get : json -> ThingsBoard.response)
    (relations devices : list json) :
  ThingsBoard.get_asset_devices requests_get
    (ThingsBoard.Response 200 (JList relations))
  = Some devices ->
  Forall
    (fun device =>
       ThingsBoard.supported device = true
       /\ exists device_id,
            In device_id (ThingsBoard.relation_device_ids relations)
            /\ requests_get device_id = ThingsBoard.Response 200 device)
    devices
  /\ (forall device_id device,
        In device_id (ThingsBoard.relation_device_ids relations) ->
        requests_get device_id = ThingsBoard.Response 200 device ->
        ThingsBoard.supported device = true ->
        In device devices).
Proof.
  unfold ThingsBoard.get_asset_devices. cbn [Z.eqb Pos.eqb]. intros H.
  split; [exact (supported_devices_sound _ _ _ H)|].
  intros device_id device. exact (supported_devices_complete _ _ _ _ _ H).
Qed.

(** ** The asset listing *)

Lemma last_page (n page : Z) :
  Qle_bool (inject_Z n - 1) (inject_Z page) = (n - 1 <=? page).
Proof.
  unfold Qle_bool, Qminus, Qplus, Qopp, inject_Z. cbn [Qnum Qden].
  f_equal; lia.
Qed.

Lemma pages_snoc (chunk : Z -> list json) (first : Z) (k : nat) :
  ThingsBoard.pages chunk first (S k)
  = (ThingsBoard.pages chunk first k ++ chunk (first + Z.of_nat k))%list.
Proof.
  revert first. induction k as [|k IH]; intros first.
  - cbn [ThingsBoard.pages app]. rewrite app_nil_r. f_equal. lia.
  - change (ThingsBoard.pages chunk first (S (S k)))
      with (chunk first ++ ThingsBoard.pages chunk (first + 1) (S k))%list.
    rewrite IH.
    change (ThingsBoard.pages chunk first (S k))
      with (chunk first ++ ThingsBoard.pages chunk (first + 1) k)%list.
    rewrite <- app_assoc. do 3 f_equal. lia.
Qed.

Lemma get_customer_assets_pages
    (requests_get : Z -> ThingsBoard.response) (chunk : Z -> list json)
    (n : Z) (k : nat) :
  forall (first : Z) (all_assets : list json) (fuel : nat),
  (forall p,
     first <= p < first + Z.of_nat k ->
     requests_get p = ThingsBoard.Response 200 (ThingsBoard.page_of (chunk p) n)) ->
  first + Z.of_nat k < n ->
  ThingsBoard.get_customer_assets_from (k + fuel) requests_get first
    all_assets
  = ThingsBoard.get_customer_assets_from fuel requests_get
      (first + Z.of_nat k)
      (all_assets ++ ThingsBoard.pages chunk first k)%list.
Proof.
  induction k as [|k IH]; intros first all_assets fuel H L.
  - cbn [ThingsBoard.pages Nat.add]. rewrite app_nil_r. f_equal. lia.
  - cbn [Nat.add ThingsBoard.get_customer_assets_from].
    rewrite (H first) by lia.
    cbn [Z.eqb Pos.eqb ThingsBoard.page_of]. unfold get_or.
    cbn [dict_get String.eqb Ascii.eqb Bool.eqb py_iter json_number].
    rewrite last_page.
    destruct (Z.leb_spec (n - 1) first) as [G|_]; [lia|].
    rewrite IH by (try (intros p Hp; apply H); lia).
    cbn [ThingsBoard.pages]. rewrite app_assoc. f_equal. lia.
Qed.

(** X13. When the registry answers every page with status 200 and reports
    [n] pages, the listing asks for the pages 0 to [n - 1] and returns
    their assets in order. *)
Theorem get_customer_assets_complete
    (requests_get : Z -> ThingsBoard.response) (chunk : Z -> list json)
    (n fuel : nat) :
  (1 <= n)%nat ->
  (n <= fuel)%nat ->
  (forall p,
     0 <= p < Z.of_nat n ->
     requests_get p
     = ThingsBoard.Response 200
         (ThingsBoard.page_of (chunk p) (Z.of_nat n))) ->
  ThingsBoard.get_customer_assets fuel requests_get
  = ThingsBoard.Returned (ThingsBoard.pages chunk 0 n).
Proof.
  intros Hn Hf H. unfold ThingsBoard.get_customer_assets.
  destruct n as [|k]; [lia|].
  replace fuel with (k + S (fuel - S k))%nat by lia.
  rewrite (get_customer_assets_pages requests_get chunk (Z.of_nat (S k)) k)
    by (try (intros p Hp; apply H); lia).
  cbn [ThingsBoard.get_customer_assets_from].
  rewrite (H (0 + Z.of_nat k)) by lia.
  cbn [Z.eqb Pos.eqb ThingsBoard.page_of]. unfold get_or.
  cbn [dict_get String.eqb Ascii.eqb Bool.eqb py_iter json_number].
  rewrite last_page.
  destruct (Z.leb_spec (Z.of_nat (S k) - 1) (0 + Z.of_nat k)) as [_|G];
    [|lia].
  rewrite pages_snoc. reflexivity.
Qed.

(** X14. When page [k] of the listing fails, the two kinds of failure
    differ: after an answer with a status other than 200 the assets of
    the pages before it are returned as if the listing were complete,
    after a transport error the listing is empty. *)
Theorem get_customer_assets_interrupted
    (requests_get : Z -> ThingsBoard.response) (chunk : Z -> list json)
    (n : Z) (k fuel : nat) :
  Z.of_nat k < n ->
  (k < fuel)%nat ->
  (forall p,
     0 <= p < Z.of_nat k ->
     requests_get p
     = ThingsBoard.Response 200 (ThingsBoard.page_of (chunk p) n)) ->
  (forall status_code body,
     requests_get (Z.of_nat k) = ThingsBoard.Response status_code body ->
     status_code <> 200 ->
     ThingsBoard.get_customer_assets fuel requests_get
     = ThingsBoard.Returned (ThingsBoard.pages chunk 0 k))
  /\ (requests_get (Z.of_nat k) = ThingsBoard.RequestException ->
      ThingsBoard.get_customer_assets fuel requests_get
      = ThingsBoard.Returned []).
Proof.
  intros Hk Hf H. unfold ThingsBoard.get_customer_assets.
  replace fuel with (k + S (fuel - S k))%nat by lia.
  rewrite (get_customer_assets_pages requests_get chunk n k)
    by (try (intros p Hp; apply H); lia).
  cbn [ThingsBoard.get_customer_assets_from app]. rewrite Z.add_0_l.
  split.
  - intros status_code body E Hs. rewrite E.
    destruct (Z.eqb_spec status_code 200); [contradiction|reflexivity].
  - intros E. rewrite E. reflexivity.
Qed.

(** * The Melita.io client *)

Section MelitaClient.

Variable py_int_of_str : string -> option Z.
Variable bytes_fromhex : string -> option (list Z).
Variable b64encode : list Z -> string.
Variable MELITA_API_KEY : option string.
Variable server :
  list (Melita.request * Melita.response) -> Melita.request
  -> Melita.response.

(** ** The temperature payload *)

Lemma all_bytes_lower :
  forallb
    (fun n =>
       match Melita.format_02x n with
       | String a (String b EmptyString) =>
           16 * Melita.hex_value a + Melita.hex_value b =? n
       | _ => false
       end)
    (map Z.of_nat (seq 0 256))
  = true.
Proof. vm_compute. reflexivity. Qed.

Lemma format_02x_byte (n : Z) :
  0 <= n <= 255 ->
  exists a b,
    Melita.format_02x n = String a (String b EmptyString)
    /\ 16 * Melita.hex_value a + Melita.hex_value b = n.
Proof.
  intros Hn.
  assert (Hin : In n (map Z.of_nat (seq 0 256))).
  { apply in_map_iff. exists (Z.to_nat n). split; [lia|].
    apply in_seq. lia. }
  pose proof (proj1 (forallb_forall _ _) all_bytes_lower n Hin) as H.
  cbv beta in H.
  destruct (Melita.format_02x n) as [|a [|b [|? ?]]]; try discriminate H.
  exists a, b. split; [reflexivity|]. apply Z.eqb_eq. exact H.
Qed.

(** X15. The vicki payload is made exactly when both setpoints, as
    integers, fit one byte; it then has seven bytes, [08 min max 0d mode
    15 18], that spell the two setpoints back, the mode byte being 2 for
    the operational modes 2 and 10 and 0 otherwise. A setpoint outside
    0..255 gives no payload. *)
Theorem create_temperature_hex_payload_bytes
    (min_temp max_temp operational_mode : pyval) (a b : Z) :
  Melita.py_int py_int_of_str min_temp = Some a ->
  Melita.py_int py_int_of_str max_temp = Some b ->
  let payload :=
    Melita.create_temperature_hex_payload py_int_of_str min_temp max_temp
      operational_mode in
  (0 <= a <= 255 /\ 0 <= b <= 255 ->
   exists p,
     payload = Some p
     /\ String.length p = 14%nat
     /\ Melita.hex_bytes p
        = [8; a; b; 13;
           if py_eq operational_mode (PyInt 2)
              || py_eq operational_mode (PyInt 10)
           then 2 else 0;
           21; 24])
  /\ (~ (0 <= a <= 255 /\ 0 <= b <= 255) -> payload = None).
Proof.
  intros Ha Hb. cbv zeta. unfold Melita.create_temperature_hex_payload.
  rewrite Ha, Hb. split.
  - intros [Ra Rb].
    destruct (Z.ltb_spec a 0); [lia|].
    destruct (Z.ltb_spec 255 a); [lia|].
    destruct (Z.ltb_spec b 0); [lia|].
    destruct (Z.ltb_spec 255 b); [lia|].
    cbn [orb].
    destruct (format_02x_byte a Ra) as (a1 & a2 & Ea & Va).
    destruct (format_02x_byte b Rb) as (b1 & b2 & Eb & Vb).
    rewrite Ea, Eb. eexists. split; [reflexivity|].
    destruct (py_eq operational_mode (PyInt 2)
              || py_eq operational_mode (PyInt 10));
      (split; [reflexivity|]);
      cbv [String.append]; cbn [Melita.hex_bytes];
      rewrite Va, Vb; reflexivity.
  - intros N.
    destruct (Z.ltb_spec a 0); [reflexivity|].
    destruct (Z.ltb_spec 255 a); [reflexivity|].
    destruct (Z.ltb_spec b 0); [reflexivity|].
    destruct (Z.ltb_spec 255 b); [reflexivity|].
    exfalso. apply N. lia.
Qed.

(** ** The device queue *)

Lemma last_is_snoc (p : Melita.request * Melita.response -> bool)
    (l : list (Melita.request * Melita.response))
    (x : Melita.request * Melita.response) :
  Melita.last_is p (l ++ [x]) = p x.
Proof.
  unfold Melita.last_is. destruct l as [|a l]; [reflexivity|].
  cbn [app]. rewrite <- (last_cons a a (l ++ [x])).
  change (a :: l ++ [x])%list with ((a :: l) ++ [x])%list.
  rewrite last_last. reflexivity.
Qed.

Lemma last_Forall {A : Type} (P : A -> Prop) (l : list A) (a : A) :
  P a -> Forall P l -> P (last l a).
Proof.
  revert a. induction l as [|b l IH]; intros a Ha H; [exact Ha|].
  rewrite last_cons. inversion H; subst. apply IH; assumption.
Qed.

Lemma last_is_false (p : Melita.request * Melita.response -> bool)
    (l : list (Melita.request * Melita.response)) :
  Forall (fun e => p e = false) l -> Melita.last_is p l = false.
Proof.
  intros H. unfold Melita.last_is. destruct l as [|a l]; [reflexivity|].
  inversion H; subst.
  apply (last_Forall (fun e => p e = false)); assumption.
Qed.

(** What asking for a token adds to the requests. *)
Lemma generate_facts (st : Melita.state) :
  let r := Melita.generate_melita_bearer_token MELITA_API_KEY server st in
  exists new,
    Melita.requests_made (snd r) = (Melita.requests_made st ++ new)%list
    /\ Forall (fun e => Melita.request_device (fst e) = None) new
    /\ (str_truthy (fst r) = true ->
        Melita.melita_bearer_token (snd r) = fst r).
Proof.
  cbv zeta. unfold Melita.generate_melita_bearer_token, Melita.requests_call.
  destruct st as [tok tr]. cbn [Melita.requests_made].
  destruct (str_truthy MELITA_API_KEY); cbn [negb];
    [|exists []; rewrite app_nil_r; repeat split; [constructor|discriminate]].
  destruct MELITA_API_KEY as [key|];
    [|exists []; rewrite app_nil_r; repeat split; [constructor|discriminate]].
  destruct (server tr (Melita.AuthGenerate key)) as [c content|] eqn:R;
    [destruct (c =? 200); [destruct content as [|[authToken|]]|]|];
    cbn [fst snd Melita.requests_made Melita.melita_bearer_token];
    (eexists; split; [reflexivity|]; split;
     [repeat constructor|first [discriminate|reflexivity]]).
Qed.

Lemma auth_only (p : Melita.request * Melita.response -> bool)
    (new : list (Melita.request * Melita.response)) :
  (forall e, Melita.request_device (fst e) = None -> p e = false) ->
  Forall (fun e => Melita.request_device (fst e) = None) new ->
  Forall (fun e => p e = false) new.
Proof. intros Hp. apply Forall_impl. exact Hp. Qed.

Lemma auth_is_no_delete (e : Melita.request * Melita.response) :
  Melita.request_device (fst e) = None -> Melita.is_delete e = false.
Proof.
  destruct e as [[] []]; cbn; intros H; first [reflexivity|discriminate H].
Qed.

Lemma auth_is_no_post (e : Melita.request * Melita.response) :
  Melita.request_device (fst e) = None -> Melita.is_post e = false.
Proof.
  destruct e as [[] []]; cbn; intros H; first [reflexivity|discriminate H].
Qed.

Lemma auth_is_no_flush (d : string) (e : Melita.request * Melita.response) :
  Melita.request_device (fst e) = None -> Melita.flushed d e = false.
Proof.
  destruct e as [[] []]; cbn; intros H; first [reflexivity|discriminate H].
Qed.

Lemma auth_is_not_accepted (e : Melita.request * Melita.response) :
  Melita.request_device (fst e) = None -> Melita.accepted e = false.
Proof.
  destruct e as [[] []]; cbn; intros H; first [reflexivity|discriminate H].
Qed.

Lemma filter_none {A : Type} (p : A -> bool) (l : list A) :
  Forall (fun e => p e = false) l -> filter p l = [].
Proof.
  induction 1 as [|a l Ha _ IH]; [reflexivity|].
  cbn [filter]. rewrite Ha. exact IH.
Qed.

(** What clearing the queue adds to the requests. *)
Lemma flush_facts (device_eui : string) (st : Melita.state) :
  let r :=
    Melita.flush_melita_device_queue MELITA_API_KEY server device_eui st in
  exists new,
    Melita.requests_made (snd r) = (Melita.requests_made st ++ new)%list
    /\ Forall
         (fun e => Melita.is_post e = false /\ Melita.concerns device_eui e)
         new
    /\ (List.length (filter Melita.is_delete new) <= 2)%nat
    /\ (str_truthy (Melita.melita_bearer_token st) = false -> new = [])
    /\ fst r = Melita.last_is (Melita.flushed device_eui) new.
Proof.
  cbv zeta.
  unfold Melita.flush_melita_device_queue, Melita.get_melita_headers,
    Melita.requests_call.
  destruct st as [tok tr].
  cbn [Melita.melita_bearer_token Melita.requests_made].
  destruct (str_truthy tok) eqn:T; cbn [negb].
  2:{ exists []. rewrite app_nil_r. repeat split; auto. }
  set (d1 := (Melita.QueueDelete device_eui tok,
              server tr (Melita.QueueDelete device_eui tok))).
  assert (D1 : Melita.is_post d1 = false /\ Melita.concerns device_eui d1)
    by (split; [reflexivity|right; reflexivity]).
  destruct (server tr (Melita.QueueDelete device_eui tok))
    as [c content|] eqn:R1.
  2:{ exists [d1]. cbn [fst snd Melita.requests_made].
      split; [reflexivity|]. split; [repeat constructor; apply D1|].
      split; [simpl; lia|]. split; [discriminate|]. reflexivity. }
  destruct (Z.eqb_spec c 200) as [->|N200].
  { exists [d1]. cbn [fst snd Melita.requests_made].
    split; [reflexivity|]. split; [repeat constructor; apply D1|].
    split; [simpl; lia|]. split; [discriminate|].
    unfold Melita.last_is, d1. cbn [last Melita.flushed].
    rewrite String.eqb_refl. reflexivity. }
  destruct (Z.eqb_spec c 204) as [->|N204].
  { exists [d1]. cbn [fst snd Melita.requests_made].
    split; [reflexivity|]. split; [repeat constructor; apply D1|].
    split; [simpl; lia|]. split; [discriminate|].
    unfold Melita.last_is, d1. cbn [last Melita.flushed].
    rewrite String.eqb_refl. reflexivity. }
  assert (F1 : Melita.flushed device_eui d1 = false).
  { unfold d1. cbn [Melita.flushed].
    destruct (Z.eqb_spec c 200); [contradiction|].
    destruct (Z.eqb_spec c 204); [contradiction|].
    apply andb_false_r. }
  destruct (Z.eqb_spec c 403) as [->|N403].
  2:{ exists [d1]. cbn [fst snd Melita.requests_made].
      split; [reflexivity|]. split; [repeat constructor; apply D1|].
      split; [simpl; lia|]. split; [discriminate|].
      unfold Melita.last_is. cbn [last]. rewrite F1. reflexivity. }
  match goal with
  | |- context [Melita.generate_melita_bearer_token _ _ ?s] =>
      destruct (generate_facts s) as (newg & Eg & Fg & Tg);
      destruct (Melita.generate_melita_bearer_token MELITA_API_KEY server s)
        as [token [tok1 tr1]]
  end.
  cbn [fst snd Melita.requests_made Melita.melita_bearer_token] in Eg, Tg.
  subst tr1.
  destruct (str_truthy token) eqn:Tt.
  2:{ exists (d1 :: newg). cbn [fst snd Melita.requests_made].
      split; [rewrite <- app_assoc; reflexivity|].
      split.
      { constructor; [exact D1|]. eapply Forall_impl; [|exact Fg].
        intros e He. split; [apply auth_is_no_post; exact He|left; exact He]. }
      split.
      { cbn [filter]. change (Melita.is_delete d1) with true.
        rewrite (filter_none Melita.is_delete newg)
          by (apply (auth_only _ _ auth_is_no_delete), Fg).
        simpl. lia. }
      split; [discriminate|].
      symmetry. apply last_is_false. constructor; [exact F1|].
      apply (auth_only _ _ (auth_is_no_flush device_eui)), Fg. }
  rewrite (Tg eq_refl).
  cbn [Melita.melita_bearer_token Melita.requests_made].
  rewrite Tt. cbn [negb].
  set (d2 := (Melita.QueueDelete device_eui token,
              server ((tr ++ [d1]) ++ newg)
                (Melita.QueueDelete device_eui token))).
  exists (d1 :: newg ++ [d2])%list.
  assert (E2 : fst (let '(response, st0) :=
                      (snd d2,
                       {| Melita.melita_bearer_token := token;
                          Melita.requests_made :=
                            ((tr ++ [d1]) ++ newg) ++ [d2] |}) in
                    match response with
                    | Melita.Response status_code _ =>
                        ((status_code =? 200) || (status_code =? 204), st0)
                    | Melita.RequestException => (false, st0)
                    end)
               = Melita.flushed device_eui d2).
  { unfold d2. cbn [snd fst Melita.flushed].
    destruct (server _ (Melita.QueueDelete device_eui token));
      cbn [fst]; rewrite ?String.eqb_refl; reflexivity. }
  split.
  { unfold d2. cbn [snd].
    destruct (server _ (Melita.QueueDelete device_eui token));
      cbn [snd Melita.requests_made]; rewrite <- !app_assoc; reflexivity. }
  split.
  { constructor; [exact D1|]. apply Forall_app. split.
    - eapply Forall_impl; [|exact Fg].
      intros e He. split; [apply auth_is_no_post; exact He|left; exact He].
    - constructor; [split; [reflexivity|right; reflexivity]|constructor]. }
  split.
  { cbn [filter]. change (Melita.is_delete d1) with true.
    rewrite filter_app.
    rewrite (filter_none Melita.is_delete newg)
      by (apply (auth_only _ _ auth_is_no_delete), Fg).
    simpl. lia. }
  split; [discriminate|].
  change (d1 :: newg ++ [d2])%list with ((d1 :: newg) ++ [d2])%list.
  rewrite last_is_snoc. exact E2.
Qed.

Lemma split_after {A : Type} (p : A -> bool) (l1 l2 pre post : list A)
    (e : A) :
  Forall (fun x => p x = false) l1 ->
  (l1 ++ l2 = pre ++ e :: post)%list ->
  p e = true ->
  exists pre', pre = (l1 ++ pre')%list /\ l2 = (pre' ++ e :: post)%list.
Proof.
  revert pre. induction l1 as [|a l1 IH]; intros pre F E He.
  - exists pre. split; [reflexivity|exact E].
  - inversion F as [|? ? Fa F1]; subst.
    destruct pre as [|x pre]; cbn [app] in E.
    + injection E as -> _. congruence.
    + injection E as -> E. destruct (IH pre F1 E He) as (pre' & -> & ->).
      exists pre'. split; reflexivity.
Qed.

Lemma last_is_exists (p : Melita.request * Melita.response -> bool)
    (l : list (Melita.request * Melita.response)) :
  Melita.last_is p l = true -> existsb p l = true.
Proof.
  unfold Melita.last_is. destruct l as [|a l]; [discriminate|].
  intros H. apply existsb_exists. exists (last l a). split; [|exact H].
  rewrite <- (last_cons a a l).
  destruct (exists_last (l := a :: l) ltac:(discriminate)) as (l' & x & E).
  rewrite E, last_last. apply in_or_app. right. left. reflexivity.
Qed.

Lemma last_is_app (p : Melita.request * Melita.response -> bool)
    (l1 l2 : list (Melita.request * Melita.response)) :
  l2 <> [] -> Melita.last_is p (l1 ++ l2) = Melita.last_is p l2.
Proof.
  intros N. destruct (exists_last N) as (l' & x & ->).
  rewrite app_assoc, !last_is_snoc. reflexivity.
Qed.

Lemma accepted_is_post (e : Melita.request * Melita.response) :
  Melita.is_post e = false -> Melita.accepted e = false.
Proof.
  destruct e as [[] []]; cbn; intros H; first [reflexivity|discriminate H].
Qed.

(** What sending a message adds to the requests. *)
Lemma send_facts (device_eui data : string) (fport : Z) (confirmed : bool)
    (st : Melita.state) :
  let r :=
    Melita.send_melita_queue_message MELITA_API_KEY server device_eui data
      fport confirmed st in
  exists new,
    Melita.requests_made (snd r) = (Melita.requests_made st ++ new)%list
    /\ Forall (Melita.concerns device_eui) new
    /\ (forall pre e post,
          new = (pre ++ e :: post)%list ->
          Melita.is_post e = true ->
          (exists headers,
             fst e
             = Melita.QueuePost device_eui headers
                 (Melita.mkQueueData confirmed data device_eui fport))
          /\ existsb (Melita.flushed device_eui) pre = true)
    /\ (List.length (filter Melita.is_post new) <= 2)%nat
    /\ fst r = Melita.last_is Melita.accepted new
    /\ List.length (filter Melita.accepted new)
       = (if fst r then 1 else 0)%nat
    /\ (str_truthy (Melita.melita_bearer_token st) = false -> new = []).
Proof.
  cbv zeta.
  unfold Melita.send_melita_queue_message, Melita.get_melita_headers,
    Melita.requests_call.
  destruct (str_truthy (Melita.melita_bearer_token st)) eqn:T; cbn [negb].
  2:{ exists []. rewrite app_nil_r. cbn [fst snd filter List.length].
      split; [reflexivity|]. split; [constructor|]. split.
      { intros pre e post E. destruct pre; discriminate E. }
      repeat split; auto. }
  destruct (flush_facts device_eui st) as (newf & Ef & Ff & _ & _ & Lf).
  destruct (Melita.flush_melita_device_queue MELITA_API_KEY server
              device_eui st) as [ok [tokf trf]].
  cbn [fst snd Melita.requests_made] in Ef, Lf. subst trf.
  assert (Pf : Forall (fun e => Melita.is_post e = false) newf)
    by (eapply Forall_impl; [|exact Ff]; intros e [H _]; exact H).
  assert (Cf : Forall (Melita.concerns device_eui) newf)
    by (eapply Forall_impl; [|exact Ff]; intros e [_ H]; exact H).
  assert (Af : Forall (fun e => Melita.accepted e = false) newf)
    by (eapply Forall_impl; [|exact Pf]; exact accepted_is_post).
  destruct ok; cbn [negb].
  2:{ exists newf. cbn [fst snd Melita.requests_made].
      split; [reflexivity|]. split; [exact Cf|]. split.
      { intros pre e post E He. exfalso.
        pose proof (proj1 (Forall_forall _ _) Pf e) as H.
        rewrite H in He; [discriminate He|].
        rewrite E. apply in_elt. }
      rewrite (filter_none _ _ Pf), (filter_none _ _ Af).
      split; [simpl; lia|]. split; [symmetry; apply last_is_false, Af|].
      split; [reflexivity|discriminate]. }
  symmetry in Lf. apply last_is_exists in Lf.
  cbn [Melita.melita_bearer_token Melita.requests_made].
  set (qd := Melita.mkQueueData confirmed data device_eui fport).
  set (Q := fun e : Melita.request * Melita.response =>
              Melita.is_post e = true ->
              exists headers,
                fst e = Melita.QueuePost device_eui headers qd).
  (* What is left to show once the requests after the flush are known. *)
  assert (K : forall rest (sent : bool) (st' : Melita.state),
            Melita.requests_made st'
            = ((Melita.requests_made st ++ newf) ++ rest)%list ->
            rest <> [] ->
            Forall (Melita.concerns device_eui) rest ->
            Forall Q rest ->
            (List.length (filter Melita.is_post rest) <= 2)%nat ->
            sent = Melita.last_is Melita.accepted rest ->
            List.length (filter Melita.accepted rest)
            = (if sent then 1 else 0)%nat ->
            exists new,
              Melita.requests_made (snd (sent, st'))
              = (Melita.requests_made st ++ new)%list
              /\ Forall (Melita.concerns device_eui) new
              /\ (forall pre e post,
                    new = (pre ++ e :: post)%list ->
                    Melita.is_post e = true ->
                    (exists headers,
                       fst e = Melita.QueuePost device_eui headers qd)
                    /\ existsb (Melita.flushed device_eui) pre = true)
              /\ (List.length (filter Melita.is_post new) <= 2)%nat
              /\ fst (sent, st') = Melita.last_is Melita.accepted new
              /\ List.length (filter Melita.accepted new)
                 = (if fst (sent, st') then 1 else 0)%nat
              /\ (true = false -> new = [])).
  { intros rest sent st' E N C HQ P L A. exists (newf ++ rest)%list.
    cbn [fst snd]. split; [rewrite E, app_assoc; reflexivity|].
    split; [apply Forall_app; split; assumption|]. split.
    { intros pre e post Ed He.
      destruct (split_after Melita.is_post newf rest pre post e Pf Ed He)
        as (pre' & -> & ->).
      split.
      - apply (proj1 (Forall_forall _ _) HQ e); [apply in_elt|exact He].
      - rewrite existsb_app, Lf. reflexivity. }
    rewrite !filter_app, (filter_none _ _ Pf), (filter_none _ _ Af).
    cbn [app]. split; [exact P|]. split; [|split; [exact A|discriminate]].
    rewrite last_is_app by exact N. exact L. }
  set (h1 := if negb (str_truthy tokf) then None else tokf).
  set (rq1 := Melita.QueuePost device_eui h1 qd).
  assert (Q1 : forall rs, Q (rq1, rs)) by (intros rs _; exists h1; reflexivity).
  assert (C1 : forall rs, Melita.concerns device_eui (rq1, rs))
    by (intros rs; right; reflexivity).
  set (rs1 := server (Melita.requests_made st ++ newf) rq1).
  clearbody rs1. destruct rs1 as [c content|].
  2:{ apply (K [(rq1, Melita.RequestException)]);
        [reflexivity|discriminate|repeat constructor; apply C1
        |repeat constructor; apply Q1|simpl; lia|reflexivity|reflexivity]. }
  destruct (Z.eqb_spec c 200) as [->|N200].
  { apply (K [(rq1, Melita.Response 200 content)]);
      [reflexivity|discriminate|repeat constructor; apply C1
      |repeat constructor; apply Q1|simpl; lia|reflexivity|reflexivity]. }
  assert (A1 : Melita.accepted (rq1, Melita.Response c content) = false)
    by (cbn; apply Z.eqb_neq; exact N200).
  destruct (Z.eqb_spec c 403) as [->|N403].
  2:{ apply (K [(rq1, Melita.Response c content)]);
        [reflexivity|discriminate|repeat constructor; apply C1
        |repeat constructor; apply Q1|simpl; lia
        |unfold Melita.last_is; cbn [last]; rewrite A1; reflexivity
        |cbn [filter]; rewrite A1; reflexivity]. }
  set (p1 := (rq1, Melita.Response 403 content)) in *.
  match goal with
  | |- context [Melita.generate_melita_bearer_token _ _ ?s] =>
      destruct (generate_facts s) as (newg & Eg & Fg & Tg);
      destruct (Melita.generate_melita_bearer_token MELITA_API_KEY server s)
        as [token [tok1 tr1]]
  end.
  cbn [fst snd Melita.requests_made Melita.melita_bearer_token] in Eg, Tg.
  subst tr1.
  assert (Pg : Forall (fun e => Melita.is_post e = false) newg)
    by (apply (auth_only _ _ auth_is_no_post), Fg).
  assert (Ag : Forall (fun e => Melita.accepted e = false) newg)
    by (apply (auth_only _ _ auth_is_not_accepted), Fg).
  assert (Cg : Forall (Melita.concerns device_eui) newg)
    by (eapply Forall_impl; [|exact Fg]; intros e He; left; exact He).
  assert (Qg : Forall Q newg).
  { eapply Forall_impl; [|exact Pg]. intros e He Hp. congruence. }
  destruct (str_truthy token) eqn:Tt.
  2:{ apply (K (p1 :: newg)).
      - cbn [Melita.requests_made]. rewrite <- !app_assoc. reflexivity.
      - discriminate.
      - constructor; [apply C1|exact Cg].
      - constructor; [apply Q1|exact Qg].
      - cbn [filter]. change (Melita.is_post p1) with true.
        rewrite (filter_none _ _ Pg). simpl. lia.
      - symmetry. apply last_is_false. constructor; [exact A1|exact Ag].
      - cbn [filter]. fold p1 in A1. rewrite A1, (filter_none _ _ Ag).
        reflexivity. }
  cbn [Melita.melita_bearer_token Melita.requests_made].
  set (h2 := if negb (str_truthy tok1) then None else tok1).
  set (rq2 := Melita.QueuePost device_eui h2 qd).
  set (rs2 := server _ rq2). clearbody rs2.
  assert (Q2 : Q (rq2, rs2)) by (intros _; exists h2; reflexivity).
  assert (C2 : Melita.concerns device_eui (rq2, rs2))
    by (right; reflexivity).
  assert (S2 : forall sent st',
            sent = Melita.accepted (rq2, rs2) ->
            Melita.requests_made st'
            = ((((Melita.requests_made st ++ newf) ++ [p1]) ++ newg)
               ++ [(rq2, rs2)])%list ->
            exists new,
              Melita.requests_made (snd (sent, st'))
              = (Melita.requests_made st ++ new)%list
              /\ Forall (Melita.concerns device_eui) new
              /\ (forall pre e post,
                    new = (pre ++ e :: post)%list ->
                    Melita.is_post e = true ->
                    (exists headers,
                       fst e = Melita.QueuePost device_eui headers qd)
                    /\ existsb (Melita.flushed device_eui) pre = true)
              /\ (List.length (filter Melita.is_post new) <= 2)%nat
              /\ fst (sent, st') = Melita.last_is Melita.accepted new
              /\ List.length (filter Melita.accepted new)
                 = (if fst (sent, st') then 1 else 0)%nat
              /\ (true = false -> new = [])).
  { intros sent st' Hs Hst. apply (K (p1 :: newg ++ [(rq2, rs2)])%list).
    - rewrite Hst. rewrite <- !app_assoc. reflexivity.
    - discriminate.
    - constructor; [apply C1|]. apply Forall_app. split; [exact Cg|].
      constructor; [exact C2|constructor].
    - constructor; [apply Q1|]. apply Forall_app. split; [exact Qg|].
      constructor; [exact Q2|constructor].
    - cbn [filter]. change (Melita.is_post p1) with true.
      rewrite filter_app, (filter_none _ _ Pg). simpl. lia.
    - change (p1 :: newg ++ [(rq2, rs2)])%list
        with ((p1 :: newg) ++ [(rq2, rs2)])%list.
      rewrite last_is_snoc. exact Hs.
    - cbn [filter]. fold p1 in A1. rewrite A1, filter_app.
      rewrite (filter_none _ _ Ag). cbn [app filter]. rewrite <- Hs.
      destruct sent; reflexivity. }
  destruct rs2 as [c2 content2|]; apply S2; reflexivity.
Qed.

(** X16. Clearing the queue of a device asks the server at most twice
    and never about another device: without a token nothing is sent, no
    message is posted, and the result is true exactly when the last
    request made is a deletion of the device's queue that was answered
    200 or 204. *)
Theorem flush_melita_device_queue_requests (device_eui : string)
    (st : Melita.state) :
  let r :=
    Melita.flush_melita_device_queue MELITA_API_KEY server device_eui st in
  exists new,
    Melita.requests_made (snd r) = (Melita.requests_made st ++ new)%list
    /\ Forall (Melita.concerns device_eui) new
    /\ filter Melita.is_post new = []
    /\ (List.length (filter Melita.is_delete new) <= 2)%nat
    /\ (str_truthy (Melita.melita_bearer_token st) = false -> new = [])
    /\ fst r = Melita.last_is (Melita.flushed device_eui) new.
Proof.
  cbv zeta.
  destruct (flush_facts device_eui st) as (new & E & F & D & T & L).
  exists new. split; [exact E|]. split.
  { eapply Forall_impl; [|exact F]. intros e [_ H]. exact H. }
  split.
  { apply filter_none. eapply Forall_impl; [|exact F].
    intros e [H _]. exact H. }
  split; [exact D|]. split; [exact T|exact L].
Qed.

(** X17. A message is put on the queue of a device only after that queue
    was cleared: every message posted is the one asked for, for that
    device, and is preceded by a deletion of the device's queue that was
    answered 200 or 204. At most two messages are posted, and the result
    is true exactly when the last request made is a message that was
    answered 200, which is then the only one accepted. *)
Theorem send_melita_queue_message_after_flush (device_eui data : string)
    (fport : Z) (confirmed : bool) (st : Melita.state) :
  let r :=
    Melita.send_melita_queue_message MELITA_API_KEY server device_eui data
      fport confirmed st in
  exists new,
    Melita.requests_made (snd r) = (Melita.requests_made st ++ new)%list
    /\ Forall (Melita.concerns device_eui) new
    /\ (forall pre e post,
          new = (pre ++ e :: post)%list ->
          Melita.is_post e = true ->
          (exists headers,
             fst e
             = Melita.QueuePost device_eui headers
                 (Melita.mkQueueData confirmed data device_eui fport))
          /\ existsb (Melita.flushed device_eui) pre = true)
    /\ (List.length (filter Melita.is_post new) <= 2)%nat
    /\ fst r = Melita.last_is Melita.accepted new
    /\ List.length (filter Melita.accepted new)
       = (if fst r then 1 else 0)%nat.
Proof.
  cbv zeta.
  destruct (send_facts device_eui data fport confirmed st)
    as (new & E & C & P & N & L & A & _).
  exists new. repeat (split; [assumption|]). exact A.
Qed.

(** ** The thermostats *)

Lemma existsb_filter {A : Type} (p : A -> bool) (l : list A) :
  existsb p l = (0 <? Z.of_nat (List.length (filter p l))).
Proof.
  induction l as [|a l IH]; [reflexivity|].
  cbn [existsb filter]. destruct (p a); cbn [orb List.length]; [|exact IH].
  symmetry. apply Z.ltb_lt. lia.
Qed.

(** What sending the setpoints to one thermostat adds to the requests. *)
Lemma vicki_facts (device_eui : string)
    (min_temp max_temp operational_mode : pyval) (fport : Z)
    (st : Melita.state) :
  let r :=
    Melita.send_temperature_to_vicki_device py_int_of_str bytes_fromhex
      b64encode MELITA_API_KEY server device_eui min_temp max_temp
      operational_mode fport st in
  exists new,
    Melita.requests_made (snd r) = (Melita.requests_made st ++ new)%list
    /\ Forall (Melita.concerns device_eui) new
    /\ List.length (filter Melita.accepted new)
       = (if fst r then 1 else 0)%nat
    /\ (Melita.create_temperature_hex_payload py_int_of_str min_temp
          max_temp operational_mode = None ->
        new = []).
Proof.
  cbv zeta. unfold Melita.send_temperature_to_vicki_device.
  assert (Z : exists new,
            Melita.requests_made (snd (false, st))
            = (Melita.requests_made st ++ new)%list
            /\ Forall (Melita.concerns device_eui) new
            /\ List.length (filter Melita.accepted new)
               = (if fst (false, st) then 1 else 0)%nat
            /\ new = [])
    by (exists []; rewrite app_nil_r; repeat split; constructor).
  assert (Z' : forall P : Prop,
            exists new,
              Melita.requests_made (snd (false, st))
              = (Melita.requests_made st ++ new)%list
              /\ Forall (Melita.concerns device_eui) new
              /\ List.length (filter Melita.accepted new)
                 = (if fst (false, st) then 1 else 0)%nat
              /\ (P -> new = [])).
  { intros P. destruct Z as (new & A & B & C & D). exists new. auto. }
  destruct (Melita.create_temperature_hex_payload py_int_of_str min_temp
              max_temp operational_mode) as [hex_payload|];
    cbn [str_truthy negb]; [|apply Z'].
  destruct (negb (hex_payload =? "")%string); cbn [negb]; [|apply Z'].
  destruct (Melita.hex_to_base64 bytes_fromhex b64encode hex_payload)
    as [base64_payload|]; cbn [str_truthy negb]; [|apply Z'].
  destruct (negb (base64_payload =? "")%string); cbn [negb]; [|apply Z'].
  destruct (send_facts device_eui base64_payload fport false st)
    as (new & E & C & _ & _ & _ & A & _).
  exists new. split; [exact E|]. split; [exact C|]. split; [exact A|].
  discriminate.
Qed.

Lemma concerns_device (devices_data : list Melita.device_data)
    (device : Melita.device_data) (eui : string)
    (new : list (Melita.request * Melita.response)) :
  In device devices_data ->
  Melita.device_eui device = Some eui ->
  Forall (Melita.concerns eui) new ->
  Forall (Melita.concerns_one_of devices_data) new.
Proof.
  intros I D. apply Forall_impl. intros e [H|H]; [left; exact H|].
  right. exists device. split; [exact I|]. rewrite D, H. reflexivity.
Qed.

Lemma loop_facts (devices_data : list Melita.device_data) (fport : Z) :
  forall (c : Melita.counts) (st : Melita.state),
  let r :=
    Melita.send_temperature_loop py_int_of_str bytes_fromhex b64encode
      MELITA_API_KEY server devices_data fport (c, st) in
  exists new,
    Melita.requests_made (snd r) = (Melita.requests_made st ++ new)%list
    /\ Forall (Melita.concerns_one_of devices_data) new
    /\ Melita.success_count (fst r)
       = Melita.success_count c
         + Z.of_nat (List.length (filter Melita.accepted new))
    /\ Melita.success_count (fst r) + Melita.error_count (fst r)
       = Melita.success_count c + Melita.error_count c
         + Z.of_nat (List.length devices_data).
Proof.
  induction devices_data as [|device rest IH]; intros c st; cbv zeta.
  - exists []. cbn. rewrite app_nil_r. repeat split; [constructor|lia|lia].
  - cbn [Melita.send_temperature_loop].
    assert (W : forall new,
              Forall (Melita.concerns_one_of rest) new ->
              Forall (Melita.concerns_one_of (device :: rest)) new).
    { intros new. apply Forall_impl. intros e [H|(d & I & H)];
        [left; exact H|right; exists d; split; [right; exact I|exact H]]. }
    unfold Melita.send_temperature_to_one.
    destruct (negb (str_truthy (Melita.device_eui device)
                    && negb (is_None (Melita.min_temp device))
                    && negb (is_None (Melita.max_temp device)))).
    { destruct (IH (Melita.mkCounts (Melita.success_count c)
                      (Melita.error_count c + 1)) st)
        as (new & E & C & S & T).
      exists new. split; [exact E|]. split; [apply W, C|].
      cbn [Melita.success_count Melita.error_count] in S, T.
      cbn [List.length]. split; lia. }
    destruct (Melita.device_eui device) as [eui|] eqn:D.
    2:{ destruct (IH (Melita.mkCounts (Melita.success_count c)
                        (Melita.error_count c + 1)) st)
          as (new & E & C & S & T).
        exists new. split; [exact E|]. split; [apply W, C|].
        cbn [Melita.success_count Melita.error_count] in S, T.
        cbn [List.length]. split; lia. }
    destruct (vicki_facts eui (Melita.min_temp device)
                (Melita.max_temp device) (Melita.operational_mode device)
                fport st) as (new1 & E1 & C1 & A1 & _).
    destruct (Melita.send_temperature_to_vicki_device py_int_of_str
                bytes_fromhex b64encode MELITA_API_KEY server eui
                (Melita.min_temp device) (Melita.max_temp device)
                (Melita.operational_mode device) fport st)
      as [sent st1].
    cbn [fst snd] in E1, A1.
    assert (C1' : Forall (Melita.concerns_one_of (device :: rest)) new1)
      by (apply (concerns_device _ device eui); [left; reflexivity|exact D
                                                |exact C1]).
    destruct sent.
    + destruct (IH (Melita.mkCounts (Melita.success_count c + 1)
                      (Melita.error_count c)) st1)
        as (new & E & C & S & T).
      exists (new1 ++ new)%list.
      split; [rewrite E, E1, app_assoc; reflexivity|].
      split; [apply Forall_app; split; [exact C1'|apply W, C]|].
      cbn [Melita.success_count Melita.error_count] in S, T.
      rewrite filter_app, length_app. cbn [List.length]. split; lia.
    + destruct (IH (Melita.mkCounts (Melita.success_count c)
                      (Melita.error_count c + 1)) st1)
        as (new & E & C & S & T).
      exists (new1 ++ new)%list.
      split; [rewrite E, E1, app_assoc; reflexivity|].
      split; [apply Forall_app; split; [exact C1'|apply W, C]|].
      cbn [Melita.success_count Melita.error_count] in S, T.
      rewrite filter_app, length_app. cbn [List.length]. split; lia.
Qed.

(** X18. The loop over the thermostats accounts for every item: the
    success and error counters together grow by the number of items, the
    success counter by the number of messages that the server accepted,
    and every request made is a request for a token or about one of the
    devices listed. *)
Theorem send_temperature_loop_accounts
    (devices_data : list Melita.device_data) (fport : Z)
    (st : Melita.state) :
  let r :=
    Melita.send_temperature_loop py_int_of_str bytes_fromhex b64encode
      MELITA_API_KEY server devices_data fport (Melita.mkCounts 0 0, st) in
  exists new,
    Melita.requests_made (snd r) = (Melita.requests_made st ++ new)%list
    /\ Forall (Melita.concerns_one_of devices_data) new
    /\ Melita.success_count (fst r)
       = Z.of_nat (List.length (filter Melita.accepted new))
    /\ Melita.success_count (fst r) + Melita.error_count (fst r)
       = Z.of_nat (List.length devices_data).
Proof.
  cbv zeta.
  destruct (loop_facts devices_data fport (Melita.mkCounts 0 0) st)
    as (new & E & C & S & T).
  cbn [Melita.success_count Melita.error_count] in S, T.
  exists new. split; [exact E|]. split; [exact C|]. split; lia.
Qed.

(** X19. Sending the setpoints to all thermostats reports success exactly
    when the server accepted at least one message; with an empty list no
    request is made at all. *)
Theorem send_temperature_to_all_reports
    (devices_data : list Melita.device_data) (fport : Z)
    (st : Melita.state) :
  let r :=
    Melita.send_temperature_to_all_vicki_devices py_int_of_str
      bytes_fromhex b64encode MELITA_API_KEY server devices_data fport st in
  exists new,
    Melita.requests_made (snd r) = (Melita.requests_made st ++ new)%list
    /\ Forall (Melita.concerns_one_of devices_data) new
    /\ fst r = existsb Melita.accepted new
    /\ (devices_data = [] -> new = []).
Proof.
  cbv zeta. unfold Melita.send_temperature_to_all_vicki_devices.
  destruct devices_data as [|device rest].
  { exists []. rewrite app_nil_r. repeat split. constructor. }
  set (devices := device :: rest).
  destruct (generate_facts st) as (newg & Eg & Fg & _).
  destruct (Melita.generate_melita_bearer_token MELITA_API_KEY server st)
    as [token st1].
  cbn [fst snd] in Eg.
  assert (Cg : Forall (Melita.concerns_one_of devices) newg)
    by (eapply Forall_impl; [|exact Fg]; intros e He; left; exact He).
  assert (Ag : Forall (fun e => Melita.accepted e = false) newg)
    by (apply (auth_only _ _ auth_is_not_accepted), Fg).
  destruct (str_truthy token); cbn [negb].
  2:{ exists newg. split; [exact Eg|]. split; [exact Cg|].
      split; [|discriminate].
      cbn [fst]. rewrite existsb_filter, (filter_none _ _ Ag).
      reflexivity. }
  destruct (loop_facts devices fport (Melita.mkCounts 0 0) st1)
    as (new & E & C & S & _).
  destruct (Melita.send_temperature_loop py_int_of_str bytes_fromhex
              b64encode MELITA_API_KEY server devices fport
              (Melita.mkCounts 0 0, st1)) as [c st2].
  cbn [fst snd Melita.success_count] in E, S |- *.
  exists (newg ++ new)%list.
  split; [rewrite E, Eg, app_assoc; reflexivity|].
  split; [apply Forall_app; split; assumption|].
  split; [|discriminate].
  rewrite existsb_filter, filter_app, (filter_none _ _ Ag), S.
  reflexivity.
Qed.

End MelitaClient.

(** * The valve position check *)

Section ValveCheck.

Variable requests_post :
  list (CheckValvePosition.request * CheckValvePosition.response)
  -> CheckValvePosition.request -> CheckValvePosition.response.

Lemma valve_loop_facts (args : CheckValvePosition.arguments) (key : string)
    (devices : list (gmap string pyval)) :
  CheckValvePosition.lns_api_key args = Some key ->
  str_truthy (Some key) = true ->
  forall (c : CheckValvePosition.counts)
         (posted :
           list (CheckValvePosition.request * CheckValvePosition.response)),
  let r :=
    CheckValvePosition.main_devices requests_post args devices (c, posted) in
  let named := filter CheckValvePosition.has_device_id devices in
  exists new,
    snd r = (posted ++ new)%list
    /\ map fst new
       = (if CheckValvePosition.dry_run args then []
          else map (CheckValvePosition.valve_request args key) named)
    /\ CheckValvePosition.success_count (fst r)
       = CheckValvePosition.success_count c
         + (if CheckValvePosition.dry_run args
            then Z.of_nat (List.length named)
            else Z.of_nat
                   (List.length (filter CheckValvePosition.accepted new)))
    /\ CheckValvePosition.success_count (fst r)
       + CheckValvePosition.error_count (fst r)
       = CheckValvePosition.success_count c
         + CheckValvePosition.error_count c
         + Z.of_nat (List.length devices).
Proof.
  intros Hk Tk. induction devices as [|device rest IH]; intros c posted;
    cbv zeta.
  - exists []. cbn. rewrite app_nil_r.
    destruct (CheckValvePosition.dry_run args); repeat split; simpl; lia.
  - cbn [CheckValvePosition.main_devices filter].
    unfold CheckValvePosition.main_device.
    change (CheckValvePosition.has_device_id device)
      with (py_truthy (CheckValvePosition.device_id_of device)).
    destruct (py_truthy (CheckValvePosition.device_id_of device)) eqn:Td;
      cbn [negb].
    2:{ destruct (IH (CheckValvePosition.mkCounts
                        (CheckValvePosition.success_count c)
                        (CheckValvePosition.error_count c + 1)) posted)
          as (new & E & M & S & T).
        exists new. split; [exact E|]. split; [exact M|].
        cbn [CheckValvePosition.success_count
             CheckValvePosition.error_count] in S, T.
        cbn [List.length]. split; [exact S|lia]. }
    unfold CheckValvePosition.send_downlink. rewrite Hk, Tk. cbn [negb].
    destruct (CheckValvePosition.dry_run args) eqn:Dr.
    + destruct (IH (CheckValvePosition.mkCounts
                      (CheckValvePosition.success_count c + 1)
                      (CheckValvePosition.error_count c)) posted)
        as (new & E & M & S & T).
      exists new. split; [exact E|]. split; [exact M|].
      cbn [CheckValvePosition.success_count
           CheckValvePosition.error_count] in S, T.
      cbn [List.length]. split; lia.
    + set (rq := CheckValvePosition.mkRequest _ _ _).
      assert (Erq : rq = CheckValvePosition.valve_request args key device)
        by reflexivity.
      set (rs := requests_post posted rq). clearbody rs.
      assert (K : forall sent,
                sent = CheckValvePosition.accepted (rq, rs) ->
                let r :=
                  CheckValvePosition.main_devices requests_post args rest
                    (if sent
                     then (CheckValvePosition.mkCounts
                             (CheckValvePosition.success_count c + 1)
                             (CheckValvePosition.error_count c),
                           (posted ++ [(rq, rs)])%list)
                     else (CheckValvePosition.mkCounts
                             (CheckValvePosition.success_count c)
                             (CheckValvePosition.error_count c + 1),
                           (posted ++ [(rq, rs)])%list)) in
                exists new,
                  snd r = (posted ++ new)%list
                  /\ map fst new
                     = CheckValvePosition.valve_request args key device
                       :: map (CheckValvePosition.valve_request args key)
                            (filter CheckValvePosition.has_device_id rest)
                  /\ CheckValvePosition.success_count (fst r)
                     = CheckValvePosition.success_count c
                       + Z.of_nat
                           (List.length
                              (filter CheckValvePosition.accepted new))
                  /\ CheckValvePosition.success_count (fst r)
                     + CheckValvePosition.error_count (fst r)
                     = CheckValvePosition.success_count c
                       + CheckValvePosition.error_count c
                       + Z.of_nat (List.length (device :: rest))).
      { intros sent Hs. cbv zeta. destruct sent.
        - destruct (IH (CheckValvePosition.mkCounts
                          (CheckValvePosition.success_count c + 1)
                          (CheckValvePosition.error_count c))
                      (posted ++ [(rq, rs)])%list)
            as (new & E & M & S & T).
              exists ((rq, rs) :: new).
          split; [rewrite E, <- app_assoc; reflexivity|].
          split; [cbn [map fst]; rewrite M, Erq; reflexivity|].
          cbn [CheckValvePosition.success_count
               CheckValvePosition.error_count] in S, T.
          cbn [filter]. rewrite <- Hs. cbn [List.length]. split; lia.
        - destruct (IH (CheckValvePosition.mkCounts
                          (CheckValvePosition.success_count c)
                          (CheckValvePosition.error_count c + 1))
                      (posted ++ [(rq, rs)])%list)
            as (new & E & M & S & T).
              exists ((rq, rs) :: new).
          split; [rewrite E, <- app_assoc; reflexivity|].
          split; [cbn [map fst]; rewrite M, Erq; reflexivity|].
          cbn [CheckValvePosition.success_count
               CheckValvePosition.error_count] in S, T.
          cbn [filter]. rewrite <- Hs. cbn [List.length]. split; lia. }
      destruct rs as [status_code|].
      * exact (K ((status_code =? 200) || (status_code =? 201)
                  || (status_code =? 202)) eq_refl).
      * exact (K false eq_refl).
Qed.

(** X20. The valve check sends one downlink for each row that names its
    device, in the order of the rows, each with the frame [03F4],
    unconfirmed, at normal priority and with the first non-empty of the
    columns [device_id], [deviceId] and [id] as the device; a dry run
    sends none and counts these rows as successes. The success counter is
    the number of requests that the API accepted, and successes and
    errors together are the number of rows. *)
Theorem valve_check_accounts (args : CheckValvePosition.arguments)
    (devices : list (gmap string pyval)) (found : nat)
    (c : CheckValvePosition.counts)
    (posted :
      list (CheckValvePosition.request * CheckValvePosition.response)) :
  CheckValvePosition.main requests_post args (Some devices)
  = (CheckValvePosition.Summary found c, posted) ->
  let named := filter CheckValvePosition.has_device_id devices in
  found = List.length devices
  /\ CheckValvePosition.success_count c + CheckValvePosition.error_count c
     = Z.of_nat found
  /\ (exists key,
        CheckValvePosition.lns_api_key args = Some key
        /\ map fst posted
           = (if CheckValvePosition.dry_run args then []
              else map (CheckValvePosition.valve_request args key) named))
  /\ CheckValvePosition.success_count c
     = (if CheckValvePosition.dry_run args
        then Z.of_nat (List.length named)
        else Z.of_nat
               (List.length (filter CheckValvePosition.accepted posted))).
Proof.
  unfold CheckValvePosition.main. intros H. cbv zeta.
  destruct (str_truthy (CheckValvePosition.lns_api_key args)) eqn:Tk;
    cbn [negb] in H; [|discriminate H].
  destruct (negb (str_truthy (CheckValvePosition.pg_user args))
            || negb (str_truthy (CheckValvePosition.pg_password args)));
    [discriminate H|].
  destruct (CheckValvePosition.lns_api_key args) as [key|] eqn:Hk;
    [|discriminate Tk].
  destruct devices as [|device rest]; [discriminate H|].
  destruct (valve_loop_facts args key (device :: rest) Hk Tk
              (CheckValvePosition.mkCounts 0 0) [])
    as (new & E & M & S & T).
  destruct (CheckValvePosition.main_devices requests_post args
              (device :: rest) (CheckValvePosition.mkCounts 0 0, []))
    as [c' posted'].
  injection H as <- <- <-.
  cbn [fst snd app CheckValvePosition.success_count
       CheckValvePosition.error_count] in E, S, T.
  subst posted'. cbn [List.length] in T.
  split; [reflexivity|]. split; [lia|]. split.
  - exists key. split; [reflexivity|exact M].
  - rewrite S. destruct (CheckValvePosition.dry_run args); lia.
Qed.

End ValveCheck.

(** * Instances and counterexamples *)

(** ** C1: both known setpoints unknown *)

Lemma sync_device_both_unknown_witness :
  let r' :=
    sync_device float_of_str_unused endpoint (answers 200) live
      sample_deveui (PyInt 20) (PyInt 25) PyNone PyNone run0 in
  dispatched (run_trace r') = ["BDBF"]
  /\ min_query_sent (run_stats r') = 1
  /\ max_query_sent (run_stats r') = 1
  /\ combined_sent (run_stats r') = 1
  /\ min_temp_sent (run_stats r') = 0
  /\ max_temp_sent (run_stats r') = 0.
Proof.
  destruct (sync_device_both_unknown float_of_str_unused endpoint
              (answers 200) live sample_deveui (PyInt 20) (PyInt 25)
              PyNone PyNone run0 eq_refl eq_refl eq_refl eq_refl)
    as [Hd Hs].
  split; [exact Hd|]. exact (Hs eq_refl).
Defined.

(** ** C2: both known setpoints present and different *)


(** ** C3: one known setpoint unknown *)

(** An unknown minimum is queried with [BD] and the maximum is set; an
    unknown maximum is queried with [BF] and the minimum is set. *)
Lemma sync_device_mixed_witness :
  let unknown_min :=
    sync_device float_of_str_unused endpoint (answers 200) live
      sample_deveui (PyInt 20) (PyInt 25) PyNone (PyInt 24) run0 in
  let unknown_max :=
    sync_device float_of_str_unused endpoint (answers 200) live
      sample_deveui (PyInt 20) (PyInt 25) (PyInt 18) (PyInt 0) run0 in
  (dispatched (run_trace unknown_min) = ["BD"; "4032"]
   /\ combined_sent (run_stats unknown_min) = 0)
  /\ (dispatched (run_trace unknown_max) = ["3E28"; "BF"]
      /\ combined_sent (run_stats unknown_max) = 0).
Proof.
  split.
  - exact (sync_device_mixed float_of_str_unused endpoint (answers 200) live
             sample_deveui (PyInt 20) (PyInt 25) PyNone (PyInt 24)
             (inject_Z 20) (inject_Z 25) run0
             eq_refl eq_refl eq_refl eq_refl eq_refl).
  - exact (sync_device_mixed float_of_str_unused endpoint (answers 200) live
             sample_deveui (PyInt 20) (PyInt 25) (PyInt 18) (PyInt 0)
             (inject_Z 20) (inject_Z 25) run0
             eq_refl eq_refl eq_refl eq_refl eq_refl).
Defined.

(** ** C4: a second run *)

(** A desired minimum of zero: the first run sets it, the device reports
    zero back, and the second run, with the known values equal to the
    desired ones, still finds the minimum in need of a change and sends a
    query. *)
Lemma zero_setpoint_not_idempotent :
  dispatched
    (run_trace
       (sync_device float_of_str_unused endpoint (answers 200) live
          sample_deveui (PyInt 0) (PyInt 25) (PyInt 18) (PyInt 25) run0))
  = ["3E00"]
  /\ needs_temp (PyInt 0) (normalize_device_temp (PyInt 0)) = true
  /\ dispatched
       (run_trace
          (sync_device float_of_str_unused endpoint (answers 200) live
             sample_deveui (PyInt 0) (PyInt 25) (PyInt 0) (PyInt 25) run0))
     = ["BD"].
Proof. repeat split; reflexivity. Qed.

Lemma sync_device_in_sync_witness :
  needs_temp (PyInt 20) (normalize_device_temp (PyInt 20)) = false
  /\ needs_temp (PyInt 25) (normalize_device_temp (PyInt 25)) = false
  /\ run_trace
       (sync_device float_of_str_unused endpoint (answers 200) live
          sample_deveui (PyInt 20) (PyInt 25) (PyInt 20) (PyInt 25) run0)
     = [].
Proof.
  exact (sync_device_in_sync float_of_str_unused endpoint (answers 200) live
           sample_deveui (PyInt 20) (PyInt 25) run0
           (or_intror eq_refl) (or_intror eq_refl)).
Defined.

(** ** C5: the setpoint encoding *)

(** 128 degrees doubles to 256, which takes three digits; a negative
    temperature gets a sign instead of a digit. *)
Lemma setpoint_overflows_byte :
  temperature_to_hex_payload float_of_str_unused (PyInt 128) true
  = Some "3E100"
  /\ option_map String.length
       (temperature_to_hex_payload float_of_str_unused (PyInt 128) true)
     <> Some 4%nat
  /\ temperature_to_hex_payload float_of_str_unused (PyInt (-1)) false
     = Some "40-2".
Proof. repeat split; try reflexivity. discriminate. Qed.

Lemma temperature_to_hex_payload_byte_witness :
  temperature_to_hex_payload float_of_str_unused (PyFloat (41 # 2)) false
  = Some "4029".
Proof.
  destruct (temperature_to_hex_payload_byte float_of_str_unused
              (PyFloat (41 # 2)) (41 # 2) false eq_refl) as [H _].
  - vm_compute. split; discriminate.
  - exact H.
Defined.

(** ** C6: the normaliser *)

Lemma normalize_as_specified_examples :
  normalize_as_specified "EUI-aabbccdd11223344" = Some "AABBCCDD11223344"
  /\ normalize_as_specified "short123" = None.
Proof. split; reflexivity. Qed.

(** An [EUI-] in the middle of the string is deleted like a leading one,
    and a trailing line break is trimmed: the code accepts both inputs,
    the normaliser as specified rejects them. *)
Lemma normalize_deveui_beyond_prefix :
  normalize_deveui repr_float_unused (PyStr "AABBEUI-CCDD11223344")
  = Some "AABBCCDD11223344"
  /\ normalize_as_specified "AABBEUI-CCDD11223344" = None
  /\ normalize_deveui repr_float_unused (PyStr ("AABBCCDD11223344" ++ newline))
     = Some "AABBCCDD11223344"
  /\ normalize_as_specified ("AABBCCDD11223344" ++ newline) = None.
Proof. repeat split; reflexivity. Qed.

Lemma normalize_deveui_deletes_witness :
  normalize_deveui repr_float_unused (PyStr " eui_00-11:22 33 44 55 66 7a ")
  = Some "001122334455667A"
  /\ String.length "001122334455667A" = 16%nat
  /\ all_chars in_hex_digits "001122334455667A" = true.
Proof.
  split; [reflexivity|].
  exact (proj1 (proj2 (normalize_deveui_deletes repr_float_unused
                         " eui_00-11:22 33 44 55 66 7a "))
           "001122334455667A" eq_refl).
Defined.

(** ** C7: the identifier candidates *)





(** ** C8: the dispatcher *)

(** A 204 is a 2xx answer and is reported as a failure; a dry run without
    a configured endpoint reports a failure as well. *)
Lemma send_downlink_204_fails :
  send_downlink_to_agility endpoint (answers 204) sample_deveui 10 "BDBF"
    false []
  = (false, [Posted (mkDownlink sample_deveui 10 "BDBF") (Response 204)])
  /\ fst (send_downlink_to_agility None (answers 200) sample_deveui 10 "BDBF"
            true [])
     = false.
Proof. split; reflexivity. Qed.

Lemma send_downlink_outcomes_witness :
  send_downlink_to_agility endpoint (answers 201) sample_deveui 10 "BD"
    true []
  = (true, [DryRun (mkDownlink sample_deveui 10 "BD")])
  /\ send_downlink_to_agility endpoint (answers 201) sample_deveui 10 "BD"
       false []
     = (true, [Posted (mkDownlink sample_deveui 10 "BD") (Response 201)]).
Proof.
  destruct (send_downlink_outcomes endpoint (answers 201) sample_deveui 10
              "BD" [] eq_refl) as [[Hdry _] [Hlive _]].
  split; [exact Hdry|exact Hlive].
Defined.

(** ** C9: the device limit *)



(** ** C10: counters and failed transmissions *)

Lemma counters_and_outcomes_witness :
  let single :=
    sync_device float_of_str_unused endpoint (answers 500) live
      sample_deveui (PyInt 20) (PyInt 25) PyNone (PyInt 24) run0 in
  let combined :=
    sync_device float_of_str_unused endpoint (answers 500) live
      sample_deveui (PyInt 20) (PyInt 25) PyNone PyNone run0 in
  (errors (run_stats single) = 2
   /\ min_query_sent (run_stats single) = 1
   /\ max_temp_sent (run_stats single) = 1)
  /\ (errors (run_stats combined) = 1
      /\ min_query_sent (run_stats combined) = 0
      /\ max_query_sent (run_stats combined) = 0
      /\ combined_sent (run_stats combined) = 0).
Proof.
  split.
  - destruct (counters_and_outcomes float_of_str_unused endpoint
                (answers 500) live sample_deveui (PyInt 20) (PyInt 25)
                PyNone (PyInt 24) run0) as (He & Hs & _).
    destruct (Hs eq_refl) as (Hq & _ & _ & Ht & _).
    split; [exact He|]. split; [exact Hq|exact Ht].
  - destruct (counters_and_outcomes float_of_str_unused endpoint
                (answers 500) live sample_deveui (PyInt 20) (PyInt 25)
                PyNone PyNone run0) as (He & _ & Hc).
    destruct (Hc eq_refl) as (_ & Hmin & Hmax & _ & _ & Hcomb).
    split; [exact He|]. split; [exact Hmin|]. split; [exact Hmax|exact Hcomb].
Defined.

(** ** Further properties of the sync script *)

Lemma normalize_deveui_fixed_point_witness :
  normalize_deveui repr_float_unused (PyStr sample_deveui)
  = Some sample_deveui.
Proof.
  apply (normalize_deveui_fixed_point repr_float_unused
           (PyStr "eui-aa:bb:cc:dd:11:22:33:44") sample_deveui).
  vm_compute. reflexivity.
Defined.

Lemma temperature_payload_injective_witness :
  temperature_to_hex_payload float_of_str_unused (PyInt 20) true
  = temperature_to_hex_payload float_of_str_unused (PyFloat (81 # 4)) true.
Proof.
  apply (temperature_payload_injective float_of_str_unused (PyInt 20)
           (PyFloat (81 # 4)) (inject_Z 20) (81 # 4) true true
           eq_refl eq_refl).
  - vm_compute. split; discriminate.
  - vm_compute. split; discriminate.
  - split; reflexivity.
Defined.

Lemma main_frames_addressed_witness :
  exists r,
    main float_of_str_unused repr_float_unused endpoint (answers 200) live
      (registry_of [one_device_asset; unset_asset])
    = Some r
    /\ Forall
         (fun e =>
            canonical (dl_DevEUI (event_downlink e))
            /\ dl_FPort (event_downlink e) = fport live)
         (run_trace r).
Proof.
  destruct (main float_of_str_unused repr_float_unused endpoint
              (answers 200) live
              (registry_of [one_device_asset; unset_asset]))
    as [r|] eqn:E.
  - exists r. split; [reflexivity|].
    exact (main_frames_addressed float_of_str_unused repr_float_unused
             endpoint (answers 200) live
             (registry_of [one_device_asset; unset_asset]) r E).
  - vm_compute in E. discriminate E.
Defined.

Lemma main_dry_run_posts_nothing_witness :
  exists r,
    main float_of_str_unused repr_float_unused endpoint (answers 500) dry
      (registry_of [one_device_asset])
    = Some r
    /\ posted (run_trace r) = []
    /\ errors (run_stats r) = 0.
Proof.
  destruct (main float_of_str_unused repr_float_unused endpoint
              (answers 500) dry (registry_of [one_device_asset]))
    as [r|] eqn:E.
  - exists r. split; [reflexivity|].
    exact (main_dry_run_posts_nothing float_of_str_unused repr_float_unused
             endpoint (answers 500) dry (registry_of [one_device_asset]) r
             eq_refl E).
  - vm_compute in E. discriminate E.
Defined.

Lemma main_errors_are_failures_witness :
  exists r,
    main float_of_str_unused repr_float_unused endpoint (answers 500) live
      (registry_of [one_device_asset])
    = Some r
    /\ errors (run_stats r) = failures (run_trace r).
Proof.
  destruct (main float_of_str_unused repr_float_unused endpoint
              (answers 500) live (registry_of [one_device_asset]))
    as [r|] eqn:E.
  - exists r. split; [reflexivity|].
    exact (main_errors_are_failures float_of_str_unused repr_float_unused
             endpoint (answers 500) live (registry_of [one_device_asset]) r
             E).
  - vm_compute in E. discriminate E.
Defined.

Lemma main_frames_bounded_witness :
  exists r,
    main float_of_str_unused repr_float_unused endpoint (answers 200) live
      (registry_of [one_device_asset; one_device_asset])
    = Some r
    /\ Z.of_nat (List.length (run_trace r))
       <= 2 * (devices_processed (run_stats r)
               - skipped_no_deveui (run_stats r)).
Proof.
  destruct (main float_of_str_unused repr_float_unused endpoint
              (answers 200) live
              (registry_of [one_device_asset; one_device_asset]))
    as [r|] eqn:E.
  - exists r. split; [reflexivity|].
    exact (main_frames_bounded float_of_str_unused repr_float_unused
             endpoint (answers 200) live
             (registry_of [one_device_asset; one_device_asset]) r E).
  - vm_compute in E. discriminate E.
Defined.

Lemma main_assets_accounted_witness :
  exists r,
    main float_of_str_unused repr_float_unused endpoint (answers 200) live
      (registry_of [one_device_asset; unset_asset])
    = Some r
    /\ assets_processed (run_stats r) + skipped_no_asset_temp (run_stats r)
       <= 2.
Proof.
  destruct (main float_of_str_unused repr_float_unused endpoint
              (answers 200) live
              (registry_of [one_device_asset; unset_asset]))
    as [r|] eqn:E.
  - exists r. split; [reflexivity|].
    destruct (main_assets_accounted float_of_str_unused repr_float_unused
                endpoint (answers 200) live
                (registry_of [one_device_asset; unset_asset]) r E)
      as (_ & _ & H & _).
    exact H.
  - vm_compute in E. discriminate E.
Defined.

Lemma sync_device_min_only_witness :
  dispatched
    (run_trace
       (sync_device float_of_str_unused endpoint (answers 200) live
          sample_deveui (PyInt 20) PyNone (PyInt 18) PyNone run0))
  = ["3E28"].
Proof.
  destruct (sync_device_min_only float_of_str_unused endpoint (answers 200)
              live sample_deveui (PyInt 20) PyNone (PyInt 18) PyNone
              (inject_Z 20) run0 eq_refl eq_refl eq_refl) as [H _].
  exact H.
Defined.

Lemma sync_device_unencodable_pair_witness :
  sync_device float_of_str_rejects endpoint (answers 200) live sample_deveui
    (PyStr "warm") (PyInt 25) (PyInt 18) (PyInt 24) run0
  = run0.
Proof.
  exact (sync_device_unencodable_pair float_of_str_rejects endpoint
           (answers 200) live sample_deveui (PyStr "warm") (PyInt 25)
           (PyInt 18) (PyInt 24) run0 eq_refl eq_refl (or_introl eq_refl)
           eq_refl eq_refl eq_refl eq_refl).
Defined.

Lemma sync_device_unencodable_min_witness :
  let r' :=
    sync_device float_of_str_rejects endpoint (answers 200) live
      sample_deveui (PyStr "warm") PyNone (PyInt 18) PyNone run0 in
  run_trace r' = []
  /\ min_temp_sent (run_stats r') = 1
  /\ errors (run_stats r') = 0.
Proof.
  exact (sync_device_unencodable_min float_of_str_rejects endpoint
           (answers 200) live sample_deveui (PyStr "warm") PyNone (PyInt 18)
           PyNone run0 eq_refl eq_refl eq_refl eq_refl eq_refl).
Defined.

(** ** The ThingsBoard client *)

Lemma attributes_last_entry_wins_witness :
  ThingsBoard.get_asset_attributes
    (ThingsBoard.Response 200 (JList ThingsBoard.sample_attributes))
  = Some (ThingsBoard.mkAssetAttributes (JInt 20) (JInt 25)).
Proof.
  exact (proj1 (attributes_last_entry_wins ThingsBoard.sample_attributes
                  eq_refl)).
Defined.

Lemma get_asset_devices_supported_witness :
  Forall (fun device => ThingsBoard.supported device = true)
    [ThingsBoard.device_of_type "dnt-LW-eTRV"].
Proof.
  destruct (get_asset_devices_supported ThingsBoard.sample_devices
              [ThingsBoard.relation_to "d1"; ThingsBoard.relation_to "d2";
               ThingsBoard.relation_to "d3"]
              [ThingsBoard.device_of_type "dnt-LW-eTRV"] eq_refl)
    as [H _].
  eapply Forall_impl; [|exact H]. intros device [S _]. exact S.
Defined.

Lemma get_customer_assets_complete_witness :
  ThingsBoard.get_customer_assets 5 ThingsBoard.two_pages
  = ThingsBoard.Returned [JInt 0; JInt 1].
Proof.
  apply (get_customer_assets_complete ThingsBoard.two_pages
           ThingsBoard.one_asset 2 5); [lia|lia|].
  intros p _. reflexivity.
Defined.

Lemma get_customer_assets_interrupted_witness :
  ThingsBoard.get_customer_assets 5 ThingsBoard.second_page_fails
  = ThingsBoard.Returned [JInt 0].
Proof.
  destruct (get_customer_assets_interrupted ThingsBoard.second_page_fails
              ThingsBoard.one_asset 3 1 5) as [H _].
  - lia.
  - lia.
  - intros p Hp. assert (p = 0) as -> by lia. reflexivity.
  - apply (H 500 JNull); [reflexivity|discriminate].
Defined.

(** ** The Melita.io client *)

Lemma create_temperature_hex_payload_bytes_witness :
  exists p,
    Melita.create_temperature_hex_payload Melita.int_of_str_unused
      (PyInt 18) (PyFloat (49 # 2)) (PyInt 10)
    = Some p
    /\ String.length p = 14%nat
    /\ Melita.hex_bytes p = [8; 18; 24; 13; 2; 21; 24].
Proof.
  destruct (create_temperature_hex_payload_bytes Melita.int_of_str_unused
              (PyInt 18) (PyFloat (49 # 2)) (PyInt 10) 18 24
              eq_refl eq_refl) as [H _].
  apply H. lia.
Defined.

(** ** The valve position check *)

Lemma valve_check_accounts_witness :
  exists c posted,
    CheckValvePosition.main CheckValvePosition.accepts_all
      CheckValvePosition.sample_args (Some CheckValvePosition.sample_rows)
    = (CheckValvePosition.Summary 3 c, posted)
    /\ CheckValvePosition.success_count c + CheckValvePosition.error_count c
       = 3
    /\ map fst posted
       = map (CheckValvePosition.valve_request
                CheckValvePosition.sample_args "key")
           (filter CheckValvePosition.has_device_id
              CheckValvePosition.sample_rows).
Proof.
  destruct (CheckValvePosition.main CheckValvePosition.accepts_all
              CheckValvePosition.sample_args
              (Some CheckValvePosition.sample_rows))
    as [[| |found c] posted] eqn:E;
    try (vm_compute in E; discriminate E).
  assert (found = 3%nat) as -> by (vm_compute in E; congruence).
  exists c, posted. split; [reflexivity|].
  destruct (valve_check_accounts CheckValvePosition.accepts_all
              CheckValvePosition.sample_args CheckValvePosition.sample_rows
              3 c posted E) as (_ & T & (key & K & M) & _).
  split; [exact T|]. injection K as <-. exact M.
Defined.
